(** * QuantForge equity data connectors: a shallow embedding

    The development follows [connectors.py]: the canonical OHLCV record, the
    sliding-window [RateLimiter], the [retry_with_backoff] decorator, the seven
    concrete connectors, the registry and [fetch_with_fallback].

    Conventions.
    - Python exceptions are values of [exn]; a call that may raise returns a
      [result].  Only subclasses of [Exception] are modelled.
    - Time ([time.time()], [datetime.now()], [datetime] values, sleep lengths)
      is a rational number of seconds on one time line; prices are values of
      an abstract type [float] produced by the builtin [float(...)].
    - Effects are threaded through an explicit [World]; the upstream services
      and the Python builtins whose code is not part of the repository are
      section variables.
    - Calls to [logger] have no influence on control flow or on the values
      returned and are left out. *)

From Stdlib Require Import QArith Qround Lqa ZArith Lia Bool List Sorted Permutation Ascii String.
From stdpp Require Import base gmap strings list.

Set Warnings "-register-all".

Local Open Scope Z_scope.
Local Open Scope Q_scope.
Local Open Scope string_scope.
Local Open Scope list_scope.

(** ** Exceptions and results *)

Inductive exn : Type :=
| KeyError
| ValueError
| JSONDecodeError          (* a subclass of ValueError *)
| IndexError
| TypeError
| AttributeError
| OverflowError
| ImportError
| ConnectionError
| Timeout
| Exception_ (name : string).

(** [except (KeyError, ValueError)] also catches the subclasses. *)
Definition is_KeyError_or_ValueError (e : exn) : bool :=
  match e with
  | KeyError | ValueError | JSONDecodeError => true
  | _ => false
  end.

Inductive result (A : Type) : Type :=
| Returned (a : A)
| Raised (e : exn).
Arguments Returned {A} a.
Arguments Raised {A} e.

Definition rbind {A B} (m : result A) (k : A -> result B) : result B :=
  match m with
  | Returned a => k a
  | Raised e => Raised e
  end.

Declare Scope py_scope.
Delimit Scope py_scope with py.
Notation "x <- m ;; k" := (rbind m (fun x => k))
  (at level 20, m at level 99, k at level 200, only parsing) : py_scope.

(** ** Rational time *)

Definition Qlt_bool (x y : Q) : bool := negb (Qle_bool y x).

(** [int(x)] on a float: truncation towards zero. *)
Definition int_of_Q (x : Q) : Z := Z.quot (Qnum x) (Zpos (Qden x)).

(** Rounding away from zero. *)
Definition round_away (x : Q) : Z :=
  if Qlt_bool x 0 then Qfloor x else Qceiling x.

Definition fits_int64 (z : Z) : bool := ((- 2 ^ 63 <=? z) && (z <? 2 ^ 63))%Z.

(** [range(n)]: empty when [n <= 0]. *)
Definition range (n : Z) : list Z := List.map Z.of_nat (seq 0 (Z.to_nat n)).

(** ** Retry policy

    [retry_with_backoff(max_retries, base_delay)(func)].  The state type and
    [time.sleep] are parameters, so that the decorator can be run over any
    state; the connectors run it over the [World] below.  An [Exit] names the
    statement through which the wrapper is left. *)

Section Retry.

Context {St B : Type}.
Variable sleep : Q -> St -> result unit * St.       (* time.sleep *)

Inductive Exit : Type :=
| ReturnTry (v : list B)      (* return func(...) *)
| Reraise (e : exn)           (* raise, when attempt == max_retries - 1 *)
| HandlerFault (e : exn)      (* an exception raised inside the handler *)
| ReturnAfterLoop.            (* return [] *)

Definition exit_result (x : Exit) : result (list B) :=
  match x with
  | ReturnTry v => Returned v
  | Reraise e => Raised e
  | HandlerFault e => Raised e
  | ReturnAfterLoop => Returned []
  end.

Fixpoint retry_loop (max_retries : Z) (base_delay : Q)
    (func : St -> result (list B) * St) (attempts : list Z) (s : St)
    : Exit * St :=
  match attempts with
  | [] => (ReturnAfterLoop, s)
  | attempt :: rest =>
      match func s with
      | (Returned v, s1) => (ReturnTry v, s1)
      | (Raised e, s1) =>
          if (attempt =? max_retries - 1)%Z then (Reraise e, s1)
          else
            let delay := base_delay * inject_Z (2 ^ attempt) in
            match sleep delay s1 with
            | (Returned _, s2) => retry_loop max_retries base_delay func rest s2
            | (Raised e', s2) => (HandlerFault e', s2)
            end
      end
  end.

Definition retry_exit (max_retries : Z) (base_delay : Q)
    (func : St -> result (list B) * St) (s : St) : Exit * St :=
  retry_loop max_retries base_delay func (range max_retries) s.

Definition retry_with_backoff (max_retries : Z) (base_delay : Q)
    (func : St -> result (list B) * St) (s : St) : result (list B) * St :=
  let '(x, s') := retry_exit max_retries base_delay func s in
  (exit_result x, s').

End Retry.

(** ** JSON values, as [resp.json()] hands them to the connectors *)

Section Connectors.

Context {float : Type}.

Inductive json : Type :=
| JNull
| JBool (b : bool)
| JInt (z : Z)
| JFloat (x : float)
| JStr (s : string)
| JList (l : list json)
| JDict (d : list (string * json)).   (* insertion order, as a Python dict *)

Fixpoint assoc {V : Type} (k : string) (d : list (string * V)) : option V :=
  match d with
  | [] => None
  | (k', v) :: d' => if String.eqb k k' then Some v else assoc k d'
  end.

(** [j.get(key, default)] *)
Definition dict_get (j : json) (key : string) (dflt : json) : result json :=
  match j with
  | JDict d => Returned (default dflt (assoc key d))
  | _ => Raised AttributeError
  end.

(** [j[key]] with a string key *)
Definition getitem (j : json) (key : string) : result json :=
  match j with
  | JDict d => match assoc key d with
               | Some v => Returned v
               | None => Raised KeyError
               end
  | _ => Raised TypeError
  end.

Definition string_of_ascii (c : Ascii.ascii) : string := String c EmptyString.

(** [j[i]] with an integer index [0 <= i]: a dict decoded from JSON has
    string keys only, so an integer key is never present. *)
Definition getitem_int (j : json) (i : nat) : result json :=
  match j with
  | JList l => match nth_error l i with
               | Some v => Returned v
               | None => Raised IndexError
               end
  | JStr s => match String.get i s with
              | Some c => Returned (JStr (string_of_ascii c))
              | None => Raised IndexError
              end
  | JDict _ => Raised KeyError
  | _ => Raised TypeError
  end.

(** [len(j)] *)
Definition json_len (j : json) : result nat :=
  match j with
  | JList l => Returned (List.length l)
  | JStr s => Returned (String.length s)
  | JDict d => Returned (List.length d)
  | _ => Raised TypeError
  end.

Definition is_substring (pat s : string) : bool :=
  match String.index 0 pat s with
  | Some _ => true
  | None => false
  end.

Definition is_JStr (key : string) (j : json) : bool :=
  match j with
  | JStr s => String.eqb s key
  | _ => false
  end.

(** [key in j] for a string [key] *)
Definition json_contains (key : string) (j : json) : result bool :=
  match j with
  | JDict d => Returned (match assoc key d with Some _ => true | None => false end)
  | JList l => Returned (existsb (is_JStr key) l)
  | JStr s => Returned (is_substring key s)
  | _ => Raised TypeError
  end.

Fixpoint chars (s : string) : list json :=
  match s with
  | EmptyString => []
  | String c s' => JStr (string_of_ascii c) :: chars s'
  end.

(** [for item in j] *)
Definition json_iter (j : json) : result (list json) :=
  match j with
  | JList l => Returned l
  | JDict d => Returned (List.map (fun kv => JStr (fst kv)) d)
  | JStr s => Returned (chars s)
  | _ => Raised TypeError
  end.

(** [j.items()] *)
Definition json_items (j : json) : result (list (string * json)) :=
  match j with
  | JDict d => Returned d
  | _ => Raised AttributeError
  end.

(** ** Builtins and library functions used by the connectors

    Their code is outside the repository; they are taken as they are, with
    the exceptions they may raise. *)

Record Builtins : Type := {
  float_ : json -> result float;              (* float(x) *)
  int_ : json -> result Z;                    (* int(x) *)
  upper : string -> string;                   (* s.upper() *)
  split : string -> list string;              (* s.split() *)
  strptime : string -> string -> result Q;    (* datetime.strptime(s, fmt) *)
  strftime : Q -> string -> string;           (* d.strftime(fmt) *)
  fromtimestamp : json -> result Q;           (* datetime.fromtimestamp(x) *)
  truediv : json -> Z -> result json          (* x / n *)
}.

Variable py : Builtins.

(** [x.split()[0]]: [split] is a method of [str] only, and the list it
    returns may be empty. *)
Definition split_first (j : json) : result string :=
  match j with
  | JStr s => match split py s with
              | tok :: _ => Returned tok
              | [] => Raised IndexError
              end
  | _ => Raised AttributeError
  end.

(** [datetime.strptime(j, fmt)] *)
Definition json_strptime (j : json) (fmt : string) : result Q :=
  match j with
  | JStr s => strptime py s fmt
  | _ => Raised TypeError
  end.

(** [datetime] arithmetic: [d - timedelta(days=n)].  [timedelta] accepts
    at most 999999999 days and a [datetime] lies between the years 1 and
    9999; both raise [OverflowError] otherwise. *)
Definition datetime_min : Q := inject_Z (-62135596800).
Definition datetime_max : Q := inject_Z 253402300800.

Definition seconds_of_days (n : Z) : Q := inject_Z (86400 * n).

Definition sub_days (d : Q) (n : Z) : result Q :=
  if (999999999 <? Z.abs n)%Z then Raised OverflowError
  else
    let r := d - seconds_of_days n in
    if Qlt_bool r datetime_min || Qle_bool datetime_max r
    then Raised OverflowError
    else Returned r.

(** ** Data model *)

Record OHLCVData : Type := {
  timestamp : Q;
  ticker : string;
  interval : string;
  open : float;
  high : float;
  low : float;
  close : float;
  volume : Z;
  adj_close : option float;     (* Optional[float] = None *)
  source : string
}.

(** ** The world: clock, effects, rate limiter objects, upstream services *)

Inductive param : Type :=
| PStr (s : string)
| PInt (z : Z)
| PNone.

Inductive Request : Type :=
| HttpGet (url : string) (params : list (string * param)) (timeout : Z)
| YfHistory (symbol : string) (period_days : Z) (yf_interval : string).

Record Response : Type := {
  status_code : Z;
  json_ : result json            (* resp.json() *)
}.

(** What came back from an outbound call. *)
Inductive Answer : Type :=
| HttpAnswer (r : result Response)
| HistoryAnswer (r : result (list (Q * json))).

Record RateLimiter : Type := {
  requests_per_window : Z;
  window_seconds : Z;
  _request_times : gmap string (list Q)
}.

Context {Env : Type}.

Record World : Type := {
  clock : Q;                        (* time.time(), datetime.now() *)
  slept : list Q;                   (* lengths passed to time.sleep, oldest first *)
  outbound : list Request;          (* outbound calls, oldest first *)
  inbound : list Answer;            (* what came back, call by call *)
  limiters : gmap nat RateLimiter;  (* the RateLimiter object of each connector *)
  upstream : Env                    (* state of the remote services *)
}.

(** The remote services: each call yields a response or a transport fault,
    the clock reading when it comes back, and the services' next state.
    [stock.history] yields the rows of the data frame as [(idx, row)]. *)
Record Upstream : Type := {
  http_get : string -> list (string * param) -> Z -> Q -> Env ->
             result Response * Q * Env;
  yf_history : string -> Z -> string -> Q -> Env ->
               result (list (Q * json)) * Q * Env
}.

Variable remote : Upstream.

Definition M (A : Type) : Type := World -> result A * World.

Definition ret {A} (a : A) : M A := fun w => (Returned a, w).
Definition raise {A} (e : exn) : M A := fun w => (Raised e, w).
Definition bind {A B} (m : M A) (k : A -> M B) : M B :=
  fun w => match m w with
           | (Returned a, w') => k a w'
           | (Raised e, w') => (Raised e, w')
           end.
Definition lift {A} (r : result A) : M A := fun w => (r, w).

Notation "x <-- m ;; k" := (bind m (fun x => k))
  (at level 20, m at level 99, k at level 200, only parsing) : py_scope.

(** [time.sleep(d)].  The length is first converted to a count of
    nanoseconds, rounded away from zero; a count that does not fit a signed
    64-bit integer (a length of about 9.2e9 seconds or more) raises
    [OverflowError].  After that a negative length raises [ValueError].
    Lengths are exact rationals here; the float values [inf] and [nan],
    which Python refuses with [OverflowError] and [ValueError], have no
    counterpart. *)
Definition sleep_ns (d : Q) : Z := round_away (d * inject_Z (10 ^ 9)).

Definition time_sleep (d : Q) : M unit := fun w =>
  if negb (fits_int64 (sleep_ns d)) then (Raised OverflowError, w)
  else if Qlt_bool d 0 then (Raised ValueError, w)
  else (Returned tt,
        {| clock := clock w + d; slept := slept w ++ [d];
           outbound := outbound w; inbound := inbound w;
           limiters := limiters w; upstream := upstream w |}).

(** [requests.get(url, params=..., timeout=...)] *)
Definition requests_get (url : string) (params : list (string * param))
    (timeout : Z) : M Response := fun w =>
  let '(r, t, env) := http_get remote url params timeout (clock w) (upstream w) in
  (r, {| clock := t; slept := slept w;
         outbound := outbound w ++ [HttpGet url params timeout];
         inbound := inbound w ++ [HttpAnswer r];
         limiters := limiters w; upstream := env |}).

(** [yf.Ticker(symbol).history(period=f"{days}d", interval=...)] with
    [df.iterrows()] *)
Definition yf_Ticker_history (symbol : string) (days : Z) (yf_interval : string)
    : M (list (Q * json)) := fun w =>
  let '(r, t, env) := yf_history remote symbol days yf_interval (clock w) (upstream w) in
  (r, {| clock := t; slept := slept w;
         outbound := outbound w ++ [YfHistory symbol days yf_interval];
         inbound := inbound w ++ [HistoryAnswer r];
         limiters := limiters w; upstream := env |}).

(** ** RateLimiter *)

Definition RateLimiter_init (requests_per_window window_seconds : Z) : RateLimiter :=
  {| requests_per_window := requests_per_window;
     window_seconds := window_seconds;
     _request_times := ∅ |}.

Definition set_request_times (self : RateLimiter) (key : string) (ts : list Q)
    : RateLimiter :=
  {| requests_per_window := requests_per_window self;
     window_seconds := window_seconds self;
     _request_times := <[key := ts]> (_request_times self) |}.

(** The timestamps of [key] that survive the cleaning at time [now]. *)
Definition surviving (self : RateLimiter) (key : string) (now : Q) : list Q :=
  List.filter (fun t => Qlt_bool (now - inject_Z (window_seconds self)) t)
              (default [] (_request_times self !! key)).

(** [RateLimiter.wait_if_needed(key)].  The object is updated in place, so
    the cleaned list stays in it when an exception leaves the method. *)
Definition wait_if_needed (self : RateLimiter) (key : string) (w : World)
    : result unit * RateLimiter * World :=
  let now := clock w in
  let cutoff := now - inject_Z (window_seconds self) in
  let times := surviving self key now in
  let self1 := set_request_times self key times in
  if (requests_per_window self <=? Z.of_nat (List.length times))%Z then
    match times with
    | [] => (Raised IndexError, self1, w)          (* self._request_times[key][0] *)
    | t0 :: _ =>
        let sleep_time := t0 - cutoff + (1 # 10) in
        if Qlt_bool 0 sleep_time then
          match time_sleep sleep_time w with
          | (Raised e, w') => (Raised e, self1, w')
          | (Returned _, w') =>
              (Returned tt, set_request_times self1 key (times ++ [now]), w')
          end
        else (Returned tt, set_request_times self1 key (times ++ [now]), w)
    end
  else (Returned tt, set_request_times self1 key (times ++ [now]), w).

(** ** Connectors *)

Inductive Provider : Type :=
| YFinance | AlphaVantage | Finnhub | TwelveData | FMP | Polygon | IEXCloud.

Definition SOURCE_NAME_of (p : Provider) : string :=
  match p with
  | YFinance => "yfinance"
  | AlphaVantage => "alpha_vantage"
  | Finnhub => "finnhub"
  | TwelveData => "twelve_data"
  | FMP => "fmp"
  | Polygon => "polygon"
  | IEXCloud => "iex_cloud"
  end.

Definition BASE_URL (p : Provider) : string :=
  match p with
  | YFinance => ""
  | AlphaVantage => "https://www.alphavantage.co/query"
  | Finnhub => "https://finnhub.io/api/v1"
  | TwelveData => "https://api.twelvedata.com"
  | FMP => "https://financialmodelingprep.com/api/v3"
  | Polygon => "https://api.polygon.io"
  | IEXCloud => "https://cloud.iexapis.com/stable"
  end.

Definition SUPPORTED_INTERVALS_of (p : Provider) : list string :=
  match p with
  | FMP => ["1m"; "5m"; "15m"; "30m"; "1h"; "4h"; "1d"]
  | IEXCloud => ["1d"]
  | _ => ["1m"; "5m"; "15m"; "30m"; "1h"; "1d"; "1w"]
  end.

Definition RATE_LIMIT_REQUESTS_of (p : Provider) : Z :=
  match p with
  | YFinance => 100
  | AlphaVantage => 5
  | Finnhub => 60
  | TwelveData => 8
  | FMP => 5
  | Polygon => 5
  | IEXCloud => 100
  end.

Definition RATE_LIMIT_WINDOW_of (p : Provider) : Z := 60.

(** The environment variable holding the credential; yfinance has none. *)
Definition API_KEY_VAR (p : Provider) : option string :=
  match p with
  | YFinance => None
  | AlphaVantage => Some "ALPHA_VANTAGE_API_KEY"
  | Finnhub => Some "FINNHUB_API_KEY"
  | TwelveData => Some "TWELVE_DATA_API_KEY"
  | FMP => Some "FMP_API_KEY"
  | Polygon => Some "POLYGON_API_KEY"
  | IEXCloud => Some "IEX_CLOUD_API_KEY"
  end.

(** A connector object: its class, its [api_key] attribute (absent on
    yfinance, kept empty) and the address of its [rate_limiter]. *)
Record Connector : Type := {
  provider : Provider;
  api_key : string;
  rate_limiter : nat
}.

Definition set_limiters (w : World) (ls : gmap nat RateLimiter) : World :=
  {| clock := clock w; slept := slept w; outbound := outbound w;
     inbound := inbound w; limiters := ls; upstream := upstream w |}.

(** [self.rate_limiter.wait_if_needed(key)] *)
Definition rate_limit (self : Connector) (key : string) : M unit := fun w =>
  match limiters w !! rate_limiter self with
  | None => (Raised AttributeError, w)
  | Some rl =>
      let '(r, rl', w') := wait_if_needed rl key w in
      (r, set_limiters w' (<[rate_limiter self := rl']> (limiters w')))
  end.

(** [for x in items: try: ... except (KeyError, ValueError): continue].
    The body yields the record to append, or nothing after [continue]. *)
Definition except_KeyError_ValueError (r : result (option OHLCVData))
    : result (option OHLCVData) :=
  match r with
  | Raised e => if is_KeyError_or_ValueError e then Returned None else Raised e
  | _ => r
  end.

Fixpoint for_each {A : Type} (body : A -> result (option OHLCVData))
    (items : list A) : result (list OHLCVData) :=
  match items with
  | [] => Returned []
  | x :: rest =>
      match body x with
      | Raised e => Raised e
      | Returned o =>
          match for_each body rest with
          | Raised e => Raised e
          | Returned rs => Returned (match o with Some r => r :: rs | None => rs end)
          end
      end
  end.

(** [result.sort(key=lambda x: x.timestamp)]: the stable ascending sort. *)
Fixpoint insert_by_timestamp (x : OHLCVData) (l : list OHLCVData) : list OHLCVData :=
  match l with
  | [] => [x]
  | y :: l' =>
      if Qle_bool (timestamp x) (timestamp y) then x :: y :: l'
      else y :: insert_by_timestamp x l'
  end.

Fixpoint sort_by_timestamp (l : list OHLCVData) : list OHLCVData :=
  match l with
  | [] => []
  | x :: l' => insert_by_timestamp x (sort_by_timestamp l')
  end.

(** [datetime.now()] *)
Definition datetime_now : M Q := fun w => (Returned (clock w), w).

Definition map_get (m : list (string * string)) (k dflt : string) : string :=
  default dflt (assoc k m).

Local Open Scope py_scope.

(** Keyword arguments are evaluated left to right, so the first failing
    conversion decides which exception leaves the constructor call. *)
Definition get_float (j : json) (key : string) (dflt : json) : result float :=
  x <- dict_get j key dflt;; float_ py x.

Definition item_float (j : json) (key : string) : result float :=
  x <- getitem j key;; float_ py x.

Definition index_float (j : json) (i : nat) : result float :=
  x <- getitem_int j i;; float_ py x.

(** *** YFinanceConnector *)

Definition yfinance_interval_map : list (string * string) :=
  [("1m", "1m"); ("5m", "5m"); ("15m", "15m"); ("30m", "30m");
   ("1h", "1h"); ("1d", "1d"); ("1w", "1wk")].

Definition yfinance_row (ticker interval : string) (ir : Q * json)
    : result (option OHLCVData) :=
  let '(idx, row) := ir in
  o <- item_float row "Open";;
  h <- item_float row "High";;
  l <- item_float row "Low";;
  c <- item_float row "Close";;
  v <- (x <- getitem row "Volume";; int_ py x);;
  a <- (d <- getitem row "Close";; get_float row "Adj Close" d);;
  Returned (Some {| timestamp := idx; ticker := upper py ticker;
                    interval := interval; open := o; high := h; low := l;
                    close := c; volume := v; adj_close := Some a;
                    source := SOURCE_NAME_of YFinance |}).

Definition YFinanceConnector_fetch (self : Connector)
    (ticker interval : string) (lookback_days : Z) : M (list OHLCVData) :=
  _ <-- rate_limit self ticker;;
  let yf_interval := map_get yfinance_interval_map interval "1d" in
  df <-- yf_Ticker_history ticker lookback_days yf_interval;;
  lift (for_each (yfinance_row ticker interval) df).

(** *** AlphaVantageConnector *)

Definition is_daily (interval : string) : bool :=
  String.eqb interval "1d" || String.eqb interval "1w".

Definition alpha_vantage_item (cutoff : Q) (ticker interval : string)
    (kv : string * json) : result (option OHLCVData) :=
  let '(date_str, values) := kv in
  except_KeyError_ValueError (
    tok <- split_first (JStr date_str);;
    ts <- strptime py tok "%Y-%m-%d";;
    if Qlt_bool ts cutoff then Returned None
    else
      o <- get_float values "1. open" (JInt 0);;
      h <- get_float values "2. high" (JInt 0);;
      l <- get_float values "3. low" (JInt 0);;
      c <- get_float values "4. close" (JInt 0);;
      v <- (d <- dict_get values "5. volume" (JInt 0);;
            x <- dict_get values "6. volume" d;; int_ py x);;
      a <- (d <- dict_get values "4. close" (JInt 0);;
            get_float values "5. adjusted close" d);;
      Returned (Some {| timestamp := ts; ticker := upper py ticker;
                        interval := interval; open := o; high := h; low := l;
                        close := c; volume := v; adj_close := Some a;
                        source := SOURCE_NAME_of AlphaVantage |})).

Definition AlphaVantageConnector_fetch (self : Connector)
    (ticker interval : string) (lookback_days : Z) : M (list OHLCVData) :=
  if String.eqb (api_key self) "" then ret []
  else
    _ <-- rate_limit self ticker;;
    let function := if is_daily interval then "TIME_SERIES_DAILY_ADJUSTED"
                    else "TIME_SERIES_INTRADAY" in
    let data_key := if is_daily interval then "Time Series (Daily)"
                    else "Time Series (" +:+ interval +:+ ")" in
    resp <-- requests_get (BASE_URL AlphaVantage)
               [("function", PStr function);
                ("symbol", PStr ticker);
                ("apikey", PStr (api_key self));
                ("outputsize", PStr (if (lookback_days <=? 100)%Z
                                     then "compact" else "full"));
                ("interval", if is_daily interval then PNone else PStr interval)]
               30;;
    if negb (status_code resp =? 200)%Z then ret []
    else
      data <-- lift (json_ resp);;
      time_series <-- lift (dict_get data data_key (JDict []));;
      now <-- datetime_now;;
      cutoff <-- lift (sub_days now lookback_days);;
      items <-- lift (json_items time_series);;
      result <-- lift (for_each (alpha_vantage_item cutoff ticker interval) items);;
      ret (sort_by_timestamp result).

(** *** FinnhubConnector *)

Definition finnhub_res_map : list (string * string) :=
  [("1m", "1"); ("5m", "5"); ("15m", "15"); ("30m", "30");
   ("1h", "60"); ("1d", "D"); ("1w", "W")].

Definition finnhub_bar (ticker interval : string)
    (timestamps opens highs lows closes volumes : json) (i : nat)
    : result (option OHLCVData) :=
  ts <- (x <- getitem_int timestamps i;; fromtimestamp py x);;
  o <- index_float opens i;;
  h <- index_float highs i;;
  l <- index_float lows i;;
  c <- index_float closes i;;
  v <- (x <- getitem_int volumes i;; int_ py x);;
  Returned (Some {| timestamp := ts; ticker := upper py ticker;
                    interval := interval; open := o; high := h; low := l;
                    close := c; volume := v; adj_close := None;
                    source := SOURCE_NAME_of Finnhub |}).

Definition FinnhubConnector_fetch (self : Connector)
    (ticker interval : string) (lookback_days : Z) : M (list OHLCVData) :=
  if String.eqb (api_key self) "" then ret []
  else
    _ <-- rate_limit self ticker;;
    let resolution := map_get finnhub_res_map interval "D" in
    now <-- datetime_now;;
    let end_ := int_of_Q now in
    now' <-- datetime_now;;
    from <-- lift (sub_days now' lookback_days);;
    let start := int_of_Q from in
    resp <-- requests_get (BASE_URL Finnhub +:+ "/stock/candle")
               [("symbol", PStr (upper py ticker));
                ("resolution", PStr resolution);
                ("from", PInt start);
                ("to", PInt end_);
                ("token", PStr (api_key self))]
               30;;
    if negb (status_code resp =? 200)%Z then ret []
    else
      data <-- lift (json_ resp);;
      s <-- lift (dict_get data "s" JNull);;
      if negb (is_JStr "ok" s) then ret []
      else
        timestamps <-- lift (dict_get data "t" (JList []));;
        opens <-- lift (dict_get data "o" (JList []));;
        highs <-- lift (dict_get data "h" (JList []));;
        lows <-- lift (dict_get data "l" (JList []));;
        closes <-- lift (dict_get data "c" (JList []));;
        volumes <-- lift (dict_get data "v" (JList []));;
        n <-- lift (json_len timestamps);;
        lift (for_each (finnhub_bar ticker interval timestamps opens highs
                          lows closes volumes) (seq 0 n)).

(** *** TwelveDataConnector *)

Definition twelve_data_interval_map : list (string * string) :=
  [("1m", "1min"); ("5m", "5min"); ("15m", "15min"); ("30m", "30min");
   ("1h", "1h"); ("1d", "1day"); ("1w", "1week")].

Definition twelve_data_item (cutoff : Q) (ticker interval : string)
    (item : json) : result (option OHLCVData) :=
  except_KeyError_ValueError (
    d <- getitem item "datetime";;
    d' <- getitem item "datetime";;
    has_space <- json_contains " " d';;
    ts <- json_strptime d (if has_space : bool then "%Y-%m-%d %H:%M:%S"
                           else "%Y-%m-%d");;
    if Qlt_bool ts cutoff then Returned None
    else
      o <- item_float item "open";;
      h <- item_float item "high";;
      l <- item_float item "low";;
      c <- item_float item "close";;
      v <- (x <- dict_get item "volume" (JInt 0);; int_ py x);;
      Returned (Some {| timestamp := ts; ticker := upper py ticker;
                        interval := interval; open := o; high := h; low := l;
                        close := c; volume := v; adj_close := None;
                        source := SOURCE_NAME_of TwelveData |})).

Definition TwelveDataConnector_fetch (self : Connector)
    (ticker interval : string) (lookback_days : Z) : M (list OHLCVData) :=
  if String.eqb (api_key self) "" then ret []
  else
    _ <-- rate_limit self ticker;;
    let td_interval := map_get twelve_data_interval_map interval "1day" in
    resp <-- requests_get (BASE_URL TwelveData +:+ "/time_series")
               [("symbol", PStr (upper py ticker));
                ("interval", PStr td_interval);
                ("outputsize", PInt (Z.min (lookback_days * 7) 5000));
                ("apikey", PStr (api_key self))]
               30;;
    if negb (status_code resp =? 200)%Z then ret []
    else
      data <-- lift (json_ resp);;
      present <-- lift (json_contains "values" data);;
      if negb present then ret []
      else
        now <-- datetime_now;;
        cutoff <-- lift (sub_days now lookback_days);;
        values <-- lift (getitem data "values");;
        items <-- lift (json_iter values);;
        result <-- lift (for_each (twelve_data_item cutoff ticker interval) items);;
        ret (sort_by_timestamp result).

(** *** FMPConnector *)

Definition fmp_item (cutoff : Q) (ticker interval : string) (item : json)
    : result (option OHLCVData) :=
  except_KeyError_ValueError (
    d <- getitem item "date";;
    tok <- split_first d;;
    ts <- strptime py tok "%Y-%m-%d";;
    if Qlt_bool ts cutoff then Returned None
    else
      o <- get_float item "open" (JInt 0);;
      h <- get_float item "high" (JInt 0);;
      l <- get_float item "low" (JInt 0);;
      c <- get_float item "close" (JInt 0);;
      v <- (x <- dict_get item "volume" (JInt 0);; int_ py x);;
      a <- (d <- dict_get item "close" (JInt 0);; get_float item "adjClose" d);;
      Returned (Some {| timestamp := ts; ticker := upper py ticker;
                        interval := interval; open := o; high := h; low := l;
                        close := c; volume := v; adj_close := Some a;
                        source := SOURCE_NAME_of FMP |})).

Definition FMPConnector_fetch (self : Connector)
    (ticker interval : string) (lookback_days : Z) : M (list OHLCVData) :=
  if String.eqb (api_key self) "" then ret []
  else
    _ <-- rate_limit self ticker;;
    let url := if String.eqb interval "1d"
               then BASE_URL FMP +:+ "/historical-price-full/" +:+ upper py ticker
               else BASE_URL FMP +:+ "/historical-chart/" +:+ interval +:+ "/"
                    +:+ upper py ticker in
    resp <-- requests_get url [("apikey", PStr (api_key self))] 30;;
    if negb (status_code resp =? 200)%Z then ret []
    else
      data <-- lift (json_ resp);;
      historical <-- lift (if String.eqb interval "1d"
                           then dict_get data "historical" (JList [])
                           else Returned (match data with
                                          | JList _ => data
                                          | _ => JList []
                                          end));;
      now <-- datetime_now;;
      cutoff <-- lift (sub_days now lookback_days);;
      items <-- lift (json_iter historical);;
      result <-- lift (for_each (fmp_item cutoff ticker interval) items);;
      ret (sort_by_timestamp result).

(** *** PolygonConnector *)

Definition polygon_timespan_map (interval : string) : string * string :=
  if String.eqb interval "1m" then ("1", "minute")
  else if String.eqb interval "5m" then ("5", "minute")
  else if String.eqb interval "15m" then ("15", "minute")
  else if String.eqb interval "30m" then ("30", "minute")
  else if String.eqb interval "1h" then ("1", "hour")
  else if String.eqb interval "1d" then ("1", "day")
  else if String.eqb interval "1w" then ("1", "week")
  else ("1", "day").

Definition polygon_item (ticker interval : string) (item : json)
    : result (option OHLCVData) :=
  except_KeyError_ValueError (
    ts <- (t <- getitem item "t";; x <- truediv py t 1000;; fromtimestamp py x);;
    o <- item_float item "o";;
    h <- item_float item "h";;
    l <- item_float item "l";;
    c <- item_float item "c";;
    v <- (x <- getitem item "v";; int_ py x);;
    Returned (Some {| timestamp := ts; ticker := upper py ticker;
                      interval := interval; open := o; high := h; low := l;
                      close := c; volume := v; adj_close := None;
                      source := SOURCE_NAME_of Polygon |})).

Definition PolygonConnector_fetch (self : Connector)
    (ticker interval : string) (lookback_days : Z) : M (list OHLCVData) :=
  if String.eqb (api_key self) "" then ret []
  else
    _ <-- rate_limit self ticker;;
    let '(multiplier, timespan) := polygon_timespan_map interval in
    now <-- datetime_now;;
    let end_date := strftime py now "%Y-%m-%d" in
    now' <-- datetime_now;;
    from <-- lift (sub_days now' lookback_days);;
    let start_date := strftime py from "%Y-%m-%d" in
    let url := BASE_URL Polygon +:+ "/v2/aggs/ticker/" +:+ upper py ticker
               +:+ "/range/" +:+ multiplier +:+ "/" +:+ timespan +:+ "/"
               +:+ start_date +:+ "/" +:+ end_date in
    resp <-- requests_get url [("apiKey", PStr (api_key self));
                               ("adjusted", PStr "true")] 30;;
    if negb (status_code resp =? 200)%Z then ret []
    else
      data <-- lift (json_ resp);;
      results <-- lift (dict_get data "results" (JList []));;
      items <-- lift (json_iter results);;
      lift (for_each (polygon_item ticker interval) items).

(** *** IEXCloudConnector *)

Definition iex_range_param (lookback_days : Z) : string :=
  if (lookback_days <=? 5)%Z then "5d"
  else if (lookback_days <=? 30)%Z then "1m"
  else if (lookback_days <=? 90)%Z then "3m"
  else if (lookback_days <=? 180)%Z then "6m"
  else "1y".

Definition iex_item (ticker interval : string) (item : json)
    : result (option OHLCVData) :=
  except_KeyError_ValueError (
    ts <- (d <- getitem item "date";; json_strptime d "%Y-%m-%d");;
    o <- get_float item "open" (JInt 0);;
    h <- get_float item "high" (JInt 0);;
    l <- get_float item "low" (JInt 0);;
    c <- get_float item "close" (JInt 0);;
    v <- (x <- dict_get item "volume" (JInt 0);; int_ py x);;
    a <- (d <- dict_get item "close" (JInt 0);; get_float item "fClose" d);;
    Returned (Some {| timestamp := ts; ticker := upper py ticker;
                      interval := interval; open := o; high := h; low := l;
                      close := c; volume := v; adj_close := Some a;
                      source := SOURCE_NAME_of IEXCloud |})).

Definition IEXCloudConnector_fetch (self : Connector)
    (ticker interval : string) (lookback_days : Z) : M (list OHLCVData) :=
  if String.eqb (api_key self) "" then ret []
  else
    _ <-- rate_limit self ticker;;
    let range_param := iex_range_param lookback_days in
    resp <-- requests_get (BASE_URL IEXCloud +:+ "/stock/" +:+ upper py ticker
                           +:+ "/chart/" +:+ range_param)
               [("token", PStr (api_key self))] 30;;
    if negb (status_code resp =? 200)%Z then ret []
    else
      data <-- lift (json_ resp);;
      items <-- lift (json_iter data);;
      lift (for_each (iex_item ticker interval) items).

(** *** News

    [FinnhubConnector.fetch_news] and [PolygonConnector.fetch_news] are not
    decorated; they hand on the decoded JSON as it is. *)

Definition FinnhubConnector_fetch_news (self : Connector) (ticker : string)
    (lookback_days : Z) : M json :=
  if String.eqb (api_key self) "" then ret (JList [])
  else
    _ <-- rate_limit self ticker;;
    now <-- datetime_now;;
    let end_ := strftime py now "%Y-%m-%d" in
    now' <-- datetime_now;;
    from <-- lift (sub_days now' lookback_days);;
    let start := strftime py from "%Y-%m-%d" in
    resp <-- requests_get (BASE_URL Finnhub +:+ "/company-news")
               [("symbol", PStr (upper py ticker));
                ("from", PStr start);
                ("to", PStr end_);
                ("token", PStr (api_key self))]
               30;;
    if (status_code resp =? 200)%Z then lift (json_ resp) else ret (JList []).

Definition PolygonConnector_fetch_news (self : Connector) (ticker : string)
    (lookback_days : Z) : M json :=
  if String.eqb (api_key self) "" then ret (JList [])
  else
    _ <-- rate_limit self ticker;;
    resp <-- requests_get (BASE_URL Polygon +:+ "/v2/reference/news")
               [("ticker", PStr (upper py ticker));
                ("limit", PInt 50);
                ("apiKey", PStr (api_key self))]
               30;;
    if (status_code resp =? 200)%Z
    then lift (data <- json_ resp;; dict_get data "results" (JList []))
    else ret (JList []).

(** *** The decorated methods *)

(** The body of [fetch_ohlcv] of each class, before decoration. *)
Definition fetch_body (self : Connector) : string -> string -> Z -> M (list OHLCVData) :=
  match provider self with
  | YFinance => YFinanceConnector_fetch self
  | AlphaVantage => AlphaVantageConnector_fetch self
  | Finnhub => FinnhubConnector_fetch self
  | TwelveData => TwelveDataConnector_fetch self
  | FMP => FMPConnector_fetch self
  | Polygon => PolygonConnector_fetch self
  | IEXCloud => IEXCloudConnector_fetch self
  end.

(** [@retry_with_backoff(max_retries=3, base_delay=...)] *)
Definition retry_base_delay (p : Provider) : Q :=
  match p with
  | YFinance | Finnhub => 1
  | _ => 2
  end.

Definition Connector_fetch_ohlcv (self : Connector) (ticker interval : string)
    (lookback_days : Z) : M (list OHLCVData) :=
  retry_with_backoff time_sleep 3 (retry_base_delay (provider self))
    (fetch_body self ticker interval lookback_days).

(** [DataConnector.is_available], inherited unchanged by every class. *)
Definition Connector_is_available (self : Connector) : bool := true.

(** *** Construction *)

(** [DataConnector.__init__]: a fresh [RateLimiter] object. *)
Definition DataConnector_init (p : Provider) : M nat := fun w =>
  let a := fresh (dom (limiters w)) in
  (Returned a,
   set_limiters w (<[a := RateLimiter_init (RATE_LIMIT_REQUESTS_of p)
                                            (RATE_LIMIT_WINDOW_of p)]> (limiters w))).

(** [os.getenv(name, "")] *)
Definition getenv (environ : string -> option string) (name : string) : string :=
  default "" (environ name).

(** [api_key or os.getenv(VAR, "")] *)
Definition api_key_or_env (environ : string -> option string) (p : Provider)
    (api_key : option string) : string :=
  let from_env := match API_KEY_VAR p with
                  | Some var => getenv environ var
                  | None => ""
                  end in
  match api_key with
  | Some k => if String.eqb k "" then from_env else k
  | None => from_env
  end.

Definition keyed_init (environ : string -> option string) (p : Provider)
    (api_key : option string) : M Connector :=
  a <-- DataConnector_init p;;
  ret {| provider := p; api_key := api_key_or_env environ p api_key;
         rate_limiter := a |}.

Definition YFinanceConnector (YFINANCE_AVAILABLE : bool) : M Connector :=
  a <-- DataConnector_init YFinance;;
  if negb YFINANCE_AVAILABLE then raise ImportError
  else ret {| provider := YFinance; api_key := ""; rate_limiter := a |}.

Definition AlphaVantageConnector environ api_key := keyed_init environ AlphaVantage api_key.
Definition FinnhubConnector environ api_key := keyed_init environ Finnhub api_key.
Definition TwelveDataConnector environ api_key := keyed_init environ TwelveData api_key.
Definition FMPConnector environ api_key := keyed_init environ FMP api_key.
Definition PolygonConnector environ api_key := keyed_init environ Polygon api_key.
Definition IEXCloudConnector environ api_key := keyed_init environ IEXCloud api_key.

(** *** Singleton instances *)

(** [X_AVAILABLE = bool(os.getenv("X_API_KEY", ""))] *)
Definition AVAILABLE (environ : string -> option string) (p : Provider) : bool :=
  match API_KEY_VAR p with
  | Some var => negb (String.eqb (getenv environ var) "")
  | None => false
  end.

Record Singletons : Type := {
  yfinance_connector : option Connector;
  alpha_vantage_connector : option Connector;
  finnhub_connector : option Connector;
  twelve_data_connector : option Connector;
  fmp_connector : option Connector;
  polygon_connector : option Connector;
  iex_cloud_connector : option Connector
}.

(** [X() if X_AVAILABLE else None] *)
Definition instance_if (available : bool) (new : M Connector) : M (option Connector) :=
  if available then (c <-- new;; ret (Some c)) else ret None.

(** The module-level assignments, run once at import.
    [YFINANCE_AVAILABLE] tells whether [import yfinance] succeeded. *)
Definition singletons (YFINANCE_AVAILABLE : bool)
    (environ : string -> option string) : M Singletons :=
  c1 <-- instance_if YFINANCE_AVAILABLE (YFinanceConnector YFINANCE_AVAILABLE);;
  c2 <-- instance_if (AVAILABLE environ AlphaVantage) (AlphaVantageConnector environ None);;
  c3 <-- instance_if (AVAILABLE environ Finnhub) (FinnhubConnector environ None);;
  c4 <-- instance_if (AVAILABLE environ TwelveData) (TwelveDataConnector environ None);;
  c5 <-- instance_if (AVAILABLE environ FMP) (FMPConnector environ None);;
  c6 <-- instance_if (AVAILABLE environ Polygon) (PolygonConnector environ None);;
  c7 <-- instance_if (AVAILABLE environ IEXCloud) (IEXCloudConnector environ None);;
  ret {| yfinance_connector := c1; alpha_vantage_connector := c2;
         finnhub_connector := c3; twelve_data_connector := c4;
         fmp_connector := c5; polygon_connector := c6;
         iex_cloud_connector := c7 |}.

(** ** Registry and fallback *)

Definition get_available_connectors (m : Singletons) : list Connector :=
  option_list (yfinance_connector m) ++
  option_list (alpha_vantage_connector m) ++
  option_list (finnhub_connector m) ++
  option_list (twelve_data_connector m) ++
  option_list (fmp_connector m) ++
  option_list (polygon_connector m) ++
  option_list (iex_cloud_connector m).

(** What [fetch_with_fallback] uses of a connector: any object with these
    attributes will do, the seven classes above or a test double.  [St] is
    the state its methods run over. *)
Record DataConnector (St : Type) : Type := {
  SOURCE_NAME : string;
  SUPPORTED_INTERVALS : list string;
  RATE_LIMIT_REQUESTS : Z;
  RATE_LIMIT_WINDOW : Z;
  fetch_ohlcv : string -> string -> Z -> St -> result (list OHLCVData) * St;
  is_available : bool
}.
Arguments SOURCE_NAME {St} _.
Arguments SUPPORTED_INTERVALS {St} _.
Arguments RATE_LIMIT_REQUESTS {St} _.
Arguments RATE_LIMIT_WINDOW {St} _.
Arguments fetch_ohlcv {St} _ _ _ _ _.
Arguments is_available {St} _.

Definition object_of (self : Connector) : DataConnector World :=
  {| SOURCE_NAME := SOURCE_NAME_of (provider self);
     SUPPORTED_INTERVALS := SUPPORTED_INTERVALS_of (provider self);
     RATE_LIMIT_REQUESTS := RATE_LIMIT_REQUESTS_of (provider self);
     RATE_LIMIT_WINDOW := RATE_LIMIT_WINDOW_of (provider self);
     fetch_ohlcv := Connector_fetch_ohlcv self;
     is_available := Connector_is_available self |}.

Section Fallback.

Context {St : Type}.

(** [interval in connector.SUPPORTED_INTERVALS] *)
Definition supports (connector : DataConnector St) (interval : string) : bool :=
  existsb (String.eqb interval) (SUPPORTED_INTERVALS connector).

(** The [try] block of one iteration: the data to return when it reaches
    [return data], nothing when it falls through. *)
Definition try_connector (connector : DataConnector St)
    (ticker interval : string) (lookback_days : Z) (s : St)
    : result (option (list OHLCVData)) * St :=
  if supports connector interval then
    match fetch_ohlcv connector ticker interval lookback_days s with
    | (Returned data, s') =>
        (Returned (match data with [] => None | _ :: _ => Some data end), s')
    | (Raised e, s') => (Raised e, s')
    end
  else (Returned None, s).

(** [fetch_with_fallback]; [connectors] is the value of
    [get_available_connectors()]. *)
Fixpoint fetch_with_fallback (connectors : list (DataConnector St))
    (ticker interval : string) (lookback_days : Z) (s : St)
    : result (list OHLCVData) * St :=
  match connectors with
  | [] => (Returned [], s)
  | connector :: rest =>
      match try_connector connector ticker interval lookback_days s with
      | (Returned (Some data), s') => (Returned data, s')
      | (Returned None, s') => fetch_with_fallback rest ticker interval lookback_days s'
      | (Raised e, s') => fetch_with_fallback rest ticker interval lookback_days s'
      end
  end.

End Fallback.

(** [fetch_with_fallback] as the module runs it, over its singletons. *)
Definition module_fetch_with_fallback (m : Singletons)
    (ticker interval : string) (lookback_days : Z)
    : World -> result (list OHLCVData) * World :=
  fetch_with_fallback (List.map object_of (get_available_connectors m))
    ticker interval lookback_days.

(** ** Observing calls

    To speak of which calls are made, a function or a connector is wrapped
    so that it also appends each of its calls, with the outcome, to a log
    carried next to the state.  The wrapped object behaves as the original
    on the state itself. *)

Definition spy_fetch {St : Type} (i : nat) (connector : DataConnector St)
    : DataConnector (St * list (nat * result (list OHLCVData))) :=
  {| SOURCE_NAME := SOURCE_NAME connector;
     SUPPORTED_INTERVALS := SUPPORTED_INTERVALS connector;
     RATE_LIMIT_REQUESTS := RATE_LIMIT_REQUESTS connector;
     RATE_LIMIT_WINDOW := RATE_LIMIT_WINDOW connector;
     fetch_ohlcv := fun ticker interval lookback_days sl =>
       let '(r, s') := fetch_ohlcv connector ticker interval lookback_days (fst sl) in
       (r, (s', snd sl ++ [(i, r)]));
     is_available := is_available connector |}.

(** The registry with the connector at position [i] logging under [i]. *)
Fixpoint spy_from {St : Type} (i : nat) (connectors : list (DataConnector St))
    : list (DataConnector (St * list (nat * result (list OHLCVData)))) :=
  match connectors with
  | [] => []
  | c :: rest => spy_fetch i c :: spy_from (S i) rest
  end.

Definition spy_registry {St : Type} (connectors : list (DataConnector St)) :=
  spy_from 0 connectors.

End Connectors.

Arguments SOURCE_NAME {float St} _.
Arguments SUPPORTED_INTERVALS {float St} _.
Arguments RATE_LIMIT_REQUESTS {float St} _.
Arguments RATE_LIMIT_WINDOW {float St} _.
Arguments fetch_ohlcv {float St} _ _ _ _ _.
Arguments is_available {float St} _.

(** Events of a run of the retry wrapper. *)
Inductive RetryEvent (B : Type) : Type :=
| Called (r : result (list B))            (* one call of the wrapped function *)
| Slept (d : Q) (r : result unit).        (* one call of time.sleep *)
Arguments Called {B} r.
Arguments Slept {B} d r.

Definition spy_func {St B : Type} (func : St -> result (list B) * St)
    : St * list (RetryEvent B) -> result (list B) * (St * list (RetryEvent B)) :=
  fun sl => let '(r, s') := func (fst sl) in (r, (s', snd sl ++ [Called r])).

Definition spy_sleep {St B : Type} (sleep : Q -> St -> result unit * St)
    : Q -> St * list (RetryEvent B) -> result unit * (St * list (RetryEvent B)) :=
  fun d sl => let '(r, s') := sleep d (fst sl) in (r, (s', snd sl ++ [Slept d r])).

(** The trace of [faults] failed attempts starting at attempt number
    [attempt], each followed by its back-off sleep. *)
Fixpoint backoff_trace {B : Type} (base_delay : Q) (attempt : Z) (faults : list exn)
    : list (RetryEvent B) :=
  match faults with
  | [] => []
  | e :: es =>
      Called (Raised e)
      :: Slept (base_delay * inject_Z (2 ^ attempt)) (Returned tt)
      :: backoff_trace base_delay (attempt + 1) es
  end.

(** The four ways a run of the wrapper that starts at attempt number
    [attempt] can go, with the events seen and the exit taken. *)
Inductive retry_run {B : Type} (max_retries : Z) (base_delay : Q) (attempt : Z)
    : list (RetryEvent B) -> @Exit B -> Prop :=
| run_none :
    (max_retries <= attempt)%Z ->
    retry_run max_retries base_delay attempt [] ReturnAfterLoop
| run_success faults v :
    (attempt + Z.of_nat (List.length faults) < max_retries)%Z ->
    retry_run max_retries base_delay attempt
      (backoff_trace base_delay attempt faults ++ [Called (Returned v)])
      (ReturnTry v)
| run_exhausted faults e :
    (attempt + Z.of_nat (List.length faults) = max_retries - 1)%Z ->
    retry_run max_retries base_delay attempt
      (backoff_trace base_delay attempt faults ++ [Called (Raised e)])
      (Reraise e)
| run_sleep_fault faults e e' :
    (attempt + Z.of_nat (List.length faults) < max_retries - 1)%Z ->
    retry_run max_retries base_delay attempt
      (backoff_trace base_delay attempt faults ++
       [Called (Raised e);
        Slept (base_delay * inject_Z (2 ^ (attempt + Z.of_nat (List.length faults))))
              (Raised e')])
      (HandlerFault e').

(** The wrapper run with its calls observed, from an empty log. *)
Definition retry_observed {St B : Type} (sleep : Q -> St -> result unit * St)
    (max_retries : Z) (base_delay : Q) (func : St -> result (list B) * St) (s : St)
    : @Exit B * (St * list (RetryEvent B)) :=
  retry_exit (spy_sleep sleep) max_retries base_delay (spy_func func) (s, []).

(** A connector is usable when it needs no credential or holds one. *)
Definition usable (self : Connector) : bool :=
  match provider self with
  | YFinance => true
  | _ => negb (String.eqb (api_key self) "")
  end.

(** An outcome of [fetch_ohlcv] that makes the fallback move on: an
    exception or an empty list. *)
Definition no_data {A : Type} (r : result (list A)) : bool :=
  match r with
  | Returned (_ :: _) => false
  | _ => true
  end.

(** [fetch_with_fallback] run with the calls of [fetch_ohlcv] observed, from
    an empty log; an entry [(i, r)] is a call of the connector at position
    [i] of the registry, with outcome [r]. *)
Definition fallback_observed {float St : Type}
    (connectors : list (@DataConnector float St)) (ticker interval : string)
    (lookback_days : Z) (s : St) :=
  fetch_with_fallback (spy_registry connectors) ticker interval lookback_days (s, []).

(** The positions, from [i] on, of the connectors that support [interval]. *)
Fixpoint supporting_positions {float St : Type} (interval : string) (i : nat)
    (connectors : list (@DataConnector float St)) : list nat :=
  match connectors with
  | [] => []
  | c :: rest =>
      if supports c interval then i :: supporting_positions interval (S i) rest
      else supporting_positions interval (S i) rest
  end.

(** The calls of a run over the connectors from position [i] on, and its
    result. *)
Inductive fallback_run {float : Type}
    : nat -> list (nat * result (list (@OHLCVData float))) ->
      result (list (@OHLCVData float)) -> Prop :=
| fb_exhausted i : fallback_run i [] (Returned [])
| fb_skip i tail r : fallback_run (S i) tail r -> fallback_run i tail r
| fb_no_data i o tail r :
    no_data o = true -> fallback_run (S i) tail r ->
    fallback_run i ((i, o) :: tail) r
| fb_success i x data :
    fallback_run i [(i, Returned (x :: data))] (Returned (x :: data)).

(** Ascending by timestamp, equal timestamps allowed. *)
Definition ascending {float : Type} (l : list (@OHLCVData float)) : Prop :=
  StronglySorted (fun a b => timestamp a <= timestamp b) l.

(** No two records of the list carry the same timestamp. *)
Definition distinct_timestamps {float : Type} (l : list (@OHLCVData float)) : Prop :=
  forall i j a b, nth_error l i = Some a -> nth_error l j = Some b ->
                  i <> j -> ~ timestamp a == timestamp b.

(** The classes whose [fetch_ohlcv] drops the bars older than the cutoff
    and sorts what is left. *)
Definition filters_and_sorts (p : Provider) : bool :=
  match p with
  | AlphaVantage | TwelveData | FMP => true
  | _ => false
  end.

(** The field of the upstream schema from which [adj_close] is read, for
    the classes that set it. *)
Definition adjusted_field (p : Provider) : option string :=
  match p with
  | YFinance => Some "Adj Close"
  | AlphaVantage => Some "5. adjusted close"
  | FMP => Some "adjClose"
  | IEXCloud => Some "fClose"
  | _ => None
  end.

(** [key] occurs as a key of some object inside [j]. *)
Fixpoint mentions {float : Type} (key : string) (j : @json float) : bool :=
  match j with
  | JList l => existsb (mentions key) l
  | JDict d => existsb (fun kv => String.eqb key (fst kv) || mentions key (snd kv)) d
  | _ => false
  end.

(** A payload, or a data frame, that the upstream services can hand out. *)
Definition served {float Env : Type} (remote : @Upstream float Env)
    (payload : @json float) : Prop :=
  exists url params timeout t env resp,
    fst (fst (http_get remote url params timeout t env)) = Returned resp /\
    json_ resp = Returned payload.

Definition served_rows {float Env : Type} (remote : @Upstream float Env)
    (rows : list (Q * @json float)) : Prop :=
  exists symbol days yf_interval t env,
    fst (fst (yf_history remote symbol days yf_interval t env)) = Returned rows.

(** The timestamps kept by a limiter are in the order of recording and
    none lies after [now]. *)
Definition chronological (self : RateLimiter) (now : Q) : Prop :=
  forall key ts, _request_times self !! key = Some ts ->
    StronglySorted Qle ts /\ Forall (fun t => t <= now) ts.

(** The seconds slept for back-off in a run of the retry wrapper, and the
    number of failed calls. *)
Fixpoint total_sleep {B : Type} (tr : list (RetryEvent B)) : Q :=
  match tr with
  | [] => 0
  | Slept d (Returned _) :: tr' => d + total_sleep tr'
  | _ :: tr' => total_sleep tr'
  end.

Fixpoint failures {B : Type} (tr : list (RetryEvent B)) : nat :=
  match tr with
  | [] => 0
  | Called (Raised _) :: tr' => S (failures tr')
  | _ :: tr' => failures tr'
  end.

(** The seven classes in the order of the registry, and whether the module
    instantiates a class at import. *)
Definition all_providers : list Provider :=
  [YFinance; AlphaVantage; Finnhub; TwelveData; FMP; Polygon; IEXCloud].

Definition configured (YFINANCE_AVAILABLE : bool)
    (environ : string -> option string) (p : Provider) : bool :=
  match p with
  | YFinance => YFINANCE_AVAILABLE
  | _ => AVAILABLE environ p
  end.

(** From [w] to [w'] the connectors [cs] have been constructed and nothing
    else has happened: their rate limiters are new objects, distinct from
    one another, with the quota of their class and no history; every other
    limiter, the clock and the effects are as in [w]. *)
Definition owns_fresh_limiters {float Env : Type} (w w' : @World float Env)
    (cs : list Connector) : Prop :=
  NoDup (List.map rate_limiter cs) /\
  (forall c, In c cs ->
     limiters w !! rate_limiter c = None /\
     limiters w' !! rate_limiter c =
       Some (RateLimiter_init (RATE_LIMIT_REQUESTS_of (provider c))
                              (RATE_LIMIT_WINDOW_of (provider c)))) /\
  (forall a, (forall c, In c cs -> rate_limiter c <> a) ->
             limiters w' !! a = limiters w !! a) /\
  clock w' = clock w /\ slept w' = slept w /\ outbound w' = outbound w /\
  inbound w' = inbound w /\ upstream w' = upstream w.


(** The field [key] occurs in what came back from a call. *)
Definition answer_mentions {float : Type} (key : string) (a : @Answer float)
    : bool :=
  match a with
  | HttpAnswer (Returned resp) =>
      match json_ resp with
      | Returned payload => mentions key payload
      | Raised _ => false
      end
  | HistoryAnswer (Returned rows) => existsb (fun ir => mentions key (snd ir)) rows
  | _ => false
  end.

(** Tried one after the other from state [s], no connector of the list
    yields data: each one either does not support the interval, and is not
    called, or is called and raises or returns an empty list.  [s'] is the
    state after the last of them. *)
Inductive all_fail {float St : Type} (ticker interval : string)
    (lookback_days : Z)
    : list (@DataConnector float St) -> St -> St -> Prop :=
| fail_none s : all_fail ticker interval lookback_days [] s s
| fail_unsupported c rest s s' :
    supports c interval = false ->
    all_fail ticker interval lookback_days rest s s' ->
    all_fail ticker interval lookback_days (c :: rest) s s'
| fail_called c rest s r s1 s' :
    supports c interval = true ->
    fetch_ohlcv c ticker interval lookback_days s = (r, s1) ->
    no_data r = true ->
    all_fail ticker interval lookback_days rest s1 s' ->
    all_fail ticker interval lookback_days (c :: rest) s s'.

(** The three labels of a record: upper-case ticker, the interval asked
    for, the name of the class. *)
Definition labelled {float : Type} (py : @Builtins float) (p : Provider)
    (ticker0 interval0 : string) (r : @OHLCVData float) : Prop :=
  ticker r = upper py ticker0 /\ interval r = interval0 /\
  source r = SOURCE_NAME_of p.

(** At time [t] and in state [env] the upstream answers whatever request
    with a status other than 200; or fails to answer, with the transport
    fault [e]. *)
Definition refuses {float Env : Type} (remote : @Upstream float Env)
    (t : Q) (env : Env) : Prop :=
  forall url params timeout, exists resp t' env',
    http_get remote url params timeout t env = (Returned resp, t', env') /\
    status_code resp <> 200%Z.

Definition unreachable {float Env : Type} (remote : @Upstream float Env)
    (t : Q) (env : Env) (e : exn) : Prop :=
  forall url params timeout, exists t' env',
    http_get remote url params timeout t env = (Raised e, t', env').

(** ** Test doubles

    A small Python runtime and scripted upstream services, used to run the
    model on concrete inputs.  The builtins agree with Python on the values
    that occur in the runs below: integers, floats, ASCII tickers, dates
    listed in [known_dates]. *)

Module Doubles.

Definition t_float (j : @json Q) : result Q :=
  match j with
  | JInt z => Returned (inject_Z z)
  | JFloat x => Returned x
  | JBool b => Returned (if b then 1 else 0)
  | JStr _ => Raised ValueError
  | _ => Raised TypeError
  end.

Definition t_int (j : @json Q) : result Z :=
  match j with
  | JInt z => Returned z
  | JFloat x => Returned (int_of_Q x)
  | JBool b => Returned (if b then 1 else 0)%Z
  | JStr _ => Raised ValueError
  | _ => Raised TypeError
  end.

Definition upper_ascii (c : Ascii.ascii) : Ascii.ascii :=
  let n := Ascii.nat_of_ascii c in
  if ((97 <=? n) && (n <=? 122))%nat then Ascii.ascii_of_nat (n - 32) else c.

Fixpoint t_upper (s : string) : string :=
  match s with
  | EmptyString => EmptyString
  | String c s' => String (upper_ascii c) (t_upper s')
  end.

(** Splitting at spaces, empty pieces dropped. *)
Fixpoint split_at_spaces (cur : string) (s : string) : list string :=
  match s with
  | EmptyString => match cur with EmptyString => [] | _ => [cur] end
  | String c s' =>
      if Ascii.eqb c " "%char
      then match cur with
           | EmptyString => split_at_spaces EmptyString s'
           | _ => cur :: split_at_spaces EmptyString s'
           end
      else split_at_spaces (cur +:+ string_of_ascii c) s'
  end.

(** Midnight of a few days, in seconds. *)
Definition known_dates : list (string * Q) :=
  [("2023-11-01", inject_Z 1698796800);
   ("2023-11-10", inject_Z 1699574400);
   ("2023-11-13", inject_Z 1699833600);
   ("2023-11-14", inject_Z 1699920000)].

Definition t_strptime (s fmt : string) : result Q :=
  if String.eqb fmt "%Y-%m-%d" then
    match assoc s known_dates with
    | Some t => Returned t
    | None => Raised ValueError
    end
  else Raised ValueError.

Definition t_fromtimestamp (j : @json Q) : result Q :=
  match j with
  | JInt z => Returned (inject_Z z)
  | JFloat x => Returned x
  | _ => Raised TypeError
  end.

Definition t_truediv (j : @json Q) (n : Z) : result (@json Q) :=
  match j with
  | JInt z => Returned (JFloat (inject_Z z / inject_Z n))
  | JFloat x => Returned (JFloat (x / inject_Z n))
  | _ => Raised TypeError
  end.

(** The formatted dates only reach the request URL, which no run below
    looks at. *)
Definition py : @Builtins Q :=
  {| float_ := t_float; int_ := t_int; upper := t_upper;
     split := split_at_spaces EmptyString; strptime := t_strptime;
     strftime := fun _ _ => "date"; fromtimestamp := t_fromtimestamp;
     truediv := t_truediv |}.

(** Scripted services: the state is the list of responses still to be
    served; a call takes no time.  With nothing left to serve the
    connection fails. *)
Definition Script : Type := list (result (@Response Q)).

Definition remote : @Upstream Q Script :=
  {| http_get := fun _ _ _ t env =>
       match env with
       | r :: env' => (r, t, env')
       | [] => (Raised ConnectionError, t, [])
       end;
     yf_history := fun _ _ _ t env => (Raised ConnectionError, t, env) |}.

Definition ok (j : @json Q) : result (@Response Q) :=
  Returned {| status_code := 200; json_ := Returned j |}.

(** A world at 2023-11-14 22:13:20 with no connector yet. *)
Definition world0 (script : Script) : @World Q Script :=
  {| clock := inject_Z 1700000000; slept := []; outbound := []; inbound := [];
     limiters := ∅; upstream := script |}.

Definition no_environ : string -> option string := fun _ => None.

(** An environment that holds a Finnhub key and an empty Polygon key. *)
Definition some_environ : string -> option string := fun name =>
  if String.eqb name "FINNHUB_API_KEY" then Some "demo"
  else if String.eqb name "POLYGON_API_KEY" then Some ""
  else None.

(** A connector of class [p] constructed with [api_key] in [world0]. *)
Definition new (p : Provider) (api_key : string) (script : Script) :=
  keyed_init no_environ p (Some api_key) (world0 script).

Definition run_fetch (p : Provider) (api_key : string) (script : Script)
    (ticker interval : string) (lookback_days : Z) :=
  match new p api_key script with
  | (Returned self, w) =>
      Connector_fetch_ohlcv py remote self ticker interval lookback_days w
  | (Raised e, w) => (Raised e, w)
  end.

Definition returned {A : Type} (r : result (list A)) : list A :=
  match r with
  | Returned l => l
  | Raised _ => []
  end.

(** A connector object that counts the calls in the state and always
    answers [outcome]. *)
Definition mock (name : string) (intervals : list string)
    (outcome : result (list (@OHLCVData Q))) : @DataConnector Q nat :=
  {| SOURCE_NAME := name; SUPPORTED_INTERVALS := intervals;
     RATE_LIMIT_REQUESTS := 5; RATE_LIMIT_WINDOW := 60;
     fetch_ohlcv := fun _ _ _ n => (outcome, S n);
     is_available := true |}.

Definition bar (src : string) (t : Z) : @OHLCVData Q :=
  {| timestamp := inject_Z t; ticker := "AAPL"; interval := "1d";
     open := 1; high := 2; low := 1; close := 2; volume := 100;
     adj_close := None; source := src |}.

Definition three_bars : list (@OHLCVData Q) :=
  [bar "B" 1699833600; bar "B" 1699920000; bar "B" 1700006400].

(** The registry [A; B; C]: A fails, B has three records, C has one. *)
Definition registry_ABC : list (@DataConnector Q nat) :=
  [mock "A" ["1d"] (Raised ConnectionError);
   mock "B" ["1d"] (Returned three_bars);
   mock "C" ["1d"] (Returned [bar "C" 1699833600])].

(** A registry where nobody has data. *)
Definition registry_dry : list (@DataConnector Q nat) :=
  [mock "A" ["1d"] (Raised Timeout);
   mock "B" ["1m"] (Returned three_bars);
   mock "C" ["1d"] (Returned [])].

(** A registry where the connector with data comes fourth: A times out, U
    does not support the interval, E has nothing, B has three records, C
    has one. *)
Definition registry_AUEBC : list (@DataConnector Q nat) :=
  [mock "A" ["1d"] (Raised Timeout);
   mock "U" ["1m"] (Returned [bar "U" 1699833600]);
   mock "E" ["1d"] (Returned []);
   mock "B" ["1d"] (Returned three_bars);
   mock "C" ["1d"] (Returned [bar "C" 1699833600])].

(** A service that answers every request with the same payload. *)
Definition constant_remote (payload : @json Q) : @Upstream Q unit :=
  {| http_get := fun _ _ _ t env =>
       (Returned {| status_code := 200; json_ := Returned payload |}, t, env);
     yf_history := fun _ _ _ t env => (Raised ConnectionError, t, env) |}.

Definition candle (date : string) (price : Z) : @json Q :=
  JDict [("date", JStr date); ("datetime", JStr date);
         ("open", JInt price); ("high", JInt price); ("low", JInt price);
         ("close", JInt price); ("volume", JInt 100)].

(** Daily bars as IEX Cloud and FMP list them, without an adjusted field:
    one of 2023-11-01, thirteen days before the clock of [world0], and one
    of 2023-11-13. *)
Definition chart : @json Q :=
  JList [candle "2023-11-01" 170; candle "2023-11-13" 185].

(** A TwelveData payload: newest first, the bar of 2023-11-13 twice. *)
Definition time_series : @json Q :=
  JDict [("values", JList [candle "2023-11-14" 187; candle "2023-11-13" 185;
                           candle "2023-11-13" 185; candle "2023-11-01" 170])].

(** A Finnhub payload with the candles newest first. *)
Definition candles : @json Q :=
  JDict [("s", JStr "ok");
         ("t", JList [JInt 1699920000; JInt 1699833600]);
         ("o", JList [JInt 187; JInt 185]);
         ("h", JList [JInt 188; JInt 186]);
         ("l", JList [JInt 186; JInt 184]);
         ("c", JList [JInt 187; JInt 185]);
         ("v", JList [JInt 100; JInt 100])].

(** A Polygon payload holding one bar of 2023-11-01, in milliseconds. *)
Definition aggregates : @json Q :=
  JDict [("results", JList [JDict [("t", JInt 1698796800000); ("o", JInt 170);
                                   ("h", JInt 171); ("l", JInt 169);
                                   ("c", JInt 170); ("v", JInt 100)]])].

(** A connector of class [p] holding the key "demo", and the world in
    which its rate limiter lives. *)
Definition demo (p : Provider) : Connector :=
  {| provider := p; api_key := "demo"; rate_limiter := 0 |}.

Definition keyless (p : Provider) : Connector :=
  {| provider := p; api_key := ""; rate_limiter := 0 |}.

Definition world1 {Env : Type} (p : Provider) (env : Env) : @World Q Env :=
  {| clock := inject_Z 1700000000; slept := []; outbound := []; inbound := [];
     limiters := {[ 0%nat := RateLimiter_init (RATE_LIMIT_REQUESTS_of p)
                                              (RATE_LIMIT_WINDOW_of p) ]};
     upstream := env |}.

(** A limiter of two requests per minute that has seen two requests in the
    last minute, 50 and 10 seconds before the clock of [world0]. *)
Definition busy_limiter : RateLimiter :=
  {| requests_per_window := 2; window_seconds := 60;
     _request_times := {[ "AAPL" := [inject_Z 1699999950; inject_Z 1699999990] ]} |}.


(** An operation that always times out. *)
Definition always_timeout {Env : Type}
    : @World Q Env -> result (list nat) * @World Q Env :=
  fun w => (Raised Timeout, w).

(** The runs used below: each connector holds the key "demo" and is served
    the payload named, with [lookback_days = 7]. *)
Definition run_of (p : Provider) (payload : @json Q) :=
  Connector_fetch_ohlcv py (constant_remote payload) (demo p) "aapl" "1d" 7
    (world1 p tt).

Definition twelve_data_run := run_of TwelveData time_series.
Definition finnhub_run := run_of Finnhub candles.
Definition polygon_run := run_of Polygon aggregates.
Definition iex_cloud_run := run_of IEXCloud chart.

(** An operation that times out until two sleeps have been made. *)
Definition third_time_lucky {Env : Type}
    : @World Q Env -> result (list nat) * @World Q Env :=
  fun w => if (List.length (slept w) <? 2)%nat then (Raised Timeout, w)
           else (Returned [1; 2; 3]%nat, w).


(** A response with status 404 whose body cannot be decoded. *)
Definition not_found : result (@Response Q) :=
  Returned {| status_code := 404; json_ := Raised ValueError |}.

(** The module as imported with yfinance installed and [some_environ];
    and with nothing installed and nothing configured. *)
Definition no_singletons : Singletons :=
  {| yfinance_connector := None; alpha_vantage_connector := None;
     finnhub_connector := None; twelve_data_connector := None;
     fmp_connector := None; polygon_connector := None;
     iex_cloud_connector := None |}.

Definition imported := singletons true some_environ (world0 []).

Definition registry : Singletons :=
  match fst imported with
  | Returned m => m
  | Raised _ => no_singletons
  end.

(** The world of [world1] with a finnhub connector, after its rate
    limiter has let a call for "aapl" through. *)
Definition let_through (script : Script) : @World Q Script :=
  snd (rate_limit (demo Finnhub) "aapl" (world1 Finnhub script)).

(** A service that hands out the same data frame for every ticker. *)
Definition history_remote (rows : list (Q * @json Q)) : @Upstream Q unit :=
  {| http_get := fun _ _ _ t env => (Raised ConnectionError, t, env);
     yf_history := fun _ _ _ t env => (Returned rows, t, env) |}.

Definition frame : list (Q * @json Q) :=
  [(inject_Z 1699833600,
    JDict [("Open", JInt 185); ("High", JInt 186); ("Low", JInt 184);
           ("Close", JInt 185); ("Volume", JInt 100)]);
   (inject_Z 1699920000,
    JDict [("Open", JInt 187); ("High", JInt 188); ("Low", JInt 186);
           ("Close", JInt 187); ("Volume", JInt 100)])].

(** What an item of a parse loop gave: a record, or nothing. *)
Definition produced (r : result (option (@OHLCVData Q))) : option (@OHLCVData Q) :=
  match r with
  | Returned o => o
  | Raised _ => None
  end.

(** The undecorated bodies, run once. *)
Definition finnhub_body_run :=
  FinnhubConnector_fetch py (constant_remote candles) (demo Finnhub)
    "aapl" "1d" 7 (world1 Finnhub tt).

Definition yfinance_body_run :=
  YFinanceConnector_fetch py (history_remote frame) (demo YFinance)
    "aapl" "1d" 7 (world1 YFinance tt).

End Doubles.

(** * Properties *)

(** ** Rational comparisons *)

Lemma Qlt_bool_iff x y : Qlt_bool x y = true <-> x < y.
Proof.
  unfold Qlt_bool. rewrite negb_true_iff. split.
  - intros H. apply Qnot_le_lt. intros Hle.
    apply Qle_bool_iff in Hle. congruence.
  - intros H. destruct (Qle_bool y x) eqn:E; [|reflexivity].
    apply Qle_bool_iff in E. exfalso. eapply Qlt_not_le; eauto.
Qed.

Lemma Qlt_bool_false x y : Qlt_bool x y = false <-> y <= x.
Proof.
  unfold Qlt_bool. rewrite negb_false_iff. apply Qle_bool_iff.
Qed.

(** ** The retry wrapper *)

Section RetryProperties.

Context {St B : Type}.
Variable sleep : Q -> St -> result unit * St.
Variable max_retries : Z.
Variable base_delay : Q.
Variable func : St -> result (list B) * St.

Let spied := retry_loop (spy_sleep (B:=B) sleep) max_retries base_delay (spy_func func).

Lemma spy_func_eq s tr :
  spy_func func (s, tr) =
  (fst (func s), (snd (func s), tr ++ [Called (fst (func s))])).
Proof. unfold spy_func; simpl. destruct (func s); reflexivity. Qed.

Lemma spy_sleep_eq d s (tr : list (RetryEvent B)) :
  spy_sleep sleep d (s, tr) =
  (fst (sleep d s), (snd (sleep d s), tr ++ [Slept d (fst (sleep d s))])).
Proof. unfold spy_sleep; simpl. destruct (sleep d s); reflexivity. Qed.

(** The log does not influence the run. *)
Lemma retry_loop_erase attempts s tr :
  retry_loop sleep max_retries base_delay func attempts s =
  (fst (spied attempts (s, tr)), fst (snd (spied attempts (s, tr)))).
Proof.
  subst spied. revert s tr.
  induction attempts as [|attempt rest IH]; intros s tr; simpl; [reflexivity|].
  rewrite !spy_func_eq.
  destruct (func s) as [[v|e] s1]; simpl; [reflexivity|].
  destruct (attempt =? max_retries - 1)%Z; simpl; [reflexivity|].
  rewrite !spy_sleep_eq.
  destruct (sleep _ s1) as [[[]|e'] s2]; simpl; [apply IH|reflexivity].
Qed.

(** The events of a run that has [n] attempts left, starting at attempt
    number [a]. *)
Lemma retry_loop_run n : forall a s tr,
  n = Z.to_nat (max_retries - Z.of_nat a) ->
  exists tail,
    snd (snd (spied (List.map Z.of_nat (seq a n)) (s, tr))) = tr ++ tail /\
    retry_run max_retries base_delay (Z.of_nat a) tail
      (fst (spied (List.map Z.of_nat (seq a n)) (s, tr))).
Proof.
  subst spied.
  induction n as [|n IH]; intros a s tr Hn; simpl.
  - exists []. split; [now rewrite app_nil_r|]. constructor. lia.
  - rewrite !spy_func_eq.
    destruct (func s) as [[v|e] s1]; simpl.
    + exists [Called (Returned v)]. split; [reflexivity|].
      apply (run_success _ _ _ [] v). simpl. lia.
    + destruct (Z.of_nat a =? max_retries - 1)%Z eqn:Elast; simpl.
      * exists [Called (Raised e)]. split; [reflexivity|].
        apply (run_exhausted _ _ _ [] e). simpl. lia.
      * apply Z.eqb_neq in Elast.
        rewrite !spy_sleep_eq.
        destruct (sleep _ s1) as [[[]|e'] s2] eqn:Esleep; simpl.
        -- destruct (IH (S a) s2
                       ((tr ++ [Called (Raised e)]) ++
                        [Slept (base_delay * inject_Z (2 ^ Z.of_nat a)) (Returned tt)]))
             as (tail & Htail & Hrun); [lia|].
           exists (Called (Raised e)
                   :: Slept (base_delay * inject_Z (2 ^ Z.of_nat a)) (Returned tt)
                   :: tail).
           split.
           { rewrite Htail. rewrite <- !app_assoc. reflexivity. }
           replace (Z.of_nat (S a)) with (Z.of_nat a + 1)%Z in Hrun by lia.
           inversion Hrun as [Hle Ht Hx | faults v Hlt Ht Hx | faults e1 Heq Ht Hx
                             | faults e1 e2 Hlt Ht Hx].
           ++ lia.
           ++ apply (run_success _ _ _ (e :: faults) v). simpl List.length. lia.
           ++ apply (run_exhausted _ _ _ (e :: faults) e1). simpl List.length. lia.
           ++ replace (Z.of_nat a + 1 + Z.of_nat (List.length faults))%Z
                with (Z.of_nat a + Z.of_nat (List.length (e :: faults)))%Z
                by (simpl List.length; lia).
              apply (run_sleep_fault _ _ _ (e :: faults) e1 e2).
              simpl List.length. lia.
        -- exists [Called (Raised e);
                   Slept (base_delay * inject_Z (2 ^ Z.of_nat a)) (Raised e')].
           split; [now rewrite <- app_assoc|].
           replace (Z.of_nat a) with (Z.of_nat a + Z.of_nat (List.length (@nil exn)))%Z
             at 2 by (simpl; lia).
           apply (run_sleep_fault _ _ _ [] e e'). simpl. lia.
Qed.


(** The observed run of the wrapper, from attempt number 0. *)
Lemma retry_observed_run (s : St) :
  retry_run max_retries base_delay 0
    (snd (snd (retry_observed sleep max_retries base_delay func s)))
    (fst (retry_observed sleep max_retries base_delay func s)).
Proof.
  unfold retry_observed, retry_exit, range.
  destruct (retry_loop_run (Z.to_nat max_retries) 0 s [])
    as (tail & Htail & Hrun); [f_equal; lia|].
  subst spied. simpl in Htail. rewrite Htail. exact Hrun.
Qed.

(** The run over the plain state is the observed one with the log erased. *)
Lemma retry_observed_erase (s : St) :
  retry_with_backoff sleep max_retries base_delay func s =
    (exit_result (fst (retry_observed sleep max_retries base_delay func s)),
     fst (snd (retry_observed sleep max_retries base_delay func s))).
Proof.
  unfold retry_observed, retry_with_backoff, retry_exit.
  rewrite (retry_loop_erase _ s []). reflexivity.
Qed.


(** C5. Retry policy.  The log records every call of the operation and
    of [time.sleep], with its outcome, in the order in which they happen;
    the wrapper ends in the state the observed run ends in.  A run is one of
    four: some attempts fail, each followed by a sleep of
    [base_delay * 2^attempt], and then a call returns, whose value the
    wrapper returns at once; or all [max_retries] attempts fail and the
    wrapper raises the exception of the failing call itself, the last one,
    without sleeping after it; or [time.sleep] raises after a failed
    attempt that is not the last, and that exception leaves the wrapper; or
    [max_retries <= 0], nothing is called and the empty list is returned. *)
Theorem retry_with_backoff_policy (s : St) :
  snd (retry_with_backoff sleep max_retries base_delay func s) =
    fst (snd (retry_observed sleep max_retries base_delay func s)) /\
  ((exists faults v,
      (Z.of_nat (List.length faults) < max_retries)%Z /\
      snd (snd (retry_observed sleep max_retries base_delay func s)) =
        backoff_trace base_delay 0 faults ++ [Called (Returned v)] /\
      fst (retry_with_backoff sleep max_retries base_delay func s) = Returned v) \/
   (exists faults e,
      (Z.of_nat (List.length faults) = max_retries - 1)%Z /\
      snd (snd (retry_observed sleep max_retries base_delay func s)) =
        backoff_trace base_delay 0 faults ++ [Called (Raised e)] /\
      fst (retry_with_backoff sleep max_retries base_delay func s) = Raised e) \/
   (exists faults e e',
      (Z.of_nat (List.length faults) < max_retries - 1)%Z /\
      snd (snd (retry_observed sleep max_retries base_delay func s)) =
        backoff_trace base_delay 0 faults ++
        [Called (Raised e);
         Slept (base_delay * inject_Z (2 ^ Z.of_nat (List.length faults)))
               (Raised e')] /\
      fst (retry_with_backoff sleep max_retries base_delay func s) = Raised e') \/
   ((max_retries <= 0)%Z /\
    snd (snd (retry_observed sleep max_retries base_delay func s)) = [] /\
    fst (retry_with_backoff sleep max_retries base_delay func s) = Returned [])).
Proof.
  rewrite (retry_observed_erase s). simpl. split; [reflexivity|].
  pose proof (retry_observed_run s) as Hrun.
  inversion Hrun as [Hle Ht Hx | faults v Hlt Ht Hx | faults e Heq Ht Hx
                    | faults e e' Hlt Ht Hx]; simpl.
  - right. right. right. split; [lia|]. split; reflexivity.
  - left. exists faults, v. split; [lia|]. split; reflexivity.
  - right. left. exists faults, e. split; [lia|]. split; reflexivity.
  - right. right. left. exists faults, e, e'. split; [lia|].
    rewrite Z.add_0_l. split; reflexivity.
Qed.

End RetryProperties.

(** A value returned by the decorated function was returned by one call of
    the function, in the state the wrapper ends in, or is the empty list of
    the statement after the loop. *)
Lemma retry_loop_returned {St B : Type} sleep max_retries base_delay
    (func : St -> result (list B) * St) attempts : forall s x s',
  retry_loop sleep max_retries base_delay func attempts s = (x, s') ->
  forall v, exit_result x = Returned v ->
  (x = ReturnAfterLoop /\ v = []) \/ exists s0, func s0 = (Returned v, s').
Proof.
  induction attempts as [|attempt rest IH]; intros s x s' Hrun v Hv; simpl in Hrun.
  - inversion Hrun; subst. simpl in Hv. left. split; congruence.
  - destruct (func s) as [[v0|e] s1] eqn:Ef.
    + inversion Hrun; subst. simpl in Hv. inversion Hv; subst.
      right. exists s. exact Ef.
    + destruct (attempt =? max_retries - 1)%Z.
      * inversion Hrun; subst. discriminate.
      * destruct (sleep _ s1) as [[[]|e'] s2].
        -- eapply IH; eauto.
        -- inversion Hrun; subst. discriminate.
Qed.

Lemma retry_with_backoff_returned {St B : Type} sleep max_retries base_delay
    (func : St -> result (list B) * St) s v s' :
  retry_with_backoff sleep max_retries base_delay func s = (Returned v, s') ->
  v = [] \/ exists s0, func s0 = (Returned v, s').
Proof.
  unfold retry_with_backoff, retry_exit. intros H.
  destruct (retry_loop _ _ _ _ _ s) as [x s1] eqn:E.
  inversion H as [[Hx Hs]]. subst s1.
  destruct (retry_loop_returned _ _ _ _ _ _ _ _ E v Hx) as [[_ ?]|?];
    rewrite ?Hx; auto.
Qed.

Lemma pow2_delay_nonneg (base_delay : Q) (k : Z) :
  0 <= base_delay -> 0 <= base_delay * inject_Z (2 ^ k).
Proof.
  intros Hb. apply Qmult_le_0_compat; [exact Hb|].
  change 0 with (inject_Z 0). rewrite <- Zle_Qle.
  apply Z.pow_nonneg. lia.
Qed.

Section WorldProperties.

Context {float Env : Type}.




(** ** The rate limiter *)



End WorldProperties.

(** ** Parsing loops and sorting *)

Section ParsingProperties.

Context {float : Type}.
Implicit Types (r x : @OHLCVData float) (l rs : list (@OHLCVData float)).

Lemma rbind_returned {A C : Type} (m : result A) (k : A -> result C) (v : C) :
  rbind m k = Returned v -> exists a, m = Returned a /\ k a = Returned v.
Proof. destruct m as [a|e]; simpl; [eauto|discriminate]. Qed.

Lemma except_returned_some (m : result (option (@OHLCVData float))) r :
  except_KeyError_ValueError m = Returned (Some r) -> m = Returned (Some r).
Proof.
  destruct m as [o|e]; simpl; [auto|].
  destruct (is_KeyError_or_ValueError e); discriminate.
Qed.

Lemma for_each_produced {A : Type} (body : A -> result (option (@OHLCVData float)))
    (items : list A) : forall rs,
  for_each body items = Returned rs ->
  forall r, In r rs -> exists it : A, In it items /\ body it = Returned (Some r).
Proof.
  induction items as [|it0 items IH]; intros rs Hrun r Hin; simpl in Hrun.
  - inversion Hrun; subst. destruct Hin.
  - destruct (body it0) as [o|e] eqn:Ex; [|discriminate].
    destruct (for_each body items) as [rs'|e]; [|discriminate].
    inversion Hrun; subst. destruct o as [r0|].
    + destruct Hin as [->|Hin].
      * exists it0. split; [now left|exact Ex].
      * destruct (IH rs' eq_refl r Hin) as (y & Hy & Hby).
        exists y. split; [now right|exact Hby].
    + destruct (IH rs' eq_refl r Hin) as (y & Hy & Hby).
      exists y. split; [now right|exact Hby].
Qed.

Lemma insert_by_timestamp_In x l r :
  In r (insert_by_timestamp x l) <-> r = x \/ In r l.
Proof.
  induction l as [|y l IH]; simpl.
  - split; intros [H|H]; auto; destruct H.
  - destruct (Qle_bool (timestamp x) (timestamp y)); simpl.
    + split; intros [H|H]; auto.
    + rewrite IH. split; intros [H|[H|H]]; auto.
Qed.

Lemma sort_by_timestamp_In l r : In r (sort_by_timestamp l) <-> In r l.
Proof.
  induction l as [|x l IH]; simpl; [tauto|].
  rewrite insert_by_timestamp_In, IH. split; intros [H|H]; auto.
Qed.

Lemma insert_by_timestamp_ascending x l :
  ascending l -> ascending (insert_by_timestamp x l).
Proof.
  unfold ascending. induction l as [|y l IH]; intros Hl; simpl.
  - constructor; constructor.
  - inversion Hl as [|y' l' Hl' Hy]; subst.
    destruct (Qle_bool (timestamp x) (timestamp y)) eqn:E.
    + apply Qle_bool_iff in E. constructor; [exact Hl|].
      constructor; [exact E|].
      rewrite List.Forall_forall in *. intros z Hz. specialize (Hy z Hz).
      eapply Qle_trans; eauto.
    + assert (Hyx : timestamp y <= timestamp x).
      { apply Qlt_le_weak, Qnot_le_lt. intros H. apply Qle_bool_iff in H.
        congruence. }
      constructor; [now apply IH|].
      rewrite List.Forall_forall in *. intros z Hz.
      apply insert_by_timestamp_In in Hz. destruct Hz as [->|Hz]; auto.
Qed.

Lemma sort_by_timestamp_ascending l : ascending (sort_by_timestamp l).
Proof.
  induction l as [|x l IH]; simpl.
  - constructor.
  - now apply insert_by_timestamp_ascending.
Qed.

Lemma sub_days_returned (d : Q) (n : Z) (c : Q) :
  sub_days d n = Returned c -> c = d - seconds_of_days n.
Proof.
  unfold sub_days. destruct (999999999 <? Z.abs n)%Z; [discriminate|].
  destruct (_ || _); [discriminate|]. now inversion 1.
Qed.

End ParsingProperties.

Section ConnectorProperties.

Context {float Env : Type}.
Variable py : @Builtins float.
Variable remote : @Upstream float Env.

(** *** Reading a run of a method body backwards *)

Lemma bind_returned {A C : Type} (m : @M float Env A) (k : A -> @M float Env C) w v w' :
  bind m k w = (Returned v, w') ->
  exists a w1, m w = (Returned a, w1) /\ k a w1 = (Returned v, w').
Proof.
  unfold bind. destruct (m w) as [[a|e] w1]; [eauto|discriminate].
Qed.

Lemma lift_returned {A : Type} (r : result A) (w : @World float Env) v w' :
  lift r w = (Returned v, w') -> r = Returned v /\ w' = w.
Proof. unfold lift. inversion 1; auto. Qed.

Lemma ret_returned {A : Type} (a : A) (w : @World float Env) v w' :
  ret a w = (Returned v, w') -> v = a /\ w' = w.
Proof. unfold ret. inversion 1; auto. Qed.

Lemma datetime_now_returned (w : @World float Env) t w' :
  datetime_now w = (Returned t, w') -> t = clock w /\ w' = w.
Proof. unfold datetime_now. inversion 1; auto. Qed.

Lemma requests_get_returned url params timeout (w : @World float Env) resp w' :
  requests_get remote url params timeout w = (Returned resp, w') ->
  fst (fst (http_get remote url params timeout (clock w) (upstream w))) =
    Returned resp.
Proof.
  unfold requests_get.
  destruct (http_get remote url params timeout (clock w) (upstream w))
    as [[r t] env]. simpl. now inversion 1.
Qed.

Lemma yf_Ticker_history_returned symbol days iv (w : @World float Env) rows w' :
  yf_Ticker_history remote symbol days iv w = (Returned rows, w') ->
  served_rows remote rows.
Proof.
  unfold yf_Ticker_history, served_rows.
  destruct (yf_history remote symbol days iv (clock w) (upstream w))
    as [[r t] env] eqn:E. inversion 1; subst.
  exists symbol, days, iv, (clock w), (upstream w). now rewrite E.
Qed.

Ltac peel :=
  repeat match goal with
  | H : bind _ _ _ = (Returned _, _) |- _ =>
      apply bind_returned in H; destruct H as (? & ? & ? & H)
  | H : lift _ _ = (Returned _, _) |- _ =>
      apply lift_returned in H; destruct H as [H ?]; subst
  | H : ret _ _ = (Returned _, _) |- _ =>
      apply ret_returned in H; destruct H as [? ?]; subst
  | H : datetime_now _ = (Returned _, _) |- _ =>
      apply datetime_now_returned in H; destruct H as [? ?]; subst
  | H : (if ?b then _ else _) _ = (Returned _, _) |- _ => destruct b eqn:?
  | H : (let '(_, _) := ?p in _) _ = (Returned _, _) |- _ => destruct p eqn:?
  end.

Lemma served_intro url params timeout (w : @World float Env) resp w' payload :
  requests_get remote url params timeout w = (Returned resp, w') ->
  json_ resp = Returned payload ->
  served remote payload.
Proof.
  intros H Hj. apply requests_get_returned in H.
  exists url, params, timeout, (clock w), (upstream w), resp. auto.
Qed.

(** *** Fields that the upstream does not send *)

Lemma assoc_In {V : Type} (key : string) (d : list (string * V)) v :
  assoc key d = Some v -> In (key, v) d.
Proof.
  induction d as [|[k' v'] d IH]; simpl; [discriminate|].
  destruct (String.eqb key k') eqn:E.
  - apply String.eqb_eq in E. subst. inversion 1. now left.
  - intros H. right. now apply IH.
Qed.

Lemma existsb_false_In {A : Type} (f : A -> bool) (l : list A) a :
  existsb f l = false -> In a l -> f a = false.
Proof.
  intros H Hin. destruct (f a) eqn:E; [|reflexivity].
  assert (existsb f l = true) by (apply existsb_exists; eauto). congruence.
Qed.

Lemma mentions_assoc key (d : list (string * @json float)) :
  mentions key (JDict d) = false -> assoc key d = None.
Proof.
  simpl. intros H. destruct (assoc key d) as [v|] eqn:E; [|reflexivity].
  apply assoc_In in E. pose proof (existsb_false_In _ _ _ H E) as Hf.
  simpl in Hf. rewrite String.eqb_refl in Hf. discriminate.
Qed.

Lemma mentions_value key k' (d : list (string * @json float)) v :
  mentions key (JDict d) = false -> In (k', v) d -> mentions key v = false.
Proof.
  simpl. intros H Hin. pose proof (existsb_false_In _ _ _ H Hin) as Hf.
  simpl in Hf. now apply orb_false_iff in Hf.
Qed.

Lemma mentions_dict_get key (j : @json float) k' dflt v :
  mentions key j = false -> mentions key dflt = false ->
  dict_get j k' dflt = Returned v -> mentions key v = false.
Proof.
  intros Hj Hd. destruct j; simpl; try discriminate.
  intros H. inversion H; subst.
  destruct (assoc k' d) as [v0|] eqn:E; simpl; [|exact Hd].
  eapply mentions_value; eauto using assoc_In.
Qed.

Lemma mentions_getitem key (j : @json float) k' v :
  mentions key j = false -> getitem j k' = Returned v -> mentions key v = false.
Proof.
  intros Hj. destruct j; simpl; try discriminate.
  destruct (assoc k' d) as [v0|] eqn:E; [|discriminate].
  intros H. inversion H; subst. eapply mentions_value; eauto using assoc_In.
Qed.

Lemma mentions_chars key (s0 : string) (it : @json float) :
  In it (chars s0) -> mentions key it = false.
Proof.
  induction s0 as [|c s0 IH]; simpl; [tauto|].
  intros [<-|H]; [reflexivity|auto].
Qed.

Lemma mentions_iter key (j : @json float) items it :
  mentions key j = false -> json_iter j = Returned items -> In it items ->
  mentions key it = false.
Proof.
  intros Hj. destruct j; simpl; try discriminate; intros H; inversion H; subst.
  - apply mentions_chars.
  - intros Hin. simpl in Hj. eapply existsb_false_In; eauto.
  - intros Hin. apply in_map_iff in Hin. destruct Hin as (kv & <- & _).
    reflexivity.
Qed.

Lemma mentions_items key (j : @json float) items k' v :
  mentions key j = false -> json_items j = Returned items -> In (k', v) items ->
  mentions key v = false.
Proof.
  intros Hj. destruct j; simpl; try discriminate. intros H; inversion H; subst.
  now apply mentions_value.
Qed.

(** *** What a returned list of each class is made of *)

Lemma YFinance_returned self ticker interval lookback_days w data w' :
  YFinanceConnector_fetch py remote self ticker interval lookback_days w =
    (Returned data, w') ->
  exists rows,
    served_rows remote rows /\
    for_each (yfinance_row py ticker interval) rows = Returned data.
Proof.
  unfold YFinanceConnector_fetch. intros H. peel.
  eauto using yf_Ticker_history_returned.
Qed.

Lemma AlphaVantage_returned self ticker interval lookback_days w data w' :
  AlphaVantageConnector_fetch py remote self ticker interval lookback_days w =
    (Returned data, w') ->
  data = [] \/
  exists payload items cutoff result,
    served remote payload /\
    (forall key, mentions key payload = false ->
       forall kv, In kv items -> mentions key (snd kv) = false) /\
    sub_days (clock w') lookback_days = Returned cutoff /\
    for_each (alpha_vantage_item py cutoff ticker interval) items = Returned result /\
    data = sort_by_timestamp result.
Proof.
  unfold AlphaVantageConnector_fetch. intros H. peel; auto.
  right. do 4 eexists. repeat split; eauto using served_intro.
  intros key Hk [k' v] Hin. simpl.
  match goal with Hi : json_items ?j = Returned ?its |- _ =>
    apply (mentions_items key j its k' v); [|exact Hi|exact Hin] end.
  match goal with Hd : dict_get ?q ?k ?d = Returned ?v0 |- _ =>
    apply (mentions_dict_get key q k d v0); [exact Hk|reflexivity|exact Hd] end.
Qed.

Lemma Finnhub_returned self ticker interval lookback_days w data w' :
  FinnhubConnector_fetch py remote self ticker interval lookback_days w =
    (Returned data, w') ->
  data = [] \/
  exists timestamps opens highs lows closes volumes n,
    for_each (finnhub_bar py ticker interval timestamps opens highs lows
                closes volumes) (seq 0 n) = Returned data.
Proof.
  unfold FinnhubConnector_fetch. intros H. peel; auto.
  right. do 7 eexists. eauto.
Qed.

Lemma TwelveData_returned self ticker interval lookback_days w data w' :
  TwelveDataConnector_fetch py remote self ticker interval lookback_days w =
    (Returned data, w') ->
  data = [] \/
  exists items cutoff result,
    sub_days (clock w') lookback_days = Returned cutoff /\
    for_each (twelve_data_item py cutoff ticker interval) items = Returned result /\
    data = sort_by_timestamp result.
Proof.
  unfold TwelveDataConnector_fetch. intros H. peel; auto.
  right. do 3 eexists. eauto.
Qed.

Lemma FMP_returned self ticker interval lookback_days w data w' :
  FMPConnector_fetch py remote self ticker interval lookback_days w =
    (Returned data, w') ->
  data = [] \/
  exists payload items cutoff result,
    served remote payload /\
    (forall key, mentions key payload = false ->
       forall it, In it items -> mentions key it = false) /\
    sub_days (clock w') lookback_days = Returned cutoff /\
    for_each (fmp_item py cutoff ticker interval) items = Returned result /\
    data = sort_by_timestamp result.
Proof.
  unfold FMPConnector_fetch. intros H. peel; auto.
  right. do 4 eexists. repeat split; eauto using served_intro.
  intros key Hk it Hin.
  match goal with Hi : json_iter ?j = Returned ?its |- _ =>
    apply (mentions_iter key j its it); [|exact Hi|exact Hin] end.
  destruct (String.eqb interval "1d").
  - match goal with Hd : dict_get ?q ?k ?d = Returned ?v0 |- _ =>
      apply (mentions_dict_get key q k d v0); [exact Hk|reflexivity|exact Hd] end.
  - match goal with Hh : Returned _ = Returned _ |- _ =>
      inversion Hh as [Hh'] end.
    match goal with |- mentions _ (match ?q with _ => _ end) = _ =>
      destruct q; auto end.
Qed.

Lemma Polygon_returned self ticker interval lookback_days w data w' :
  PolygonConnector_fetch py remote self ticker interval lookback_days w =
    (Returned data, w') ->
  data = [] \/
  exists items, for_each (polygon_item py ticker interval) items = Returned data.
Proof.
  unfold PolygonConnector_fetch. intros H. peel; eauto.
Qed.

Lemma IEXCloud_returned self ticker interval lookback_days w data w' :
  IEXCloudConnector_fetch py remote self ticker interval lookback_days w =
    (Returned data, w') ->
  data = [] \/
  exists payload items,
    served remote payload /\
    (forall key, mentions key payload = false ->
       forall it, In it items -> mentions key it = false) /\
    for_each (iex_item py ticker interval) items = Returned data.
Proof.
  unfold IEXCloudConnector_fetch. intros H. peel; auto.
  right. do 2 eexists. repeat split; eauto using served_intro.
  intros key Hk it Hin.
  match goal with Hi : json_iter ?j = Returned ?its |- _ =>
    apply (mentions_iter key j its it); [exact Hk|exact Hi|exact Hin] end.
Qed.

(** The decorated method returns what one run of the body returned. *)
(** *** The answer a returned list was read from

    A body makes one outbound call and changes nothing after it: the
    answer it has read is the last one received in the world it ends in. *)

Lemma requests_get_last url params timeout (w : @World float Env) resp w' :
  requests_get remote url params timeout w = (Returned resp, w') ->
  last (inbound w') = Some (HttpAnswer (Returned resp)).
Proof.
  unfold requests_get.
  destruct (http_get remote url params timeout (clock w) (upstream w))
    as [[r t] env]. inversion 1; subst. simpl. apply last_snoc.
Qed.

Lemma yf_Ticker_history_last symbol days iv (w : @World float Env) rows w' :
  yf_Ticker_history remote symbol days iv w = (Returned rows, w') ->
  last (inbound w') = Some (HistoryAnswer (Returned rows)).
Proof.
  unfold yf_Ticker_history.
  destruct (yf_history remote symbol days iv (clock w) (upstream w))
    as [[r t] env]. inversion 1; subst. simpl. apply last_snoc.
Qed.

Lemma YFinance_read self ticker interval lookback_days w data w' :
  YFinanceConnector_fetch py remote self ticker interval lookback_days w =
    (Returned data, w') ->
  exists rows,
    last (inbound w') = Some (HistoryAnswer (Returned rows)) /\
    for_each (yfinance_row py ticker interval) rows = Returned data.
Proof.
  unfold YFinanceConnector_fetch. intros H. peel.
  eauto using yf_Ticker_history_last.
Qed.

Lemma AlphaVantage_read self ticker interval lookback_days w data w' :
  AlphaVantageConnector_fetch py remote self ticker interval lookback_days w =
    (Returned data, w') ->
  data = [] \/
  exists resp payload items cutoff result,
    last (inbound w') = Some (HttpAnswer (Returned resp)) /\
    json_ resp = Returned payload /\
    (forall key, mentions key payload = false ->
       forall kv, In kv items -> mentions key (snd kv) = false) /\
    for_each (alpha_vantage_item py cutoff ticker interval) items = Returned result /\
    data = sort_by_timestamp result.
Proof.
  unfold AlphaVantageConnector_fetch. intros H. peel; auto.
  right. do 5 eexists. repeat split; eauto using requests_get_last.
  intros key Hk [k' v] Hin. simpl.
  match goal with Hi : json_items ?j = Returned ?its |- _ =>
    apply (mentions_items key j its k' v); [|exact Hi|exact Hin] end.
  match goal with Hd : dict_get ?q ?k ?d = Returned ?v0 |- _ =>
    apply (mentions_dict_get key q k d v0); [exact Hk|reflexivity|exact Hd] end.
Qed.

Lemma FMP_read self ticker interval lookback_days w data w' :
  FMPConnector_fetch py remote self ticker interval lookback_days w =
    (Returned data, w') ->
  data = [] \/
  exists resp payload items cutoff result,
    last (inbound w') = Some (HttpAnswer (Returned resp)) /\
    json_ resp = Returned payload /\
    (forall key, mentions key payload = false ->
       forall it, In it items -> mentions key it = false) /\
    for_each (fmp_item py cutoff ticker interval) items = Returned result /\
    data = sort_by_timestamp result.
Proof.
  unfold FMPConnector_fetch. intros H. peel; auto.
  right. do 5 eexists. repeat split; eauto using requests_get_last.
  intros key Hk it Hin.
  match goal with Hi : json_iter ?j = Returned ?its |- _ =>
    apply (mentions_iter key j its it); [|exact Hi|exact Hin] end.
  destruct (String.eqb interval "1d").
  - match goal with Hd : dict_get ?q ?k ?d = Returned ?v0 |- _ =>
      apply (mentions_dict_get key q k d v0); [exact Hk|reflexivity|exact Hd] end.
  - match goal with Hh : Returned _ = Returned _ |- _ =>
      inversion Hh as [Hh'] end.
    match goal with |- mentions _ (match ?q with _ => _ end) = _ =>
      destruct q; auto end.
Qed.

Lemma IEXCloud_read self ticker interval lookback_days w data w' :
  IEXCloudConnector_fetch py remote self ticker interval lookback_days w =
    (Returned data, w') ->
  data = [] \/
  exists resp payload items,
    last (inbound w') = Some (HttpAnswer (Returned resp)) /\
    json_ resp = Returned payload /\
    (forall key, mentions key payload = false ->
       forall it, In it items -> mentions key it = false) /\
    for_each (iex_item py ticker interval) items = Returned data.
Proof.
  unfold IEXCloudConnector_fetch. intros H. peel; auto.
  right. do 3 eexists. repeat split; eauto using requests_get_last.
  intros key Hk it Hin.
  match goal with Hi : json_iter ?j = Returned ?its |- _ =>
    apply (mentions_iter key j its it); [exact Hk|exact Hi|exact Hin] end.
Qed.

Lemma answer_lacks (key : string) (w' : @World float Env) resp payload :
  (forall a, last (inbound w') = Some a -> answer_mentions key a = false) ->
  last (inbound w') = Some (HttpAnswer (Returned resp)) ->
  json_ resp = Returned payload ->
  mentions key payload = false.
Proof.
  intros Hlacks Hlast Hjson. specialize (Hlacks _ Hlast).
  simpl in Hlacks. rewrite Hjson in Hlacks. exact Hlacks.
Qed.

Lemma fetch_ohlcv_returned self ticker interval lookback_days w data w' :
  Connector_fetch_ohlcv py remote self ticker interval lookback_days w =
    (Returned data, w') ->
  data = [] \/
  exists w0, fetch_body py remote self ticker interval lookback_days w0 =
               (Returned data, w').
Proof. apply retry_with_backoff_returned. Qed.

(** *** One record at a time *)

Ltac rpeel H :=
  repeat first
    [ apply rbind_returned in H; destruct H as (? & ? & H)
    | match type of H with
      | (if ?b then _ else _) = Returned _ => destruct b eqn:?; [discriminate H|]
      end ].

Ltac record_of H :=
  apply except_returned_some in H; rpeel H; inversion H; subst; clear H; simpl.

Lemma alpha_vantage_item_cutoff cutoff ticker interval kv r :
  alpha_vantage_item py cutoff ticker interval kv = Returned (Some r) ->
  cutoff <= timestamp r.
Proof.
  destruct kv as [date_str values]. unfold alpha_vantage_item. intros H.
  record_of H. now apply Qlt_bool_false.
Qed.

Lemma twelve_data_item_cutoff cutoff ticker interval item r :
  twelve_data_item py cutoff ticker interval item = Returned (Some r) ->
  cutoff <= timestamp r.
Proof.
  unfold twelve_data_item. intros H. record_of H. now apply Qlt_bool_false.
Qed.

Lemma fmp_item_cutoff cutoff ticker interval item r :
  fmp_item py cutoff ticker interval item = Returned (Some r) ->
  cutoff <= timestamp r.
Proof.
  unfold fmp_item. intros H. record_of H. now apply Qlt_bool_false.
Qed.

Lemma get_float_absent (j : @json float) key dflt a :
  mentions key j = false ->
  get_float py j key dflt = Returned a -> float_ py dflt = Returned a.
Proof.
  intros Hm. unfold get_float. destruct j; simpl; try discriminate.
  now rewrite (mentions_assoc _ _ Hm).
Qed.

(** [float(j.get(adjusted, j.get(close, 0)))] is [float(j.get(close, 0))]
    when the adjusted field is absent. *)
Lemma adjusted_defaults_to_close (j : @json float) close_key key dflt c a :
  mentions key j = false ->
  get_float py j close_key dflt = Returned c ->
  rbind (dict_get j close_key dflt) (fun d => get_float py j key d) = Returned a ->
  a = c.
Proof.
  intros Hm Hc Ha. apply rbind_returned in Ha. destruct Ha as (d & Hd & Ha).
  apply (get_float_absent _ _ _ _ Hm) in Ha.
  unfold get_float in Hc. rewrite Hd in Hc. simpl in Hc. congruence.
Qed.

(** The same with [row["Close"]] as the default, as yfinance writes it. *)
Lemma adjusted_defaults_to_item (j : @json float) close_key key c a :
  mentions key j = false ->
  item_float py j close_key = Returned c ->
  rbind (getitem j close_key) (fun d => get_float py j key d) = Returned a ->
  a = c.
Proof.
  intros Hm Hc Ha. apply rbind_returned in Ha. destruct Ha as (d & Hd & Ha).
  apply (get_float_absent _ _ _ _ Hm) in Ha.
  unfold item_float in Hc. rewrite Hd in Hc. simpl in Hc. congruence.
Qed.

Lemma yfinance_row_adj ticker interval idx row r :
  mentions "Adj Close" row = false ->
  yfinance_row py ticker interval (idx, row) = Returned (Some r) ->
  adj_close r = Some (close r).
Proof.
  unfold yfinance_row. intros Hm H. rpeel H. inversion H; subst; clear H. simpl.
  f_equal. eapply adjusted_defaults_to_item; eauto.
Qed.

Lemma alpha_vantage_item_adj cutoff ticker interval date_str values r :
  mentions "5. adjusted close" values = false ->
  alpha_vantage_item py cutoff ticker interval (date_str, values) =
    Returned (Some r) ->
  adj_close r = Some (close r).
Proof.
  unfold alpha_vantage_item. intros Hm H. record_of H.
  f_equal. eapply adjusted_defaults_to_close; eauto.
Qed.

Lemma fmp_item_adj cutoff ticker interval item r :
  mentions "adjClose" item = false ->
  fmp_item py cutoff ticker interval item = Returned (Some r) ->
  adj_close r = Some (close r).
Proof.
  unfold fmp_item. intros Hm H. record_of H.
  f_equal. eapply adjusted_defaults_to_close; eauto.
Qed.

Lemma iex_item_adj ticker interval item r :
  mentions "fClose" item = false ->
  iex_item py ticker interval item = Returned (Some r) ->
  adj_close r = Some (close r).
Proof.
  unfold iex_item. intros Hm H. record_of H.
  f_equal. eapply adjusted_defaults_to_close; eauto.
Qed.

Lemma finnhub_bar_adj ticker interval ts os hs ls cs vs i r :
  finnhub_bar py ticker interval ts os hs ls cs vs i = Returned (Some r) ->
  adj_close r = None.
Proof.
  unfold finnhub_bar. intros H. rpeel H. now inversion H.
Qed.

Lemma twelve_data_item_adj cutoff ticker interval item r :
  twelve_data_item py cutoff ticker interval item = Returned (Some r) ->
  adj_close r = None.
Proof. unfold twelve_data_item. intros H. record_of H. reflexivity. Qed.

Lemma polygon_item_adj ticker interval item r :
  polygon_item py ticker interval item = Returned (Some r) ->
  adj_close r = None.
Proof. unfold polygon_item. intros H. record_of H. reflexivity. Qed.

Lemma Forall_sort_by_timestamp (P : @OHLCVData float -> Prop) l :
  Forall P l -> Forall P (sort_by_timestamp l).
Proof.
  rewrite !List.Forall_forall. intros H r Hr.
  apply H. apply (proj1 (sort_by_timestamp_In l r)). exact Hr.
Qed.

Lemma Forall_for_each {A : Type} (P : @OHLCVData float -> Prop)
    (body : A -> result (option (@OHLCVData float))) items rs :
  for_each body items = Returned rs ->
  (forall it r, In it items -> body it = Returned (Some r) -> P r) ->
  Forall P rs.
Proof.
  intros Hrun Hbody. apply List.Forall_forall. intros r Hr.
  destruct (for_each_produced body items rs Hrun r Hr) as (it & Hit & Hb).
  eauto.
Qed.

(** ** Order of the returned records *)

(** C3, amended. The list returned by the AlphaVantage, TwelveData and FMP
    connectors is sorted ascending by timestamp; records with equal
    timestamps may follow one another. *)
Theorem fetch_ohlcv_ascending (self : Connector) (ticker interval : string)
    (lookback_days : Z) (w w' : @World float Env) (data : list (@OHLCVData float)) :
  filters_and_sorts (provider self) = true ->
  Connector_fetch_ohlcv py remote self ticker interval lookback_days w =
    (Returned data, w') ->
  ascending data.
Proof.
  intros Hp H. apply fetch_ohlcv_returned in H.
  destruct H as [->|[w0 H]]; [constructor|].
  unfold fetch_body in H. destruct (provider self); try discriminate Hp.
  - apply AlphaVantage_returned in H.
    destruct H as [->|(? & ? & ? & ? & _ & _ & _ & _ & ->)];
      [constructor|apply sort_by_timestamp_ascending].
  - apply TwelveData_returned in H.
    destruct H as [->|(? & ? & ? & _ & _ & ->)];
      [constructor|apply sort_by_timestamp_ascending].
  - apply FMP_returned in H.
    destruct H as [->|(? & ? & ? & ? & _ & _ & _ & _ & ->)];
      [constructor|apply sort_by_timestamp_ascending].
Qed.

(** ** Lookback window *)

(** C7, amended. Every record returned by the AlphaVantage, TwelveData and
    FMP connectors has a timestamp not older than [now - lookback_days],
    where [now] is the clock when the call returns, which is when the
    response was read. *)
Theorem fetch_ohlcv_within_lookback (self : Connector) (ticker interval : string)
    (lookback_days : Z) (w w' : @World float Env) (data : list (@OHLCVData float)) :
  filters_and_sorts (provider self) = true ->
  Connector_fetch_ohlcv py remote self ticker interval lookback_days w =
    (Returned data, w') ->
  Forall (fun r => clock w' - seconds_of_days lookback_days <= timestamp r) data.
Proof.
  intros Hp H. apply fetch_ohlcv_returned in H.
  destruct H as [->|[w0 H]]; [constructor|].
  unfold fetch_body in H. destruct (provider self); try discriminate Hp.
  - apply AlphaVantage_returned in H.
    destruct H as [->|(? & ? & cutoff & ? & _ & _ & Hc & Hrun & ->)];
      [constructor|].
    apply sub_days_returned in Hc. subst cutoff.
    apply Forall_sort_by_timestamp. eapply Forall_for_each; [exact Hrun|].
    intros it r _. apply alpha_vantage_item_cutoff.
  - apply TwelveData_returned in H.
    destruct H as [->|(? & cutoff & ? & Hc & Hrun & ->)]; [constructor|].
    apply sub_days_returned in Hc. subst cutoff.
    apply Forall_sort_by_timestamp. eapply Forall_for_each; [exact Hrun|].
    intros it r _. apply twelve_data_item_cutoff.
  - apply FMP_returned in H.
    destruct H as [->|(? & ? & cutoff & ? & _ & _ & Hc & Hrun & ->)];
      [constructor|].
    apply sub_days_returned in Hc. subst cutoff.
    apply Forall_sort_by_timestamp. eapply Forall_for_each; [exact Hrun|].
    intros it r _. apply fmp_item_cutoff.
Qed.

(** ** Adjusted close *)

(** C4, amended. For the yfinance, AlphaVantage, FMP and IEX Cloud
    connectors, which read an adjusted close from the upstream schema: when
    the answer that the call has read, the last one received, carries no
    such field, every returned record has [adj_close] equal to [close].
    The Finnhub, TwelveData and Polygon connectors never set the attribute:
    every record they return has [adj_close = None]. *)
Theorem fetch_ohlcv_adj_close (self : Connector) (ticker interval : string)
    (lookback_days : Z) (w w' : @World float Env) (data : list (@OHLCVData float)) :
  Connector_fetch_ohlcv py remote self ticker interval lookback_days w =
    (Returned data, w') ->
  match adjusted_field (provider self) with
  | Some key =>
      (forall a, last (inbound w') = Some a -> answer_mentions key a = false) ->
      Forall (fun r => adj_close r = Some (close r)) data
  | None => Forall (fun r => adj_close r = None) data
  end.
Proof.
  intros H. apply fetch_ohlcv_returned in H.
  destruct H as [->|[w0 H]]; [destruct (adjusted_field _); constructor|].
  unfold fetch_body in H. destruct (provider self); simpl.
  - intros Hlacks. apply YFinance_read in H.
    destruct H as (rows & Hlast & Hrun).
    specialize (Hlacks _ Hlast). simpl in Hlacks.
    eapply Forall_for_each; [exact Hrun|]. intros [idx row] r Hin.
    apply yfinance_row_adj.
    apply (existsb_false_In _ _ _ Hlacks Hin).
  - intros Hlacks. apply AlphaVantage_read in H.
    destruct H as [->|(resp & payload & items & ? & ? & Hlast & Hjson & Hitems
                       & Hrun & ->)]; [constructor|].
    apply Forall_sort_by_timestamp. eapply Forall_for_each; [exact Hrun|].
    intros [date_str values] r Hin. apply alpha_vantage_item_adj.
    apply (Hitems _ (answer_lacks _ _ _ _ Hlacks Hlast Hjson) _ Hin).
  - apply Finnhub_returned in H.
    destruct H as [->|(? & ? & ? & ? & ? & ? & ? & Hrun)]; [constructor|].
    eapply Forall_for_each; [exact Hrun|].
    intros it r _. apply finnhub_bar_adj.
  - apply TwelveData_returned in H.
    destruct H as [->|(? & ? & ? & _ & Hrun & ->)]; [constructor|].
    apply Forall_sort_by_timestamp. eapply Forall_for_each; [exact Hrun|].
    intros it r _. apply twelve_data_item_adj.
  - intros Hlacks. apply FMP_read in H.
    destruct H as [->|(resp & payload & items & ? & ? & Hlast & Hjson & Hitems
                       & Hrun & ->)]; [constructor|].
    apply Forall_sort_by_timestamp. eapply Forall_for_each; [exact Hrun|].
    intros it r Hin. apply fmp_item_adj.
    apply (Hitems _ (answer_lacks _ _ _ _ Hlacks Hlast Hjson) _ Hin).
  - apply Polygon_returned in H.
    destruct H as [->|(? & Hrun)]; [constructor|].
    eapply Forall_for_each; [exact Hrun|].
    intros it r _. apply polygon_item_adj.
  - intros Hlacks. apply IEXCloud_read in H.
    destruct H as [->|(resp & payload & items & Hlast & Hjson & Hitems & Hrun)];
      [constructor|].
    eapply Forall_for_each; [exact Hrun|].
    intros it r Hin. apply iex_item_adj.
    apply (Hitems _ (answer_lacks _ _ _ _ Hlacks Hlast Hjson) _ Hin).
Qed.

(** ** The registry *)

Lemma instance_if_usable environ (p : Provider) (w : @World float Env) o w' :
  p <> YFinance ->
  instance_if (AVAILABLE environ p) (keyed_init environ p None) w =
    (Returned o, w') ->
  forall c, o = Some c -> usable c = true.
Proof.
  intros Hp H c ->. unfold instance_if in H.
  destruct (AVAILABLE environ p) eqn:Ea; [|apply ret_returned in H; destruct H; discriminate].
  unfold keyed_init in H. peel.
  match goal with Hc : Some _ = Some _ |- _ => inversion Hc; subst; clear Hc end.
  unfold usable, api_key_or_env, AVAILABLE in *. simpl.
  destruct p; try congruence; simpl in *; exact Ea.
Qed.

(** Every connector of the registry is usable: the yfinance connector, or
    a connector whose key was found in the environment at import. *)
Lemma registry_usable YFINANCE_AVAILABLE environ (w : @World float Env) m w' :
  singletons YFINANCE_AVAILABLE environ w = (Returned m, w') ->
  Forall (fun c => usable c = true) (get_available_connectors m).
Proof.
  unfold singletons, AlphaVantageConnector, FinnhubConnector,
    TwelveDataConnector, FMPConnector, PolygonConnector, IEXCloudConnector.
  intros H.
  repeat (apply bind_returned in H; destruct H as (? & ? & ? & H)).
  apply ret_returned in H. destruct H as [-> _].
  unfold get_available_connectors. simpl.
  repeat (apply Forall_app; split);
    match goal with
    | |- Forall _ (option_list ?o) =>
        destruct o as [c|] eqn:Eo; simpl; constructor; [|constructor]
    end;
    try match goal with
        | Hi : instance_if (AVAILABLE _ ?p) _ _ = (Returned (Some ?c), _)
          |- usable ?c = true =>
            apply (instance_if_usable _ p _ _ _ ltac:(discriminate) Hi c eq_refl)
        end.
  match goal with
  | Hy : instance_if _ (YFinanceConnector _) _ = _ |- _ =>
      unfold instance_if, YFinanceConnector in Hy;
      destruct YFINANCE_AVAILABLE; simpl in Hy; peel
  end.
  - match goal with Hc : Some _ = Some _ |- _ => inversion Hc; subst end.
    reflexivity.
  - discriminate.
Qed.

(** ** Availability *)

(** C8, amended. [is_available()] returns true for every connector, whether
    or not it holds its credential: no class overrides the method of the
    base class.  The connectors that lack their credential are kept out of
    the registry instead: every connector that [get_available_connectors()]
    returns is usable, being the yfinance connector or holding a key. *)
Theorem is_available_always :
  (forall self : Connector, Connector_is_available self = true) /\
  (forall YFINANCE_AVAILABLE environ (w w' : @World float Env) m,
     singletons YFINANCE_AVAILABLE environ w = (Returned m, w') ->
     Forall (fun c => usable c = true /\ Connector_is_available c = true)
            (get_available_connectors m)).
Proof.
  split; [reflexivity|].
  intros avail environ w w' m H.
  apply (registry_usable avail environ w m w') in H.
  rewrite List.Forall_forall in *. intros c Hc. split; [auto|reflexivity].
Qed.

(** ** Connectors without a credential *)

(** C9. A connector of a class that requires a credential and whose
    [api_key] is empty returns the empty list at once: the world is left as
    it was, so no request went out, nothing was slept and no timestamp was
    recorded in any rate limiter. *)
Theorem fetch_ohlcv_without_key (self : Connector) (ticker interval : string)
    (lookback_days : Z) (w : @World float Env) :
  provider self <> YFinance ->
  api_key self = "" ->
  Connector_fetch_ohlcv py remote self ticker interval lookback_days w =
    (Returned [], w).
Proof.
  intros Hp Hkey.
  unfold Connector_fetch_ohlcv, retry_with_backoff, retry_exit, fetch_body.
  destruct (provider self); try congruence; simpl;
    unfold AlphaVantageConnector_fetch, FinnhubConnector_fetch,
      TwelveDataConnector_fetch, FMPConnector_fetch, PolygonConnector_fetch,
      IEXCloudConnector_fetch;
    rewrite Hkey; reflexivity.
Qed.

End ConnectorProperties.

(** ** The fallback orchestrator *)

Section FallbackProperties.

Context {float St : Type}.
Variables (ticker interval : string) (lookback_days : Z).

Implicit Types (connectors : list (@DataConnector float St))
  (log tail : list (nat * result (list (@OHLCVData float)))).

Lemma fallback_run_from connectors : forall i s log,
  exists tail,
    snd (snd (fetch_with_fallback (spy_from i connectors) ticker interval
                lookback_days (s, log))) = log ++ tail /\
    fallback_run i tail
      (fst (fetch_with_fallback (spy_from i connectors) ticker interval
              lookback_days (s, log))).
Proof.
  induction connectors as [|c rest IH]; intros i s log; simpl.
  - exists []. split; [now rewrite app_nil_r|apply fb_exhausted].
  - unfold try_connector, supports. simpl.
    destruct (existsb (String.eqb interval) (SUPPORTED_INTERVALS c)).
    + destruct (fetch_ohlcv c ticker interval lookback_days s)
        as [[[|x data]|e] s1]; simpl.
      * destruct (IH (S i) s1 (log ++ [(i, Returned [])])) as (tail & Ht & Hr).
        exists ((i, Returned []) :: tail). split.
        { rewrite Ht, <- app_assoc. reflexivity. }
        apply fb_no_data; [reflexivity|exact Hr].
      * exists [(i, Returned (x :: data))]. split; [reflexivity|apply fb_success].
      * destruct (IH (S i) s1 (log ++ [(i, Raised e)])) as (tail & Ht & Hr).
        exists ((i, Raised e) :: tail). split.
        { rewrite Ht, <- app_assoc. reflexivity. }
        apply fb_no_data; [reflexivity|exact Hr].
    + destruct (IH (S i) s log) as (tail & Ht & Hr).
      exists tail. split; [exact Ht|]. apply fb_skip. exact Hr.
Qed.

(** The log does not influence the run. *)
Lemma fallback_erase connectors : forall i s log,
  fetch_with_fallback connectors ticker interval lookback_days s =
  (fst (fetch_with_fallback (spy_from i connectors) ticker interval
          lookback_days (s, log)),
   fst (snd (fetch_with_fallback (spy_from i connectors) ticker interval
               lookback_days (s, log)))).
Proof.
  induction connectors as [|c rest IH]; intros i s log; simpl; [reflexivity|].
  unfold try_connector, supports. simpl.
  destruct (existsb (String.eqb interval) (SUPPORTED_INTERVALS c)).
  - destruct (fetch_ohlcv c ticker interval lookback_days s)
      as [[[|x data]|e] s1]; simpl; auto.
  - apply IH.
Qed.

Lemma fallback_run_positions i tail r :
  fallback_run i tail r -> forall j o, In (j, o) tail -> (i <= j)%nat.
Proof.
  induction 1 as [i|i tail r _ IH|i o tail r _ _ IH|i x data]; intros j o' Hin.
  - destruct Hin.
  - apply IH in Hin. lia.
  - destruct Hin as [Heq|Hin]; [inversion Heq; lia|]. apply IH in Hin. lia.
  - destruct Hin as [Heq|[]]. inversion Heq; lia.
Qed.

(** The calls are made in registry order, each connector at most once. *)
Lemma fallback_run_ordered i tail r :
  fallback_run i tail r -> StronglySorted lt (List.map fst tail).
Proof.
  induction 1 as [i|i tail r _ IH|i o tail r _ Hrun IH|i x data]; simpl.
  - constructor.
  - exact IH.
  - constructor; [exact IH|]. apply List.Forall_forall. intros j Hj.
    apply in_map_iff in Hj. destruct Hj as ([j' o'] & <- & Hin). simpl.
    pose proof (fallback_run_positions _ _ _ Hrun j' o' Hin). lia.
  - repeat constructor.
Qed.

(** A call that returns data is the last call, and its data the result. *)
Lemma fallback_run_success i tail r :
  fallback_run i tail r ->
  forall j data, In (j, Returned data) tail -> data <> [] ->
  r = Returned data /\
  (exists front, tail = front ++ [(j, Returned data)] /\
                 Forall (fun e => (fst e < j)%nat /\ no_data (snd e) = true) front).
Proof.
  induction 1 as [i|i tail r _ IH|i o tail r Ho Hrun IH|i x data0];
    intros j data Hin Hne.
  - destruct Hin.
  - now apply IH.
  - destruct Hin as [Heq|Hin].
    + inversion Heq; subst. destruct data; [congruence|discriminate].
    + destruct (IH j data Hin Hne) as (Hr & front & Ht & Hfront).
      split; [exact Hr|]. exists ((i, o) :: front). split.
      * now rewrite Ht.
      * constructor; [|exact Hfront]. simpl. split; [|exact Ho].
        pose proof (fallback_run_positions _ _ _ Hrun j _ Hin). lia.
  - destruct Hin as [Heq|[]]. inversion Heq; subst.
    split; [reflexivity|]. exists []. split; [reflexivity|constructor].
Qed.

Lemma fallback_run_no_data i tail r :
  fallback_run i tail r ->
  (forall j o, In (j, o) tail -> no_data o = true) ->
  r = Returned [].
Proof.
  induction 1 as [i|i tail r _ IH|i o tail r _ _ IH|i x data]; intros Hall.
  - reflexivity.
  - now apply IH.
  - apply IH. intros j o' Hin. apply (Hall j). now right.
  - specialize (Hall i (Returned (x :: data))). simpl in Hall.
    discriminate Hall. now left.
Qed.

(** The run over a registry in which the connectors of [front] yield no
    data and the next one, [c], returns a non-empty list: the calls of
    [front], then the call of [c], and nothing after it. *)
Lemma fallback_reaches (c : @DataConnector float St) back s1 s2 x data :
  supports c interval = true ->
  fetch_ohlcv c ticker interval lookback_days s1 = (Returned (x :: data), s2) ->
  forall front s, all_fail ticker interval lookback_days front s s1 ->
  forall i log,
  exists calls,
    fetch_with_fallback (spy_from i (front ++ c :: back)) ticker interval
      lookback_days (s, log) =
      (Returned (x :: data),
       (s2, log ++ calls ++ [((i + List.length front)%nat, Returned (x :: data))])) /\
    Forall (fun e => (fst e < i + List.length front)%nat /\ no_data (snd e) = true)
           calls.
Proof.
  intros Hsup Hfetch front s Hfail.
  induction Hfail as [s|c0 rest s s' Hno _ IH|c0 rest s r s0 s' Hyes Hcall Hr _ IH];
    intros i log; simpl.
  - exists []. split; [|constructor].
    unfold try_connector, supports in *. simpl. rewrite Hsup. simpl.
    rewrite Hfetch. simpl. rewrite Nat.add_0_r. reflexivity.
  - destruct (IH Hfetch (S i) log) as (calls & Hrun & Hcalls).
    exists calls. split.
    + unfold try_connector, supports in *. simpl. rewrite Hno.
      rewrite Hrun. simpl List.length. rewrite Nat.add_succ_r. reflexivity.
    + eapply List.Forall_impl; [|exact Hcalls]. simpl. intros e [? ?]. split; [lia|auto].
  - destruct (IH Hfetch (S i) (log ++ [(i, r)])) as (calls & Hrun & Hcalls).
    exists ((i, r) :: calls). split.
    + unfold try_connector, supports in *. simpl. rewrite Hyes. simpl.
      rewrite Hcall. simpl.
      destruct r as [[|y ys]|e]; simpl in Hr; try discriminate Hr;
        rewrite Hrun, <- app_assoc; simpl List.length; rewrite Nat.add_succ_r;
        reflexivity.
    + constructor; [simpl; split; [lia|exact Hr]|].
      eapply List.Forall_impl; [|exact Hcalls]. simpl. intros e [? ?]. split; [lia|auto].
Qed.

(** C1. First success wins: when the connectors before [c] in the
    registry, tried in order, yield no data (each raises, returns an empty
    list, or does not support the interval) and the call of [c] returns a
    non-empty list, then that list is the result of [fetch_with_fallback],
    returned in the state in which the call of [c] ended; the call of [c]
    is the last call of the run, every call before it went to a connector
    before [c], and no connector after [c] is called.  For a registry
    [A; B; C]: when A raises or returns an empty list and B returns a
    non-empty list, the result is the list of B and C is not called. *)
Theorem fetch_with_fallback_first_success
    (front : list (@DataConnector float St)) (c : @DataConnector float St)
    (back : list (@DataConnector float St)) (s s1 s2 : St)
    (x : @OHLCVData float) (data : list (@OHLCVData float)) :
  all_fail ticker interval lookback_days front s s1 ->
  supports c interval = true ->
  fetch_ohlcv c ticker interval lookback_days s1 = (Returned (x :: data), s2) ->
  fetch_with_fallback (front ++ c :: back) ticker interval lookback_days s =
    (Returned (x :: data), s2) /\
  (exists calls,
     snd (snd (fallback_observed (front ++ c :: back) ticker interval
                 lookback_days s)) =
       calls ++ [(List.length front, Returned (x :: data))] /\
     Forall (fun e => (fst e < List.length front)%nat /\ no_data (snd e) = true)
            calls) /\
  (forall j r,
     In (j, r) (snd (snd (fallback_observed (front ++ c :: back) ticker interval
                            lookback_days s))) ->
     (j <= List.length front)%nat).
Proof.
  intros Hfail Hsup Hfetch.
  destruct (fallback_reaches c back s1 s2 x data Hsup Hfetch front s Hfail 0%nat [])
    as (calls & Hrun & Hcalls).
  simpl in Hrun, Hcalls.
  rewrite (fallback_erase (front ++ c :: back) 0 s []).
  unfold fallback_observed, spy_registry. rewrite Hrun. simpl.
  split; [reflexivity|]. split; [exists calls; split; [reflexivity|exact Hcalls]|].
  intros j r Hin. apply in_app_iff in Hin. destruct Hin as [Hin|[Hin|[]]].
  - rewrite List.Forall_forall in Hcalls. apply Hcalls in Hin. simpl in Hin. lia.
  - inversion Hin. lia.
Qed.

(** When no call yields data, every connector that supports the interval
    has been called, once and in order. *)
Lemma fallback_tries_all connectors : forall i s log,
  exists tail,
    snd (snd (fetch_with_fallback (spy_from i connectors) ticker interval
                lookback_days (s, log))) = log ++ tail /\
    (Forall (fun e => no_data (snd e) = true) tail ->
     List.map fst tail = supporting_positions interval i connectors).
Proof.
  induction connectors as [|c rest IH]; intros i s log; simpl.
  - exists []. split; [now rewrite app_nil_r|reflexivity].
  - unfold try_connector, supports. simpl.
    destruct (existsb (String.eqb interval) (SUPPORTED_INTERVALS c)).
    + destruct (fetch_ohlcv c ticker interval lookback_days s)
        as [[[|x data]|e] s1]; simpl.
      * destruct (IH (S i) s1 (log ++ [(i, Returned [])])) as (tail & Ht & Hp).
        exists ((i, Returned []) :: tail). split.
        { rewrite Ht, <- app_assoc. reflexivity. }
        intros Hall. inversion Hall; subst. simpl. f_equal. auto.
      * exists [(i, Returned (x :: data))]. split; [reflexivity|].
        intros Hall. inversion Hall as [|? ? Hno _]. discriminate Hno.
      * destruct (IH (S i) s1 (log ++ [(i, Raised e)])) as (tail & Ht & Hp).
        exists ((i, Raised e) :: tail). split.
        { rewrite Ht, <- app_assoc. reflexivity. }
        intros Hall. inversion Hall; subst. simpl. f_equal. auto.
    + apply IH.
Qed.

(** C2. Total fallback: when every call of [fetch_ohlcv] made during the
    run raises or returns an empty list, [fetch_with_fallback] returns the
    empty list, it does not raise; and after each such call the iteration
    went on, so that every connector supporting the interval has been
    called, in registry order. *)
Theorem fetch_with_fallback_exhausted connectors (s : St) :
  (forall j r,
     In (j, r) (snd (snd (fallback_observed connectors ticker interval
                            lookback_days s))) ->
     r = Returned [] \/ exists e, r = Raised e) ->
  fst (fetch_with_fallback connectors ticker interval lookback_days s) =
    Returned [] /\
  List.map fst (snd (snd (fallback_observed connectors ticker interval
                            lookback_days s))) =
    supporting_positions interval 0 connectors.
Proof.
  unfold fallback_observed, spy_registry. intros Hall.
  destruct (fallback_run_from connectors 0 s []) as (tail & Ht & Hrun).
  destruct (fallback_tries_all connectors 0 s []) as (tail' & Ht' & Hpos).
  simpl in Ht, Ht'. rewrite Ht in Hall.
  assert (Hno : forall j o, In (j, o) tail -> no_data o = true).
  { intros j o Hin. destruct (Hall j o Hin) as [->|[e ->]]; reflexivity. }
  split.
  - rewrite (fallback_erase connectors 0 s []). simpl.
    apply (fallback_run_no_data _ _ _ Hrun). exact Hno.
  - rewrite Ht'. apply Hpos. rewrite <- Ht', Ht.
    apply List.Forall_forall. intros [j o] Hin. simpl. eauto.
Qed.

End FallbackProperties.

(** * Runs on concrete inputs *)

(** The registry [A; U; E; B; C]: A times out, U does not support the
    interval, E returns nothing, B returns three records; C is not called. *)
Lemma fetch_with_fallback_first_success_witness :
  fetch_with_fallback Doubles.registry_AUEBC "AAPL" "1d" 30 0%nat =
    (Returned Doubles.three_bars, 3%nat) /\
  List.map fst (snd (snd (fallback_observed Doubles.registry_AUEBC "AAPL" "1d" 30
                            0%nat))) = [0; 2; 3]%nat.
Proof.
  split; [|vm_compute; reflexivity].
  apply (fetch_with_fallback_first_success "AAPL" "1d" 30
           [Doubles.mock "A" ["1d"] (Raised Timeout);
            Doubles.mock "U" ["1m"] (Returned [Doubles.bar "U" 1699833600]);
            Doubles.mock "E" ["1d"] (Returned [])]
           (Doubles.mock "B" ["1d"] (Returned Doubles.three_bars))
           [Doubles.mock "C" ["1d"] (Returned [Doubles.bar "C" 1699833600])]
           0%nat 2%nat 3%nat (Doubles.bar "B" 1699833600)
           [Doubles.bar "B" 1699920000; Doubles.bar "B" 1700006400]).
  - eapply fail_called; [reflexivity|reflexivity|reflexivity|].
    eapply fail_unsupported; [reflexivity|].
    eapply fail_called; [reflexivity|reflexivity|reflexivity|].
    apply fail_none.
  - reflexivity.
  - reflexivity.
Defined.

(** A registry where A times out, B does not support the interval and C
    has nothing. *)
Lemma fetch_with_fallback_exhausted_witness :
  fst (fetch_with_fallback Doubles.registry_dry "AAPL" "1d" 30 0%nat) =
    Returned [] /\
  List.map fst (snd (snd (fallback_observed Doubles.registry_dry "AAPL" "1d" 30
                            0%nat))) = [0; 2]%nat.
Proof.
  apply (fetch_with_fallback_exhausted "AAPL" "1d" 30 Doubles.registry_dry 0%nat).
  intros j r Hin. vm_compute in Hin.
  destruct Hin as [H|[H|[]]]; inversion H; subst; eauto.
Defined.

(** TwelveData sends the bars newest first; they come back oldest first. *)
Lemma fetch_ohlcv_ascending_witness :
  List.length (Doubles.returned (fst Doubles.twelve_data_run)) = 3%nat /\
  ascending (Doubles.returned (fst Doubles.twelve_data_run)).
Proof.
  split; [reflexivity|].
  apply (fetch_ohlcv_ascending Doubles.py
           (Doubles.constant_remote Doubles.time_series)
           (Doubles.demo TwelveData) "aapl" "1d" 7
           (Doubles.world1 TwelveData tt) (snd Doubles.twelve_data_run)).
  - reflexivity.
  - vm_compute. reflexivity.
Defined.

(** C3 fails as stated: Finnhub hands the candles on in the order of the
    response, here newest first; and the two TwelveData bars of 2023-11-13
    are both returned. *)
Lemma fetch_ohlcv_unsorted_and_duplicated :
  List.map timestamp (Doubles.returned (fst Doubles.finnhub_run)) =
    [inject_Z 1699920000; inject_Z 1699833600] /\
  ~ ascending (Doubles.returned (fst Doubles.finnhub_run)) /\
  List.map timestamp (Doubles.returned (fst Doubles.twelve_data_run)) =
    [inject_Z 1699833600; inject_Z 1699833600; inject_Z 1699920000] /\
  ~ distinct_timestamps (Doubles.returned (fst Doubles.twelve_data_run)).
Proof.
  split; [vm_compute; reflexivity|]. split.
  - intros H. vm_compute in H.
    inversion H as [|? ? _ Hall]. inversion Hall as [|? ? Hle _].
    apply Hle. reflexivity.
  - split; [vm_compute; reflexivity|].
    intros H. eapply (H 0%nat 1%nat).
    + vm_compute. reflexivity.
    + vm_compute. reflexivity.
    + lia.
    + vm_compute. reflexivity.
Qed.

(** IEX Cloud sends no [fClose]: the adjusted close is the close. *)
Lemma fetch_ohlcv_adj_close_witness :
  List.length (Doubles.returned (fst Doubles.iex_cloud_run)) = 2%nat /\
  Forall (fun r => adj_close r = Some (close r))
         (Doubles.returned (fst Doubles.iex_cloud_run)).
Proof.
  split; [reflexivity|].
  apply (fetch_ohlcv_adj_close Doubles.py (Doubles.constant_remote Doubles.chart)
           (Doubles.demo IEXCloud) "aapl" "1d" 7 (Doubles.world1 IEXCloud tt)
           (snd Doubles.iex_cloud_run)).
  - vm_compute. reflexivity.
  - intros a Ha. vm_compute in Ha. inversion Ha; subst. reflexivity.
Defined.

(** C4 fails as stated: the Finnhub response carries no adjusted close, and
    the records come back with [adj_close = None], not with the close. *)
Lemma fetch_ohlcv_adj_close_missing :
  mentions "adjusted_close" Doubles.candles = false /\
  List.map adj_close (Doubles.returned (fst Doubles.finnhub_run)) = [None; None] /\
  ~ Forall (fun r => adj_close r = Some (close r))
           (Doubles.returned (fst Doubles.finnhub_run)).
Proof.
  split; [reflexivity|]. split; [vm_compute; reflexivity|].
  intros H. vm_compute in H. inversion H as [|? ? Hr _]. discriminate Hr.
Qed.



(** With [lookback_days = 7] TwelveData drops the bar of 2023-11-01. *)
Lemma fetch_ohlcv_within_lookback_witness :
  List.length (Doubles.returned (fst Doubles.twelve_data_run)) = 3%nat /\
  Forall (fun r => clock (snd Doubles.twelve_data_run) - seconds_of_days 7
                   <= timestamp r)
         (Doubles.returned (fst Doubles.twelve_data_run)).
Proof.
  split; [reflexivity|].
  apply (fetch_ohlcv_within_lookback Doubles.py
           (Doubles.constant_remote Doubles.time_series)
           (Doubles.demo TwelveData) "aapl" "1d" 7
           (Doubles.world1 TwelveData tt) (snd Doubles.twelve_data_run)).
  - reflexivity.
  - vm_compute. reflexivity.
Defined.

(** C7 fails as stated: Polygon and IEX Cloud hand on the bar of
    2023-11-01, thirteen days old, when seven days are asked for. *)
Lemma fetch_ohlcv_outside_lookback :
  ~ Forall (fun r => clock (snd Doubles.polygon_run) - seconds_of_days 7
                     <= timestamp r)
           (Doubles.returned (fst Doubles.polygon_run)) /\
  List.map timestamp (Doubles.returned (fst Doubles.iex_cloud_run)) =
    [inject_Z 1698796800; inject_Z 1699833600] /\
  ~ Forall (fun r => clock (snd Doubles.iex_cloud_run) - seconds_of_days 7
                     <= timestamp r)
           (Doubles.returned (fst Doubles.iex_cloud_run)).
Proof.
  split; [|split; [vm_compute; reflexivity|]].
  - intros H. vm_compute in H. inversion H as [|? ? Hr _]. apply Hr. reflexivity.
  - intros H. vm_compute in H. inversion H as [|? ? Hr _]. apply Hr. reflexivity.
Qed.

(** C8 fails as stated: an AlphaVantage connector constructed without a
    key, the environment holding none, is not usable and still reports
    itself available. *)
Lemma is_available_without_credential :
  fst (Doubles.new AlphaVantage "" []) = Returned (Doubles.keyless AlphaVantage) /\
  usable (Doubles.keyless AlphaVantage) = false /\
  Connector_is_available (Doubles.keyless AlphaVantage) = true.
Proof. repeat split; vm_compute; reflexivity. Qed.

(** With yfinance installed and only a Finnhub key in the environment the
    registry holds the yfinance and the Finnhub connectors. *)
Lemma is_available_always_witness :
  List.map provider
    (match fst (singletons true Doubles.some_environ (Doubles.world0 [])) with
     | Returned m => get_available_connectors m
     | Raised _ => []
     end) = [YFinance; Finnhub] /\
  Forall (fun c => usable c = true /\ Connector_is_available c = true)
    (match fst (singletons true Doubles.some_environ (Doubles.world0 [])) with
     | Returned m => get_available_connectors m
     | Raised _ => []
     end).
Proof.
  split; [vm_compute; reflexivity|].
  destruct (singletons true Doubles.some_environ (Doubles.world0 []))
    as [[m|e] w'] eqn:E; simpl; [|constructor].
  exact (proj2 is_available_always true Doubles.some_environ
           (Doubles.world0 []) w' m E).
Defined.

(** An AlphaVantage connector constructed without a key while a response
    is ready upstream: nothing is asked for. *)
Lemma fetch_ohlcv_without_key_witness :
  fst (Doubles.new AlphaVantage "" [Doubles.ok Doubles.chart]) =
    Returned (Doubles.keyless AlphaVantage) /\
  Connector_fetch_ohlcv Doubles.py Doubles.remote
    (Doubles.keyless AlphaVantage) "aapl" "1d" 7
    (snd (Doubles.new AlphaVantage "" [Doubles.ok Doubles.chart])) =
  (Returned [], snd (Doubles.new AlphaVantage "" [Doubles.ok Doubles.chart])).
Proof.
  split; [vm_compute; reflexivity|].
  apply (fetch_ohlcv_without_key Doubles.py Doubles.remote
           (Doubles.keyless AlphaVantage)).
  - discriminate.
  - reflexivity.
Defined.



(** Two failures, then success: the value is returned after sleeps of
    [base_delay] and [2 * base_delay]. *)
Example retry_after_two_failures :
  fst (retry_with_backoff time_sleep 3 (1 # 2) Doubles.third_time_lucky
         (Doubles.world0 [])) = Returned [1; 2; 3]%nat /\
  slept (snd (retry_with_backoff time_sleep 3 (1 # 2) Doubles.third_time_lucky
                (Doubles.world0 []))) =
    [(1 # 2) * inject_Z (2 ^ 0); (1 # 2) * inject_Z (2 ^ 1)].
Proof. split; vm_compute; reflexivity. Qed.

(** * Further properties *)

(** ** The rate limiter: what a call records *)

Section LimiterProperties.

Context {float Env : Type}.

(** X1. A call of [wait_if_needed] that returns leaves under [key] the
    timestamps that survived the cleaning followed by the time at which the
    call was entered, also when it slept in between; the lists of the
    other keys and the two limits are as before. *)
Theorem wait_if_needed_records (self : RateLimiter) (key : string) (w : @World float Env) :
  fst (fst (wait_if_needed self key w)) = Returned tt ->
  _request_times (snd (fst (wait_if_needed self key w))) !! key =
    Some (surviving self key (clock w) ++ [clock w]) /\
  (forall key', key' <> key ->
     _request_times (snd (fst (wait_if_needed self key w))) !! key' =
     _request_times self !! key') /\
  requests_per_window (snd (fst (wait_if_needed self key w))) =
    requests_per_window self /\
  window_seconds (snd (fst (wait_if_needed self key w))) = window_seconds self.
Proof.
  unfold wait_if_needed.
  destruct (requests_per_window self <=? _)%Z.
  - destruct (surviving self key (clock w)) as [|t0 rest]; [discriminate|].
    destruct (Qlt_bool 0 _).
    + destruct (time_sleep _ w) as [[[]|e] w1]; [|discriminate].
      intros _. simpl. rewrite lookup_insert_eq. repeat split.
      intros key' Hne. rewrite !lookup_insert_ne by congruence. reflexivity.
    + intros _. simpl. rewrite lookup_insert_eq. repeat split.
      intros key' Hne. rewrite !lookup_insert_ne by congruence. reflexivity.
  - intros _. simpl. rewrite lookup_insert_eq. repeat split.
    intros key' Hne. rewrite !lookup_insert_ne by congruence. reflexivity.
Qed.


Lemma StronglySorted_filter_Qle (f : Q -> bool) (l : list Q) :
  StronglySorted Qle l -> StronglySorted Qle (List.filter f l).
Proof.
  induction 1 as [|x l Hl IH Hx]; simpl; [constructor|].
  destruct (f x); [|exact IH]. constructor; [exact IH|].
  rewrite List.Forall_forall in *. intros y Hy.
  apply filter_In in Hy. apply Hx, Hy.
Qed.

Lemma Forall_filter_Q (P : Q -> Prop) (f : Q -> bool) (l : list Q) :
  Forall P l -> Forall P (List.filter f l).
Proof.
  rewrite !List.Forall_forall. intros H y Hy. apply filter_In in Hy. apply H, Hy.
Qed.

Lemma StronglySorted_snoc_Qle (l : list Q) (x : Q) :
  StronglySorted Qle l -> Forall (fun t => t <= x) l ->
  StronglySorted Qle (l ++ [x]).
Proof.
  induction 1 as [|y l Hl IH Hy]; intros Hle; simpl.
  - repeat constructor.
  - inversion Hle as [|? ? Hyx Hrest]; subst.
    constructor; [now apply IH|].
    apply Forall_app. split; [exact Hy|]. constructor; [exact Hyx|constructor].
Qed.

Lemma wait_if_needed_clock (self : RateLimiter) (key : string) (w : @World float Env) :
  clock w <= clock (snd (wait_if_needed self key w)).
Proof.
  unfold wait_if_needed.
  destruct (requests_per_window self <=? _)%Z; [|apply Qle_refl].
  destruct (surviving self key (clock w)) as [|t0 rest]; [apply Qle_refl|].
  destruct (Qlt_bool 0 _) eqn:Epos; [|apply Qle_refl].
  unfold time_sleep. apply Qlt_bool_iff in Epos.
  destruct (negb (fits_int64 _)); simpl; [apply Qle_refl|].
  destruct (Qlt_bool _ 0) eqn:Eneg; simpl; [apply Qle_refl|]. lra.
Qed.

Lemma surviving_chronological (self : RateLimiter) (key : string) (now : Q) :
  chronological self now ->
  StronglySorted Qle (surviving self key now) /\
  Forall (fun t => t <= now) (surviving self key now).
Proof.
  intros Hc. unfold surviving.
  destruct (_request_times self !! key) as [ts|] eqn:E; simpl.
  - destruct (Hc key ts E) as [Hs Hb].
    split; [now apply StronglySorted_filter_Qle|now apply Forall_filter_Q].
  - split; constructor.
Qed.

(** X3. Kept in order: when the lists of a limiter are in the order of
    recording and hold nothing later than the clock, this is so again after
    a call of [wait_if_needed], however it ends, and the clock has not gone
    back; and then the first timestamp that survives the cleaning, the one
    the sleep is computed from, is the oldest one. *)
Theorem wait_if_needed_chronological (self : RateLimiter) (key : string)
    (w : @World float Env) :
  chronological self (clock w) ->
  chronological (snd (fst (wait_if_needed self key w)))
                (clock (snd (wait_if_needed self key w))) /\
  clock w <= clock (snd (wait_if_needed self key w)) /\
  (forall t0 rest, surviving self key (clock w) = t0 :: rest ->
                   Forall (fun t => t0 <= t) rest).
Proof.
  intros Hc.
  pose proof (wait_if_needed_clock self key w) as Hclock.
  destruct (surviving_chronological self key (clock w) Hc) as [Hsorted Hbound].
  split; [|split; [exact Hclock|]].
  - assert (Hkept : forall ts,
              StronglySorted Qle ts ->
              Forall (fun t => t <= clock w) ts ->
              StronglySorted Qle ts /\
              Forall (fun t => t <= clock (snd (wait_if_needed self key w))) ts).
    { intros ts Hs Hb. split; [exact Hs|].
      rewrite List.Forall_forall in *. intros t Ht.
      eapply Qle_trans; [apply Hb, Ht|exact Hclock]. }
    assert (Hnew : StronglySorted Qle (surviving self key (clock w) ++ [clock w]) /\
                   Forall (fun t => t <= clock w)
                          (surviving self key (clock w) ++ [clock w])).
    { split; [now apply StronglySorted_snoc_Qle|].
      apply Forall_app. split; [exact Hbound|].
      constructor; [apply Qle_refl|constructor]. }
    assert (Hcase : forall self',
              (_request_times self' !! key = Some (surviving self key (clock w)) \/
               _request_times self' !! key =
                 Some (surviving self key (clock w) ++ [clock w])) ->
              (forall key', key' <> key ->
                 _request_times self' !! key' = _request_times self !! key') ->
              chronological self' (clock (snd (wait_if_needed self key w)))).
    { intros self' Hkey Hother key' ts Hts.
      destruct (decide (key' = key)) as [->|Hne].
      - destruct Hkey as [Hk|Hk]; rewrite Hk in Hts; inversion Hts; subst;
          apply Hkept; tauto.
      - rewrite (Hother key' Hne) in Hts. destruct (Hc key' ts Hts).
        now apply Hkept. }
    revert Hcase. generalize (clock (snd (wait_if_needed self key w))).
    intros now' Hcase. unfold wait_if_needed.
    destruct (requests_per_window self <=? _)%Z;
      [destruct (surviving self key (clock w)) as [|t0 rest] eqn:Es;
       [|destruct (Qlt_bool 0 _);
         [destruct (time_sleep _ w) as [[[]|e] w1]|]]|];
      simpl; apply Hcase;
      try (intros key' Hne; simpl; rewrite ?lookup_insert_ne by congruence;
           reflexivity);
      simpl; rewrite lookup_insert_eq; rewrite ?Es; auto.
  - intros t0 rest Hs. rewrite Hs in Hsorted. now inversion Hsorted.
Qed.

End LimiterProperties.

(** ** The retry wrapper: edge and total back-off *)

(** X4. A wrapper made with [max_retries <= 0] never calls the wrapped
    function: it returns the empty list and leaves the state as it was. *)
Theorem retry_without_attempts {St B : Type} (sleep : Q -> St -> result unit * St)
    (max_retries : Z) (base_delay : Q) (func : St -> result (list B) * St) (s : St) :
  (max_retries <= 0)%Z ->
  retry_with_backoff sleep max_retries base_delay func s = (Returned [], s) /\
  snd (snd (retry_observed sleep max_retries base_delay func s)) = [].
Proof.
  intros Hm. unfold retry_observed, retry_with_backoff, retry_exit, range.
  replace (Z.to_nat max_retries) with 0%nat by lia. split; reflexivity.
Qed.

Lemma total_sleep_app {B : Type} (l1 l2 : list (RetryEvent B)) :
  total_sleep (l1 ++ l2) == total_sleep l1 + total_sleep l2.
Proof.
  induction l1 as [|ev l1 IH]; [simpl; ring|].
  destruct ev as [r|d [u|e]]; simpl; rewrite IH; ring.
Qed.

Lemma failures_app {B : Type} (l1 l2 : list (RetryEvent B)) :
  failures (l1 ++ l2) = (failures l1 + failures l2)%nat.
Proof.
  induction l1 as [|ev l1 IH]; simpl; [reflexivity|].
  destruct ev as [[v|e]|d r]; simpl; rewrite IH; reflexivity.
Qed.

Lemma backoff_trace_failures {B : Type} (base_delay : Q) (faults : list exn) :
  forall a, failures (@backoff_trace B base_delay a faults) = List.length faults.
Proof.
  induction faults as [|e faults IH]; intros a; simpl; [reflexivity|].
  now rewrite IH.
Qed.

Lemma backoff_trace_total {B : Type} (base_delay : Q) (faults : list exn) :
  forall a, (0 <= a)%Z ->
  total_sleep (@backoff_trace B base_delay a faults) ==
  base_delay * (inject_Z (2 ^ (a + Z.of_nat (List.length faults))) - inject_Z (2 ^ a)).
Proof.
  induction faults as [|e faults IH]; intros a Ha.
  - simpl. rewrite Z.add_0_r. ring.
  - cbn [backoff_trace total_sleep List.length]. rewrite (IH (a + 1)%Z) by lia.
    replace (a + 1 + Z.of_nat (List.length faults))%Z
      with (a + Z.of_nat (S (List.length faults)))%Z by lia.
    replace (2 ^ (a + 1))%Z with (2 * 2 ^ a)%Z
      by (rewrite Z.pow_add_r by lia; lia).
    rewrite inject_Z_mult. ring.
Qed.

(** X5. Total back-off: when the wrapper returns the value of a call, the
    number [k] of failed calls before it is below [max_retries] and the
    wrapper has slept [base_delay * (2^k - 1)] seconds in all. *)
Theorem retry_total_backoff {St B : Type} (sleep : Q -> St -> result unit * St)
    (max_retries : Z) (base_delay : Q) (func : St -> result (list B) * St)
    (s : St) (v : list B) :
  fst (retry_observed sleep max_retries base_delay func s) = ReturnTry v ->
  (Z.of_nat (failures (snd (snd (retry_observed sleep max_retries base_delay
                                   func s)))) < max_retries)%Z /\
  total_sleep (snd (snd (retry_observed sleep max_retries base_delay func s))) ==
    base_delay *
    (inject_Z (2 ^ Z.of_nat (failures (snd (snd (retry_observed sleep max_retries
                                                   base_delay func s))))) - 1).
Proof.
  intros Hx.
  pose proof (retry_observed_run sleep max_retries base_delay func s) as Hrun.
  rewrite Hx in Hrun.
  inversion Hrun as [| faults v' Hlt Ht Hv | |]; subst v'.
  rewrite failures_app, backoff_trace_failures, total_sleep_app.
  cbn [failures total_sleep].
  rewrite Nat.add_0_r. split; [lia|].
  rewrite backoff_trace_total by lia. rewrite Z.add_0_l, Z.pow_0_r.
  change (inject_Z 1) with 1. ring.
Qed.

(** ** The fallback orchestrator: which connectors are called *)

Section FallbackCalls.

Context {float St : Type}.
Variables (ticker interval : string) (lookback_days : Z).
Implicit Types (connectors : list (@DataConnector float St))
  (log tail : list (nat * result (list (@OHLCVData float)))).

Lemma fallback_calls_prefix connectors : forall i s log,
  exists tail rest,
    snd (snd (fetch_with_fallback (spy_from i connectors) ticker interval
                lookback_days (s, log))) = log ++ tail /\
    supporting_positions interval i connectors = List.map fst tail ++ rest.
Proof.
  induction connectors as [|c cs IH]; intros i s log; simpl.
  - exists [], []. split; [now rewrite app_nil_r|reflexivity].
  - unfold try_connector. unfold supports at 1. simpl.
    fold (supports c interval).
    destruct (supports c interval).
    + destruct (fetch_ohlcv c ticker interval lookback_days s)
        as [[[|x data]|e] s1]; simpl.
      * destruct (IH (S i) s1 (log ++ [(i, Returned [])])) as (tail & rest & Ht & Hp).
        exists ((i, Returned []) :: tail), rest. split.
        { rewrite Ht, <- app_assoc. reflexivity. }
        simpl. now rewrite Hp.
      * exists [(i, Returned (x :: data))], (supporting_positions interval (S i) cs).
        split; reflexivity.
      * destruct (IH (S i) s1 (log ++ [(i, Raised e)])) as (tail & rest & Ht & Hp).
        exists ((i, Raised e) :: tail), rest. split.
        { rewrite Ht, <- app_assoc. reflexivity. }
        simpl. now rewrite Hp.
    + apply IH.
Qed.

Lemma supporting_positions_supported connectors : forall i j,
  In j (supporting_positions interval i connectors) ->
  (i <= j)%nat /\
  exists c, nth_error connectors (j - i) = Some c /\ supports c interval = true.
Proof.
  induction connectors as [|c cs IH]; intros i j Hin; simpl in Hin; [destruct Hin|].
  assert (Hrest : In j (supporting_positions interval (S i) cs) ->
                  (i <= j)%nat /\
                  exists c', nth_error (c :: cs) (j - i) = Some c' /\
                             supports c' interval = true).
  { intros H. destruct (IH (S i) j H) as (Hle & c' & Hn & Hs).
    split; [lia|]. exists c'. split; [|exact Hs].
    replace (j - i)%nat with (S (j - S i)) by lia. exact Hn. }
  destruct (supports c interval) eqn:Es; [|auto].
  destruct Hin as [<-|Hin]; [|auto].
  split; [lia|]. exists c. rewrite Nat.sub_diag. auto.
Qed.

(** X6. Interval filter: the calls of [fetch_ohlcv] made by
    [fetch_with_fallback] go, in order, to the first connectors of the
    registry that support the interval; a connector whose
    [SUPPORTED_INTERVALS] lacks the interval is never called. *)
Theorem fetch_with_fallback_calls_supported connectors (s : St) :
  (exists rest,
     supporting_positions interval 0 connectors =
     List.map fst (snd (snd (fallback_observed connectors ticker interval
                               lookback_days s))) ++ rest) /\
  (forall j r,
     In (j, r) (snd (snd (fallback_observed connectors ticker interval
                            lookback_days s))) ->
     exists c, nth_error connectors j = Some c /\ supports c interval = true).
Proof.
  unfold fallback_observed, spy_registry.
  destruct (fallback_calls_prefix connectors 0 s []) as (tail & rest & Ht & Hp).
  simpl in Ht. rewrite Ht. split; [now exists rest|].
  intros j r Hin.
  destruct (supporting_positions_supported connectors 0 j) as (_ & c & Hn & Hs).
  - rewrite Hp. apply in_app_iff. left.
    apply in_map_iff. exists (j, r). auto.
  - exists c. rewrite Nat.sub_0_r in Hn. auto.
Qed.

Lemma fallback_run_source i tail r :
  fallback_run i tail r ->
  (r = Returned [] /\ forall j o, In (j, o) tail -> no_data o = true) \/
  (exists j x data front,
     r = Returned (x :: data) /\ tail = front ++ [(j, Returned (x :: data))]).
Proof.
  induction 1 as [i|i tail r _ IH|i o tail r Ho _ IH|i x data].
  - left. split; [reflexivity|]. intros j o [].
  - exact IH.
  - destruct IH as [[-> Hall]|(j & x & data & front & -> & ->)].
    + left. split; [reflexivity|].
      intros j o' [Heq|Hin]; [inversion Heq; subst; exact Ho|eauto].
    + right. exists j, x, data, ((i, o) :: front). split; reflexivity.
  - right. exists i, x, data, []. split; reflexivity.
Qed.

(** X7. No merge: the result of [fetch_with_fallback] is the non-empty
    list that the last call of [fetch_ohlcv] returned, as it is, or else it
    is the empty list and then no call has returned any record. *)
Theorem fetch_with_fallback_single_source connectors (s : St) :
  (fst (fetch_with_fallback connectors ticker interval lookback_days s) =
     Returned [] /\
   forall j r,
     In (j, r) (snd (snd (fallback_observed connectors ticker interval
                            lookback_days s))) -> no_data r = true) \/
  (exists j x data front,
     fst (fetch_with_fallback connectors ticker interval lookback_days s) =
       Returned (x :: data) /\
     snd (snd (fallback_observed connectors ticker interval lookback_days s)) =
       front ++ [(j, Returned (x :: data))]).
Proof.
  unfold fallback_observed, spy_registry.
  destruct (fallback_run_from ticker interval lookback_days connectors 0 s [])
    as (tail & Ht & Hrun).
  simpl in Ht. rewrite Ht.
  rewrite (fallback_erase ticker interval lookback_days connectors 0 s []). simpl.
  destruct (fallback_run_source _ _ _ Hrun)
    as [[Hr Hall]|(j & x & data & front & Hr & Hfront)].
  - left. split; [exact Hr|exact Hall].
  - right. exists j, x, data, front. split; [exact Hr|exact Hfront].
Qed.

End FallbackCalls.

(** ** Construction and the registry *)

Section RegistryProperties.

Context {float Env : Type}.
Implicit Types (w : @World float Env) (cs : list Connector).

Lemma owns_nothing w : owns_fresh_limiters w w [].
Proof.
  unfold owns_fresh_limiters. simpl.
  split; [constructor|]. split; [intros c []|]. repeat split.
Qed.

Lemma owns_compose w w1 w2 cs1 cs2 :
  owns_fresh_limiters w w1 cs1 -> owns_fresh_limiters w1 w2 cs2 ->
  owns_fresh_limiters w w2 (cs1 ++ cs2).
Proof.
  intros (Hn1 & Hc1 & Hf1 & Hk1 & Hs1 & Ho1 & Hi1 & Hu1)
         (Hn2 & Hc2 & Hf2 & Hk2 & Hs2 & Ho2 & Hi2 & Hu2).
  assert (Hdisj : forall c1 c2, In c1 cs1 -> In c2 cs2 ->
                                rate_limiter c1 <> rate_limiter c2).
  { intros c1 c2 H1 H2 Heq.
    destruct (Hc1 c1 H1) as [_ Hsome]. destruct (Hc2 c2 H2) as [Hnone _].
    rewrite Heq in Hsome. congruence. }
  unfold owns_fresh_limiters.
  split.
  { rewrite List.map_app. apply NoDup_app. repeat split; auto.
    intros a Ha1 Ha2.
    apply list_elem_of_In in Ha1. apply list_elem_of_In in Ha2.
    apply in_map_iff in Ha1. destruct Ha1 as (c1 & <- & H1).
    apply in_map_iff in Ha2. destruct Ha2 as (c2 & Heq & H2).
    exact (Hdisj c1 c2 H1 H2 (eq_sym Heq)). }
  split.
  { intros c Hc. apply in_app_iff in Hc. destruct Hc as [Hc|Hc].
    - destruct (Hc1 c Hc) as [Hnone Hsome]. split; [exact Hnone|].
      rewrite <- Hsome. apply Hf2.
      intros c2 H2 Heq. exact (Hdisj c c2 Hc H2 (eq_sym Heq)).
    - destruct (Hc2 c Hc) as [Hnone Hsome]. split; [|exact Hsome].
      rewrite <- Hnone. symmetry. apply Hf1.
      intros c1 H1. apply (Hdisj c1 c H1 Hc). }
  split.
  { intros a Ha. rewrite Hf2, Hf1; [reflexivity| |];
      intros c Hc; apply Ha; apply in_app_iff; auto. }
  repeat split; congruence.
Qed.

Lemma DataConnector_init_owns (p : Provider) w :
  exists a w',
    DataConnector_init p w = (Returned a, w') /\
    forall key, owns_fresh_limiters w w'
                  [{| provider := p; api_key := key; rate_limiter := a |}].
Proof.
  unfold DataConnector_init. do 2 eexists. split; [reflexivity|].
  intros key. pose proof (is_fresh (dom (limiters w))) as Hfresh.
  apply not_elem_of_dom in Hfresh.
  unfold owns_fresh_limiters. simpl.
  split.
  { apply NoDup_singleton. }
  split.
  { intros c [<-|[]]. simpl. split; [exact Hfresh|apply lookup_insert_eq]. }
  split; [|repeat split].
  intros a Ha. apply lookup_insert_ne. apply (Ha _ (or_introl eq_refl)).
Qed.

Lemma keyed_init_owns environ (p : Provider) (key : option string) w :
  exists c w',
    keyed_init environ p key w = (Returned c, w') /\
    provider c = p /\
    api_key c = api_key_or_env environ p key /\
    owns_fresh_limiters w w' [c].
Proof.
  destruct (DataConnector_init_owns p w) as (a & w' & Hinit & Howns).
  unfold keyed_init, bind, ret. rewrite Hinit.
  do 2 eexists. split; [reflexivity|]. simpl.
  split; [reflexivity|]. split; [reflexivity|]. apply Howns.
Qed.

(** X8. Construction of a connector that takes a key: it always succeeds;
    the [api_key] attribute is the argument when that is a non-empty
    string and the value of the environment variable of the class (or the
    empty string) otherwise; the connector gets a rate limiter of its own,
    a new object with the quota of its class, and nothing else in the
    world changes. *)
Theorem keyed_connector_construction environ (p : Provider)
    (key : option string) w :
  exists c w',
    keyed_init environ p key w = (Returned c, w') /\
    provider c = p /\
    api_key c =
      match key with
      | Some k => if String.eqb k "" then
                    match API_KEY_VAR p with
                    | Some var => default "" (environ var)
                    | None => ""
                    end
                  else k
      | None => match API_KEY_VAR p with
                | Some var => default "" (environ var)
                | None => ""
                end
      end /\
    owns_fresh_limiters w w' [c].
Proof.
  destruct (keyed_init_owns environ p key w) as (c & w' & H & Hp & Hk & Ho).
  exists c, w'. split; [exact H|]. split; [exact Hp|]. split; [|exact Ho].
  rewrite Hk. unfold api_key_or_env, getenv. destruct key; reflexivity.
Qed.

Lemma instance_if_keyed_owns environ (p : Provider) w :
  exists o w',
    instance_if (AVAILABLE environ p) (keyed_init environ p None) w =
      (Returned o, w') /\
    List.map provider (option_list o) =
      (if AVAILABLE environ p then [p] else []) /\
    owns_fresh_limiters w w' (option_list o).
Proof.
  unfold instance_if. destruct (AVAILABLE environ p).
  - destruct (keyed_init_owns environ p None w) as (c & w' & H & Hp & _ & Ho).
    exists (Some c), w'. unfold bind, ret. rewrite H. simpl.
    split; [reflexivity|]. split; [now rewrite Hp|exact Ho].
  - exists None, w. split; [reflexivity|]. split; [reflexivity|].
    apply owns_nothing.
Qed.

Lemma instance_if_yfinance_owns (available : bool) w :
  exists o w',
    instance_if available (YFinanceConnector available) w = (Returned o, w') /\
    List.map provider (option_list o) = (if available then [YFinance] else []) /\
    owns_fresh_limiters w w' (option_list o).
Proof.
  unfold instance_if. destruct available.
  - destruct (DataConnector_init_owns YFinance w) as (a & w' & H & Ho).
    exists (Some {| provider := YFinance; api_key := ""; rate_limiter := a |}), w'.
    unfold YFinanceConnector, bind, ret. rewrite H. simpl.
    split; [reflexivity|]. split; [reflexivity|]. apply Ho.
  - exists None, w. split; [reflexivity|]. split; [reflexivity|].
    apply owns_nothing.
Qed.

(** The module-level assignments never fail, and what they build. *)
Lemma singletons_built (YFINANCE_AVAILABLE : bool) environ w :
  exists m w',
    singletons YFINANCE_AVAILABLE environ w = (Returned m, w') /\
    List.map provider (get_available_connectors m) =
      List.filter (configured YFINANCE_AVAILABLE environ) all_providers /\
    owns_fresh_limiters w w' (get_available_connectors m).
Proof.
  unfold singletons, AlphaVantageConnector, FinnhubConnector,
    TwelveDataConnector, FMPConnector, PolygonConnector, IEXCloudConnector.
  destruct (instance_if_yfinance_owns YFINANCE_AVAILABLE w)
    as (o1 & w1 & H1 & P1 & O1).
  destruct (instance_if_keyed_owns environ AlphaVantage w1)
    as (o2 & w2 & H2 & P2 & O2).
  destruct (instance_if_keyed_owns environ Finnhub w2)
    as (o3 & w3 & H3 & P3 & O3).
  destruct (instance_if_keyed_owns environ TwelveData w3)
    as (o4 & w4 & H4 & P4 & O4).
  destruct (instance_if_keyed_owns environ FMP w4)
    as (o5 & w5 & H5 & P5 & O5).
  destruct (instance_if_keyed_owns environ Polygon w5)
    as (o6 & w6 & H6 & P6 & O6).
  destruct (instance_if_keyed_owns environ IEXCloud w6)
    as (o7 & w7 & H7 & P7 & O7).
  do 2 eexists. split.
  - unfold bind at 1. rewrite H1. unfold bind at 1. rewrite H2.
    unfold bind at 1. rewrite H3. unfold bind at 1. rewrite H4.
    unfold bind at 1. rewrite H5. unfold bind at 1. rewrite H6.
    unfold bind at 1. rewrite H7. unfold ret. reflexivity.
  - unfold get_available_connectors. simpl. split.
    + rewrite !List.map_app, P1, P2, P3, P4, P5, P6, P7.
      destruct YFINANCE_AVAILABLE, (AVAILABLE environ AlphaVantage),
        (AVAILABLE environ Finnhub), (AVAILABLE environ TwelveData),
        (AVAILABLE environ FMP), (AVAILABLE environ Polygon),
        (AVAILABLE environ IEXCloud); reflexivity.
    + repeat (eapply owns_compose; [eassumption|]). exact O7.
Qed.

(** X9. The registry: importing the module never fails, and
    [get_available_connectors()] lists, in the fixed order yfinance,
    alpha_vantage, finnhub, twelve_data, fmp, polygon, iex_cloud, exactly
    the classes that are configured: yfinance when the package could be
    imported, each of the others when its environment variable is set and
    not empty. *)
Theorem get_available_connectors_configured (YFINANCE_AVAILABLE : bool)
    environ w :
  exists m w',
    singletons YFINANCE_AVAILABLE environ w = (Returned m, w') /\
    List.map provider (get_available_connectors m) =
      List.filter (configured YFINANCE_AVAILABLE environ) all_providers.
Proof.
  destruct (singletons_built YFINANCE_AVAILABLE environ w) as (m & w' & H & Hp & _).
  eauto.
Qed.

(** X10. One rate limiter each: the connectors of the registry hold
    pairwise distinct rate limiter objects, created at import with the
    quota of their class and an empty history; the import leaves every
    limiter that existed before, the clock and the effect logs unchanged. *)
Theorem singletons_own_fresh_limiters (YFINANCE_AVAILABLE : bool) environ w w' m :
  singletons YFINANCE_AVAILABLE environ w = (Returned m, w') ->
  owns_fresh_limiters w w' (get_available_connectors m).
Proof.
  intros H.
  destruct (singletons_built YFINANCE_AVAILABLE environ w) as (m0 & w0 & H0 & _ & Ho).
  rewrite H in H0. inversion H0; subst. exact Ho.
Qed.

End RegistryProperties.

(** ** Connectors inside the fallback *)

Section ConnectorsInFallback.

Context {float Env : Type}.
Variable py : @Builtins float.
Variable remote : @Upstream float Env.

(** X11. A connector without a key is transparent for the fallback: a
    connector of a class that requires a credential and whose [api_key] is
    empty, standing first in the registry, changes neither the result nor
    the world; the run is the run over the rest of the registry. *)
Theorem fetch_with_fallback_skips_keyless (self : Connector)
    (rest : list (@DataConnector float (@World float Env)))
    (ticker interval : string) (lookback_days : Z) (w : @World float Env) :
  provider self <> YFinance ->
  api_key self = "" ->
  fetch_with_fallback (object_of py remote self :: rest) ticker interval
    lookback_days w =
  fetch_with_fallback rest ticker interval lookback_days w.
Proof.
  intros Hp Hkey.
  assert (Hfetch : Connector_fetch_ohlcv py remote self ticker interval
                     lookback_days w = (Returned [], w)).
  { unfold Connector_fetch_ohlcv, retry_with_backoff, retry_exit, fetch_body.
    destruct (provider self); try congruence; simpl;
      unfold AlphaVantageConnector_fetch, FinnhubConnector_fetch,
        TwelveDataConnector_fetch, FMPConnector_fetch, PolygonConnector_fetch,
        IEXCloudConnector_fetch;
      rewrite Hkey; reflexivity. }
  cbn [fetch_with_fallback]. unfold try_connector.
  destruct (supports (object_of py remote self) interval); [|reflexivity].
  change (fetch_ohlcv (object_of py remote self) ticker interval lookback_days w)
    with (Connector_fetch_ohlcv py remote self ticker interval lookback_days w).
  rewrite Hfetch. reflexivity.
Qed.

(** X12. Nothing configured: when yfinance could not be imported and no
    credential is set in the environment, the registry is empty and
    [fetch_with_fallback] returns the empty list for every request, leaving
    the world as it is. *)
Theorem fetch_with_fallback_unconfigured environ (w0 w1 : @World float Env) (m : Singletons)
    (ticker interval : string) (lookback_days : Z) (w : @World float Env) :
  singletons false environ w0 = (Returned m, w1) ->
  (forall p, AVAILABLE environ p = false) ->
  get_available_connectors m = [] /\
  module_fetch_with_fallback py remote m ticker interval lookback_days w =
    (Returned [], w).
Proof.
  intros H Hnone.
  destruct (singletons_built false environ w0) as (m0 & w' & H0 & Hp & _).
  rewrite H in H0. inversion H0; subst m0 w'.
  assert (Hempty : get_available_connectors m = []).
  { apply (f_equal (@List.length _)) in Hp. rewrite List.length_map in Hp.
    simpl in Hp. rewrite !Hnone in Hp. simpl in Hp.
    destruct (get_available_connectors m); [reflexivity|discriminate]. }
  split; [exact Hempty|].
  unfold module_fetch_with_fallback. rewrite Hempty. reflexivity.
Qed.

End ConnectorsInFallback.

(** ** The records a connector returns *)

Section RecordProperties.

Context {float Env : Type}.
Variable py : @Builtins float.
Variable remote : @Upstream float Env.

Ltac rpeel H :=
  repeat first
    [ apply rbind_returned in H; destruct H as (? & ? & H)
    | match type of H with
      | (if ?b then _ else _) = Returned _ => destruct b eqn:?; [discriminate H|]
      end ].

Ltac record_of H :=
  apply except_returned_some in H; rpeel H; inversion H; subst; clear H; simpl.

Lemma yfinance_row_labelled t i ir r :
  yfinance_row py t i ir = Returned (Some r) -> labelled py YFinance t i r.
Proof.
  destruct ir as [idx row]. unfold yfinance_row. intros H. rpeel H.
  inversion H; subst. repeat split.
Qed.

Lemma alpha_vantage_item_labelled cutoff t i kv r :
  alpha_vantage_item py cutoff t i kv = Returned (Some r) ->
  labelled py AlphaVantage t i r.
Proof.
  destruct kv as [date_str values]. unfold alpha_vantage_item. intros H.
  record_of H. repeat split.
Qed.

Lemma finnhub_bar_labelled t i ts os hs ls cs vs n r :
  finnhub_bar py t i ts os hs ls cs vs n = Returned (Some r) ->
  labelled py Finnhub t i r.
Proof.
  unfold finnhub_bar. intros H. rpeel H. inversion H; subst. repeat split.
Qed.

Lemma twelve_data_item_labelled cutoff t i item r :
  twelve_data_item py cutoff t i item = Returned (Some r) ->
  labelled py TwelveData t i r.
Proof. unfold twelve_data_item. intros H. record_of H. repeat split. Qed.

Lemma fmp_item_labelled cutoff t i item r :
  fmp_item py cutoff t i item = Returned (Some r) -> labelled py FMP t i r.
Proof. unfold fmp_item. intros H. record_of H. repeat split. Qed.

Lemma polygon_item_labelled t i item r :
  polygon_item py t i item = Returned (Some r) -> labelled py Polygon t i r.
Proof. unfold polygon_item. intros H. record_of H. repeat split. Qed.

Lemma iex_item_labelled t i item r :
  iex_item py t i item = Returned (Some r) -> labelled py IEXCloud t i r.
Proof. unfold iex_item. intros H. record_of H. repeat split. Qed.

(** X13. Labels: every record returned by [fetch_ohlcv] of any of the
    seven classes carries the ticker in upper case, the interval that was
    asked for (also when the class asked the upstream for another one, its
    default) and the [SOURCE_NAME] of the class. *)
Theorem fetch_ohlcv_labelled (self : Connector) (ticker0 interval0 : string)
    (lookback_days : Z) (w w' : @World float Env) (data : list (@OHLCVData float)) :
  Connector_fetch_ohlcv py remote self ticker0 interval0 lookback_days w =
    (Returned data, w') ->
  Forall (fun r => ticker r = upper py ticker0 /\ interval r = interval0 /\
                   source r = SOURCE_NAME_of (provider self)) data.
Proof.
  intros H. apply fetch_ohlcv_returned in H.
  destruct H as [->|[w0 H]]; [constructor|].
  unfold fetch_body in H. destruct (provider self).
  - apply YFinance_returned in H. destruct H as (rows & _ & Hrun).
    eapply Forall_for_each; [exact Hrun|].
    intros it r _. apply yfinance_row_labelled.
  - apply AlphaVantage_returned in H.
    destruct H as [->|(? & ? & ? & ? & _ & _ & _ & Hrun & ->)]; [constructor|].
    apply Forall_sort_by_timestamp. eapply Forall_for_each; [exact Hrun|].
    intros it r _. apply alpha_vantage_item_labelled.
  - apply Finnhub_returned in H.
    destruct H as [->|(? & ? & ? & ? & ? & ? & ? & Hrun)]; [constructor|].
    eapply Forall_for_each; [exact Hrun|].
    intros it r _. apply finnhub_bar_labelled.
  - apply TwelveData_returned in H.
    destruct H as [->|(? & ? & ? & _ & Hrun & ->)]; [constructor|].
    apply Forall_sort_by_timestamp. eapply Forall_for_each; [exact Hrun|].
    intros it r _. apply twelve_data_item_labelled.
  - apply FMP_returned in H.
    destruct H as [->|(? & ? & ? & ? & _ & _ & _ & Hrun & ->)]; [constructor|].
    apply Forall_sort_by_timestamp. eapply Forall_for_each; [exact Hrun|].
    intros it r _. apply fmp_item_labelled.
  - apply Polygon_returned in H.
    destruct H as [->|(? & Hrun)]; [constructor|].
    eapply Forall_for_each; [exact Hrun|].
    intros it r _. apply polygon_item_labelled.
  - apply IEXCloud_returned in H.
    destruct H as [->|(? & ? & _ & _ & Hrun)]; [constructor|].
    eapply Forall_for_each; [exact Hrun|].
    intros it r _. apply iex_item_labelled.
Qed.

(** *** Items that are skipped, items that abort *)

Lemma for_each_skip {A : Type} (body : A -> result (option (@OHLCVData float)))
    (l1 : list A) (bad : A) (l2 : list A) :
  body bad = Returned None ->
  for_each body (l1 ++ bad :: l2) = for_each body (l1 ++ l2).
Proof.
  intros Hbad. induction l1 as [|x l1 IH]; simpl.
  - rewrite Hbad. destruct (for_each body l2); reflexivity.
  - rewrite IH. reflexivity.
Qed.

Lemma for_each_abort {A : Type} (body : A -> result (option (@OHLCVData float)))
    (l1 : list A) (bad : A) (l2 : list A) e :
  body bad = Raised e ->
  exists e', for_each body (l1 ++ bad :: l2) = Raised e'.
Proof.
  intros Hbad. induction l1 as [|x l1 IH]; simpl.
  - rewrite Hbad. eauto.
  - destruct IH as [e' ->]. destruct (body x); eauto.
Qed.

(** X14. Partial success: in the loops of the TwelveData, FMP, Polygon
    and IEX Cloud connectors an item that is an object without its time
    field ("datetime", "date", "t", "date") is skipped; the list is parsed
    as if the item were not there. *)
Theorem item_without_time_is_skipped (cutoff : Q) (ticker0 interval0 : string)
    (l1 l2 : list (@json float)) (d : list (string * @json float)) :
  (assoc "datetime" d = None ->
   for_each (twelve_data_item py cutoff ticker0 interval0) (l1 ++ JDict d :: l2) =
   for_each (twelve_data_item py cutoff ticker0 interval0) (l1 ++ l2)) /\
  (assoc "date" d = None ->
   for_each (fmp_item py cutoff ticker0 interval0) (l1 ++ JDict d :: l2) =
   for_each (fmp_item py cutoff ticker0 interval0) (l1 ++ l2)) /\
  (assoc "t" d = None ->
   for_each (polygon_item py ticker0 interval0) (l1 ++ JDict d :: l2) =
   for_each (polygon_item py ticker0 interval0) (l1 ++ l2)) /\
  (assoc "date" d = None ->
   for_each (iex_item py ticker0 interval0) (l1 ++ JDict d :: l2) =
   for_each (iex_item py ticker0 interval0) (l1 ++ l2)).
Proof.
  repeat split; intros Hd; apply for_each_skip;
    unfold twelve_data_item, fmp_item, polygon_item, iex_item; simpl;
    rewrite Hd; reflexivity.
Qed.

(** X15. The limit of partial success: an item that is not an object
    makes [item[...]] raise [TypeError], which the handler for [KeyError]
    and [ValueError] does not catch: the loops of the TwelveData, FMP,
    Polygon and IEX Cloud connectors end with an exception, whatever the
    other items are. *)
Theorem item_not_an_object_aborts (cutoff : Q) (ticker0 interval0 : string)
    (l1 l2 : list (@json float)) (bad : @json float) :
  (forall d, bad <> JDict d) ->
  (exists e, for_each (twelve_data_item py cutoff ticker0 interval0)
               (l1 ++ bad :: l2) = Raised e) /\
  (exists e, for_each (fmp_item py cutoff ticker0 interval0)
               (l1 ++ bad :: l2) = Raised e) /\
  (exists e, for_each (polygon_item py ticker0 interval0)
               (l1 ++ bad :: l2) = Raised e) /\
  (exists e, for_each (iex_item py ticker0 interval0)
               (l1 ++ bad :: l2) = Raised e).
Proof.
  intros Hbad.
  assert (Hget : forall key, getitem bad key = Raised TypeError).
  { intros key. destruct bad; try reflexivity. exfalso. eapply Hbad; eauto. }
  repeat split; apply (for_each_abort _ l1 bad l2 TypeError);
    unfold twelve_data_item, fmp_item, polygon_item, iex_item;
    rewrite !Hget; reflexivity.
Qed.

(** X16. Time of day: the AlphaVantage and FMP loops read the timestamp
    from the first blank-separated piece of the date string only; two bars
    whose date strings begin with the same piece come back with the same
    timestamp. *)
Theorem same_day_same_timestamp (cutoff : Q) (ticker0 interval0 : string)
    (date1 date2 tok : string) (rest1 rest2 : list string) :
  split py date1 = tok :: rest1 ->
  split py date2 = tok :: rest2 ->
  (forall values1 values2 r1 r2,
     alpha_vantage_item py cutoff ticker0 interval0 (date1, values1) =
       Returned (Some r1) ->
     alpha_vantage_item py cutoff ticker0 interval0 (date2, values2) =
       Returned (Some r2) ->
     timestamp r1 = timestamp r2) /\
  (forall d1 d2 r1 r2,
     assoc "date" d1 = Some (JStr date1) ->
     assoc "date" d2 = Some (JStr date2) ->
     fmp_item py cutoff ticker0 interval0 (JDict d1) = Returned (Some r1) ->
     fmp_item py cutoff ticker0 interval0 (JDict d2) = Returned (Some r2) ->
     timestamp r1 = timestamp r2).
Proof.
  intros Hs1 Hs2. split.
  - intros values1 values2 r1 r2 H1 H2.
    unfold alpha_vantage_item in H1, H2. simpl in H1, H2.
    rewrite Hs1 in H1. rewrite Hs2 in H2. simpl in H1, H2.
    destruct (strptime py tok "%Y-%m-%d") as [ts|e]; simpl in H1, H2.
    + record_of H1. record_of H2. reflexivity.
    + destruct (is_KeyError_or_ValueError e); discriminate.
  - intros d1 d2 r1 r2 Hd1 Hd2 H1 H2.
    unfold fmp_item in H1, H2. simpl in H1, H2.
    rewrite Hd1 in H1. rewrite Hd2 in H2. simpl in H1, H2.
    rewrite Hs1 in H1. rewrite Hs2 in H2. simpl in H1, H2.
    destruct (strptime py tok "%Y-%m-%d") as [ts|e]; simpl in H1, H2.
    + record_of H1. record_of H2. reflexivity.
    + destruct (is_KeyError_or_ValueError e); discriminate.
Qed.

End RecordProperties.

(** ** Requests that are refused, requests that fail *)


Section RequestProperties.

Context {float Env : Type}.
Variable py : @Builtins float.
Variable remote : @Upstream float Env.

Lemma eqb_empty_false (s : string) : s <> "" -> String.eqb s "" = false.
Proof. intros H. now apply String.eqb_neq. Qed.

Ltac send Hrefuse :=
  unfold requests_get;
  match goal with
  | |- context [http_get remote ?u ?p ?t _ _] =>
      let resp := fresh "resp" in
      let Hget := fresh "Hget" in
      let Hst := fresh "Hst" in
      destruct (Hrefuse u p t) as (resp & ? & ? & Hget & Hst);
      rewrite Hget; cbn;
      apply Z.eqb_neq in Hst; rewrite Hst; cbn;
      exists (HttpGet u p t); eexists; repeat split
  end.


(** X18. A refusal of [fetch_news]: with a key and a status other than
    200 both news methods return the empty list; one request has gone out
    and the body of the response has not been read. *)
Theorem fetch_news_refused (self : Connector) (ticker0 : string)
    (lookback_days : Z) (w w1 : @World float Env) (c : Q) :
  api_key self <> "" ->
  rate_limit self ticker0 w = (Returned tt, w1) ->
  sub_days (clock w1) lookback_days = Returned c ->
  refuses remote (clock w1) (upstream w1) ->
  (exists req w',
     FinnhubConnector_fetch_news py remote self ticker0 lookback_days w =
       (Returned (JList []), w') /\
     outbound w' = outbound w1 ++ [req] /\ slept w' = slept w1) /\
  (exists req w',
     PolygonConnector_fetch_news py remote self ticker0 lookback_days w =
       (Returned (JList []), w') /\
     outbound w' = outbound w1 ++ [req] /\ slept w' = slept w1).
Proof.
  intros Hkey Hrate Hsub Hrefuse. apply eqb_empty_false in Hkey.
  split; unfold FinnhubConnector_fetch_news, PolygonConnector_fetch_news;
    rewrite Hkey; unfold bind at 1; rewrite Hrate;
    unfold bind, datetime_now, lift; rewrite ?Hsub; send Hrefuse.
Qed.

(** X19. No retry for news: [fetch_news] is not decorated, so a transport
    fault of its one request leaves the method at once, as the exception
    that [requests.get] raised; nothing is slept for back-off and no second
    request is made. *)
Theorem fetch_news_fault_not_retried (self : Connector) (ticker0 : string)
    (lookback_days : Z) (w w1 : @World float Env) (c : Q) (e : exn) :
  api_key self <> "" ->
  rate_limit self ticker0 w = (Returned tt, w1) ->
  sub_days (clock w1) lookback_days = Returned c ->
  unreachable remote (clock w1) (upstream w1) e ->
  (exists req w',
     FinnhubConnector_fetch_news py remote self ticker0 lookback_days w =
       (Raised e, w') /\
     outbound w' = outbound w1 ++ [req] /\ slept w' = slept w1) /\
  (exists req w',
     PolygonConnector_fetch_news py remote self ticker0 lookback_days w =
       (Raised e, w') /\
     outbound w' = outbound w1 ++ [req] /\ slept w' = slept w1).
Proof.
  intros Hkey Hrate Hsub Hfail. apply eqb_empty_false in Hkey.
  split; unfold FinnhubConnector_fetch_news, PolygonConnector_fetch_news;
    rewrite Hkey; unfold bind at 1; rewrite Hrate;
    unfold bind, datetime_now, lift; rewrite ?Hsub; unfold requests_get;
    match goal with
    | |- context [http_get remote ?u ?p ?t _ _] =>
        destruct (Hfail u p t) as (? & ? & Hget); rewrite Hget; cbn;
        exists (HttpGet u p t); eexists; repeat split
    end.
Qed.

(** X20. News without a key: both [fetch_news] methods return the empty
    list and leave the world as it was; the rate limiter is not asked and
    no request goes out. *)
Theorem fetch_news_without_key (self : Connector) (ticker0 : string)
    (lookback_days : Z) (w : @World float Env) :
  api_key self = "" ->
  FinnhubConnector_fetch_news py remote self ticker0 lookback_days w =
    (Returned (JList []), w) /\
  PolygonConnector_fetch_news py remote self ticker0 lookback_days w =
    (Returned (JList []), w).
Proof.
  intros Hkey. unfold FinnhubConnector_fetch_news, PolygonConnector_fetch_news.
  rewrite Hkey. split; reflexivity.
Qed.

(** *** Finnhub: parallel arrays *)

Lemma for_each_all {A : Type} (body : A -> result (option (@OHLCVData float)))
    (items : list A) :
  (forall x, body x <> Returned None) ->
  forall rs, for_each body items = Returned rs ->
  Forall2 (fun x r => body x = Returned (Some r)) items rs.
Proof.
  intros Hsome. induction items as [|x items IH]; intros rs H; simpl in H.
  - inversion H. constructor.
  - destruct (body x) as [[r|]|e] eqn:Ex; try discriminate.
    + destruct (for_each body items) as [rs'|e]; [|discriminate].
      inversion H; subst. constructor; [exact Ex|]. now apply IH.
    + exfalso. now apply (Hsome x).
Qed.

Lemma finnhub_bar_some t i ts os hs ls cs vs n :
  finnhub_bar py t i ts os hs ls cs vs n <> Returned None.
Proof.
  unfold finnhub_bar, index_float.
  repeat match goal with
  | |- context [rbind ?m _] => destruct m; simpl; try discriminate
  end.
Qed.

Lemma finnhub_bar_timestamp t i ts os hs ls cs vs n r :
  finnhub_bar py t i ts os hs ls cs vs n = Returned (Some r) ->
  rbind (getitem_int ts n) (fromtimestamp py) = Returned (timestamp r).
Proof.
  unfold finnhub_bar. intros H.
  destruct (rbind (getitem_int ts n) (fromtimestamp py)) as [x|e] eqn:E;
    [|discriminate].
  simpl in H.
  repeat (apply rbind_returned in H; destruct H as (? & ? & H)).
  inversion H; subst. reflexivity.
Qed.

Lemma Forall2_nth_error {A C : Type} (P : A -> C -> Prop) (l : list A)
    (l' : list C) :
  Forall2 P l l' ->
  forall i y, nth_error l' i = Some y ->
  exists x, nth_error l i = Some x /\ P x y.
Proof.
  induction 1 as [|x y l l' Hxy _ IH]; intros [|i] z Hz; simpl in Hz;
    try discriminate.
  - inversion Hz; subst. exists x. auto.
  - apply IH in Hz. exact Hz.
Qed.

(** X21. Finnhub, one record for each timestamp: when the answer that
    [fetch_ohlcv] of the Finnhub connector has read (the last one received)
    has status 200 and says ["s": "ok"], the list returned has as many
    records as the answer has timestamps, and the record at position [i]
    carries the timestamp at position [i]: the order of the response is
    kept, and a price list shorter than the list of timestamps never
    shortens the result (the method then ends with an exception and
    returns nothing). *)
Theorem finnhub_one_record_per_timestamp (self : Connector)
    (ticker0 interval0 : string) (lookback_days : Z) (w w' : @World float Env)
    (data : list (@OHLCVData float)) (resp : Response)
    (payload timestamps : @json float) (n : nat) :
  api_key self <> "" ->
  FinnhubConnector_fetch py remote self ticker0 interval0 lookback_days w =
    (Returned data, w') ->
  last (inbound w') = Some (HttpAnswer (Returned resp)) ->
  status_code resp = 200%Z ->
  json_ resp = Returned payload ->
  dict_get payload "s" JNull = Returned (JStr "ok") ->
  dict_get payload "t" (JList []) = Returned timestamps ->
  json_len timestamps = Returned n ->
  List.length data = n /\
  forall i r, nth_error data i = Some r ->
    rbind (getitem_int timestamps i) (fromtimestamp py) =
      Returned (timestamp r).
Proof.
  intros Hkey H Hlast Hstatus Hjson Hs Hts Hlen.
  apply eqb_empty_false in Hkey.
  unfold FinnhubConnector_fetch in H. rewrite Hkey in H.
  repeat match goal with
  | H : bind _ _ _ = (Returned _, _) |- _ =>
      apply bind_returned in H; destruct H as (? & ? & ? & H)
  | H : datetime_now _ = (Returned _, _) |- _ =>
      apply datetime_now_returned in H; destruct H as [? ?]; subst
  | H : lift (sub_days _ _) _ = (Returned _, _) |- _ =>
      apply lift_returned in H; destruct H as [H ?]; subst
  end.
  match goal with
  | Hget : requests_get _ _ _ _ _ = (Returned ?resp0, ?w2) |- _ =>
      assert (Hw : w' = w2 /\
                   (data = [] /\
                    (negb (status_code resp0 =? 200)%Z = true \/
                     exists p0 s0, json_ resp0 = Returned p0 /\
                       dict_get p0 "s" JNull = Returned s0 /\
                       negb (is_JStr "ok" s0) = true) \/
                    exists p0 ts0 os hs ls cs vs n0,
                      json_ resp0 = Returned p0 /\
                      dict_get p0 "t" (JList []) = Returned ts0 /\
                      json_len ts0 = Returned n0 /\
                      for_each (finnhub_bar py ticker0 interval0 ts0 os hs ls cs vs)
                        (seq 0 n0) = Returned data));
      [|apply requests_get_last in Hget; destruct Hw as [-> Hw];
        rewrite Hget in Hlast; inversion Hlast; subst resp0; clear Hlast]
  end.
  { repeat match goal with
    | H : bind _ _ _ = (Returned _, _) |- _ =>
        apply bind_returned in H; destruct H as (? & ? & ? & H)
    | H : lift _ _ = (Returned _, _) |- _ =>
        apply lift_returned in H; destruct H as [H ?]; subst
    | H : ret _ _ = (Returned _, _) |- _ =>
        apply ret_returned in H; destruct H as [? ?]; subst
    | H : (if ?b then _ else _) _ = (Returned _, _) |- _ => destruct b eqn:?
    end; (split; [reflexivity|]).
    - left. split; [reflexivity|]. left. reflexivity.
    - left. split; [reflexivity|]. right. eauto.
    - right. do 8 eexists. eauto. }
  destruct Hw as [[_ [Hbad|(p0 & s0 & Hp0 & Hs0 & Hbad)]]
                 |(p0 & ts0 & os & hs & ls & cs & vs & n0 & Hp0 & Hts0 & Hn0 & Hrun)].
  - rewrite Hstatus in Hbad. discriminate Hbad.
  - rewrite Hjson in Hp0. inversion Hp0; subst p0.
    rewrite Hs in Hs0. inversion Hs0; subst s0. discriminate Hbad.
  - rewrite Hjson in Hp0. inversion Hp0; subst p0.
    rewrite Hts in Hts0. inversion Hts0; subst ts0.
    rewrite Hlen in Hn0. inversion Hn0; subst n0.
    apply for_each_all in Hrun; [|intros k; apply finnhub_bar_some].
    pose proof (Forall2_length _ _ _ Hrun) as Hcount.
    rewrite length_seq in Hcount. split; [now symmetry|].
    intros i r Hr.
    destruct (Forall2_nth_error _ _ _ Hrun i r Hr) as (k & Hk & Hbar).
    assert (k = i) as ->.
    { rewrite nth_error_seq in Hk.
      destruct (i <? n)%nat; [|discriminate].
      inversion Hk. reflexivity. }
    eapply finnhub_bar_timestamp; exact Hbar.
Qed.

(** *** yfinance: one record for each row *)

Lemma yfinance_row_some t i ir : yfinance_row py t i ir <> Returned None.
Proof.
  destruct ir as [idx row]. unfold yfinance_row, item_float, get_float.
  repeat match goal with
  | |- context [rbind ?m _] => destruct m; simpl; try discriminate
  end.
Qed.

Lemma yfinance_row_timestamp t i idx row r :
  yfinance_row py t i (idx, row) = Returned (Some r) -> timestamp r = idx.
Proof.
  unfold yfinance_row. intros H.
  repeat (apply rbind_returned in H; destruct H as (? & ? & H)).
  inversion H; subst. reflexivity.
Qed.

(** X22. yfinance, one record for each row: the list returned by
    [fetch_ohlcv] of the yfinance connector has one record for each row of
    the data frame that [stock.history] handed out, in the order of the
    rows and with the index of the row as timestamp.  The loop has no
    handler: a row that cannot be converted ends the attempt with an
    exception and is never left out. *)
Theorem yfinance_one_record_per_row (self : Connector)
    (ticker0 interval0 : string) (lookback_days : Z) (w w' : @World float Env)
    (data : list (@OHLCVData float)) :
  YFinanceConnector_fetch py remote self ticker0 interval0 lookback_days w =
    (Returned data, w') ->
  exists rows,
    served_rows remote rows /\
    List.map timestamp data = List.map fst rows.
Proof.
  unfold YFinanceConnector_fetch. intros H.
  apply bind_returned in H. destruct H as (? & w1 & _ & H).
  apply bind_returned in H. destruct H as (rows & w2 & Hhist & H).
  apply lift_returned in H. destruct H as [Hrun _].
  exists rows. split; [eapply yf_Ticker_history_returned; exact Hhist|].
  apply for_each_all in Hrun; [|intros ir; apply yfinance_row_some].
  clear Hhist.
  induction Hrun as [|[idx row] r rows data Hrow _ IH]; [reflexivity|].
  simpl. rewrite IH. f_equal. eapply yfinance_row_timestamp; exact Hrow.
Qed.

End RequestProperties.

(** ** Runs of the further properties on concrete inputs *)

(** The busy limiter sleeps, then records the time of entry after the two
    timestamps it kept. *)
Lemma wait_if_needed_records_witness :
  _request_times
    (snd (fst (wait_if_needed Doubles.busy_limiter "AAPL" (Doubles.world0 []))))
    !! "AAPL" =
  Some (surviving Doubles.busy_limiter "AAPL" (clock (Doubles.world0 [])) ++
        [clock (Doubles.world0 [])]).
Proof.
  apply (wait_if_needed_records Doubles.busy_limiter "AAPL" (Doubles.world0 [])).
  vm_compute. reflexivity.
Defined.


Lemma wait_if_needed_chronological_witness :
  chronological
    (snd (fst (wait_if_needed Doubles.busy_limiter "AAPL" (Doubles.world0 []))))
    (clock (snd (wait_if_needed Doubles.busy_limiter "AAPL" (Doubles.world0 [])))).
Proof.
  apply (wait_if_needed_chronological Doubles.busy_limiter "AAPL"
           (Doubles.world0 [])).
  intros key ts H. unfold Doubles.busy_limiter in H. simpl in H.
  apply lookup_singleton_Some in H. destruct H as [_ <-].
  split; repeat constructor; vm_compute; discriminate.
Defined.

Lemma retry_without_attempts_witness :
  retry_with_backoff time_sleep 0 1 Doubles.always_timeout (Doubles.world0 []) =
    (Returned [], Doubles.world0 []).
Proof.
  apply (retry_without_attempts time_sleep 0 1 Doubles.always_timeout
           (Doubles.world0 [])).
  lia.
Defined.

(** Two failures with [base_delay = 1]: three seconds of back-off. *)
Lemma retry_total_backoff_witness :
  total_sleep (snd (snd (retry_observed time_sleep 3 1 Doubles.third_time_lucky
                           (Doubles.world0 [])))) ==
  1 * (inject_Z (2 ^ Z.of_nat (failures (snd (snd (retry_observed time_sleep 3 1
          Doubles.third_time_lucky (Doubles.world0 [])))))) - 1).
Proof.
  apply (retry_total_backoff time_sleep 3 1 Doubles.third_time_lucky
           (Doubles.world0 []) [1; 2; 3]%nat).
  vm_compute. reflexivity.
Defined.

(** With yfinance installed and a Finnhub key in the environment the
    registry holds two connectors, each with a limiter of its own. *)
Lemma singletons_own_fresh_limiters_witness :
  List.map provider (get_available_connectors Doubles.registry) =
    [YFinance; Finnhub] /\
  owns_fresh_limiters (Doubles.world0 []) (snd Doubles.imported)
    (get_available_connectors Doubles.registry).
Proof.
  split; [vm_compute; reflexivity|].
  apply (singletons_own_fresh_limiters true Doubles.some_environ
           (Doubles.world0 []) (snd Doubles.imported) Doubles.registry).
  vm_compute. reflexivity.
Defined.

Lemma fetch_with_fallback_skips_keyless_witness :
  fetch_with_fallback
    [object_of Doubles.py Doubles.remote (Doubles.keyless Polygon);
     object_of Doubles.py Doubles.remote (Doubles.demo Finnhub)]
    "aapl" "1d" 7 (Doubles.world1 Finnhub [Doubles.ok Doubles.candles]) =
  fetch_with_fallback
    [object_of Doubles.py Doubles.remote (Doubles.demo Finnhub)]
    "aapl" "1d" 7 (Doubles.world1 Finnhub [Doubles.ok Doubles.candles]).
Proof.
  apply (fetch_with_fallback_skips_keyless Doubles.py Doubles.remote
           (Doubles.keyless Polygon)).
  - simpl. discriminate.
  - reflexivity.
Defined.

Lemma fetch_with_fallback_unconfigured_witness :
  get_available_connectors Doubles.no_singletons = [] /\
  module_fetch_with_fallback Doubles.py Doubles.remote Doubles.no_singletons
    "aapl" "1d" 7 (Doubles.world0 [Doubles.ok Doubles.candles]) =
    (Returned [], Doubles.world0 [Doubles.ok Doubles.candles]).
Proof.
  apply (fetch_with_fallback_unconfigured Doubles.py Doubles.remote
           Doubles.no_environ (Doubles.world0 []) (Doubles.world0 [])).
  - vm_compute. reflexivity.
  - intros p. destruct p; reflexivity.
Defined.

(** The TwelveData run: three records, all of them AAPL, 1d, twelve_data. *)
Lemma fetch_ohlcv_labelled_witness :
  List.length (Doubles.returned (fst Doubles.twelve_data_run)) = 3%nat /\
  Forall (fun r => ticker r = "AAPL" /\ interval r = "1d" /\
                   source r = "twelve_data")
         (Doubles.returned (fst Doubles.twelve_data_run)).
Proof.
  split; [reflexivity|].
  apply (fetch_ohlcv_labelled Doubles.py
           (Doubles.constant_remote Doubles.time_series)
           (Doubles.demo TwelveData) "aapl" "1d" 7
           (Doubles.world1 TwelveData tt) (snd Doubles.twelve_data_run)).
  vm_compute. reflexivity.
Defined.

(** A Polygon item without "t" between two good ones. *)
Lemma item_without_time_is_skipped_witness :
  for_each (polygon_item Doubles.py "aapl" "1d")
    ([JDict [("t", JInt 1698796800000); ("o", JInt 170); ("h", JInt 171);
             ("l", JInt 169); ("c", JInt 170); ("v", JInt 100)]] ++
     JDict [("o", JInt 170)] :: []) =
  for_each (polygon_item Doubles.py "aapl" "1d")
    ([JDict [("t", JInt 1698796800000); ("o", JInt 170); ("h", JInt 171);
             ("l", JInt 169); ("c", JInt 170); ("v", JInt 100)]] ++ []).
Proof.
  apply (proj1 (proj2 (proj2
           (item_without_time_is_skipped Doubles.py 0 "aapl" "1d"
              [JDict [("t", JInt 1698796800000); ("o", JInt 170);
                      ("h", JInt 171); ("l", JInt 169); ("c", JInt 170);
                      ("v", JInt 100)]] [] [("o", JInt 170)])))).
  reflexivity.
Defined.

(** A string where a bar is expected. *)
Lemma item_not_an_object_aborts_witness :
  exists e, for_each (iex_item Doubles.py "aapl" "1d")
              ([Doubles.candle "2023-11-13" 185] ++ JStr "n/a" :: []) = Raised e.
Proof.
  apply (item_not_an_object_aborts Doubles.py 0 "aapl" "1d"
           [Doubles.candle "2023-11-13" 185] [] (JStr "n/a")).
  intros d. discriminate.
Defined.

(** Two intraday bars of 2023-11-13. *)
Lemma same_day_same_timestamp_witness :
  option_map timestamp
    (Doubles.produced (fmp_item Doubles.py 0 "aapl" "1h"
                         (Doubles.candle "2023-11-13 09:30:00" 185))) =
  option_map timestamp
    (Doubles.produced (fmp_item Doubles.py 0 "aapl" "1h"
                         (Doubles.candle "2023-11-13 16:00:00" 186))) /\
  option_map timestamp
    (Doubles.produced (fmp_item Doubles.py 0 "aapl" "1h"
                         (Doubles.candle "2023-11-13 09:30:00" 185))) =
  Some (inject_Z 1699833600).
Proof.
  split; [|vm_compute; reflexivity].
  destruct (fmp_item Doubles.py 0 "aapl" "1h"
              (Doubles.candle "2023-11-13 09:30:00" 185)) as [[r1|]|e1] eqn:E1;
    [|vm_compute in E1; discriminate E1..].
  destruct (fmp_item Doubles.py 0 "aapl" "1h"
              (Doubles.candle "2023-11-13 16:00:00" 186)) as [[r2|]|e2] eqn:E2;
    [|vm_compute in E2; discriminate E2..].
  simpl. f_equal. unfold Doubles.candle in E1, E2.
  refine (proj2 (same_day_same_timestamp Doubles.py 0 "aapl" "1h"
                   "2023-11-13 09:30:00" "2023-11-13 16:00:00" "2023-11-13"
                   ["09:30:00"] ["16:00:00"] eq_refl eq_refl)
            _ _ r1 r2 _ _ E1 E2); reflexivity.
Defined.


Lemma fetch_news_refused_witness :
  exists req w',
    PolygonConnector_fetch_news Doubles.py Doubles.remote (Doubles.demo Finnhub)
      "aapl" 7 (Doubles.world1 Finnhub [Doubles.not_found]) =
      (Returned (JList []), w') /\
    outbound w' = outbound (Doubles.let_through [Doubles.not_found]) ++ [req] /\
    slept w' = slept (Doubles.let_through [Doubles.not_found]).
Proof.
  apply (fetch_news_refused Doubles.py Doubles.remote (Doubles.demo Finnhub)
           "aapl" 7 (Doubles.world1 Finnhub [Doubles.not_found])
           (Doubles.let_through [Doubles.not_found])
           (inject_Z 1700000000 - seconds_of_days 7)).
  - simpl. discriminate.
  - vm_compute. reflexivity.
  - vm_compute. reflexivity.
  - intros url params timeout.
    exists {| status_code := 404; json_ := Raised ValueError |},
           (inject_Z 1700000000), [].
    split; [vm_compute; reflexivity|simpl; lia].
Defined.

(** The connection fails: the fault leaves [fetch_news] after one request. *)
Lemma fetch_news_fault_not_retried_witness :
  exists req w',
    FinnhubConnector_fetch_news Doubles.py Doubles.remote (Doubles.demo Finnhub)
      "aapl" 7 (Doubles.world1 Finnhub []) = (Raised ConnectionError, w') /\
    outbound w' = outbound (Doubles.let_through []) ++ [req] /\
    slept w' = slept (Doubles.let_through []).
Proof.
  apply (fetch_news_fault_not_retried Doubles.py Doubles.remote
           (Doubles.demo Finnhub) "aapl" 7 (Doubles.world1 Finnhub [])
           (Doubles.let_through []) (inject_Z 1700000000 - seconds_of_days 7)
           ConnectionError).
  - simpl. discriminate.
  - vm_compute. reflexivity.
  - vm_compute. reflexivity.
  - intros url params timeout. exists (inject_Z 1700000000), [].
    vm_compute. reflexivity.
Defined.

Lemma fetch_news_without_key_witness :
  FinnhubConnector_fetch_news Doubles.py Doubles.remote (Doubles.keyless Finnhub)
    "aapl" 7 (Doubles.world1 Finnhub [Doubles.ok Doubles.candles]) =
    (Returned (JList []), Doubles.world1 Finnhub [Doubles.ok Doubles.candles]).
Proof.
  apply (fetch_news_without_key Doubles.py Doubles.remote
           (Doubles.keyless Finnhub) "aapl" 7
           (Doubles.world1 Finnhub [Doubles.ok Doubles.candles])).
  reflexivity.
Defined.

(** The two candles of the Finnhub payload, newest first as they came. *)
Lemma finnhub_one_record_per_timestamp_witness :
  List.length (Doubles.returned (fst Doubles.finnhub_body_run)) = 2%nat /\
  forall i r,
    nth_error (Doubles.returned (fst Doubles.finnhub_body_run)) i = Some r ->
    rbind (getitem_int (JList [JInt 1699920000; JInt 1699833600]) i)
          (fromtimestamp Doubles.py) = Returned (timestamp r).
Proof.
  apply (finnhub_one_record_per_timestamp Doubles.py
           (Doubles.constant_remote Doubles.candles) (Doubles.demo Finnhub)
           "aapl" "1d" 7 (Doubles.world1 Finnhub tt)
           (snd Doubles.finnhub_body_run)
           (Doubles.returned (fst Doubles.finnhub_body_run))
           {| status_code := 200; json_ := Returned Doubles.candles |}
           Doubles.candles (JList [JInt 1699920000; JInt 1699833600]) 2%nat).
  - simpl. discriminate.
  - vm_compute. reflexivity.
  - vm_compute. reflexivity.
  - reflexivity.
  - reflexivity.
  - reflexivity.
  - reflexivity.
  - reflexivity.
Defined.

(** A data frame of two rows. *)
Lemma yfinance_one_record_per_row_witness :
  List.length (Doubles.returned (fst Doubles.yfinance_body_run)) = 2%nat /\
  exists rows,
    served_rows (Doubles.history_remote Doubles.frame) rows /\
    List.map timestamp (Doubles.returned (fst Doubles.yfinance_body_run)) =
      List.map fst rows.
Proof.
  split; [reflexivity|].
  apply (yfinance_one_record_per_row Doubles.py
           (Doubles.history_remote Doubles.frame) (Doubles.demo YFinance)
           "aapl" "1d" 7 (Doubles.world1 YFinance tt)
           (snd Doubles.yfinance_body_run)).
  vm_compute. reflexivity.
Defined.
